(** * Lottery analytics pipeline: a shallow embedding of the worker scripts

The development follows the worker sources: [worker-utils.js],
[data-preparer.js], [data-analyzer.js], [backtester.js], the strategy
[strategy-lo-roi-lon.js], and [worker.js] with the text of
[prediction-engine.js], a script that does not parse.  JavaScript
values are rendered as follows.

- Strings are [string]; [s[i]] is [String.get i s] ([None] is
  [undefined]).
- Numbers that the code only ever uses as integers (indices, counters,
  money totals) are [Z]; scores and statistics are IEEE binary64
  [float]s, the representation JavaScript itself uses.
- [Map] and [Set] keep insertion order, so they are association lists
  and duplicate-free lists with the update discipline of the runtime.
- A function that can throw returns a [Result]. *)

From Stdlib Require Import ZArith List String Ascii Bool Lia Floats.
From Stdlib Require Import Permutation Sorted DecimalString.
Import ListNotations.

Set Implicit Arguments.

(** A decimal literal such as [0.8] denotes the nearest binary64 value, as
    it does in the source. *)
Set Warnings "-inexact-float".

(* ================================================================== *)
(** * Exceptions *)

Inductive JsError : Type :=
| InsufficientHistory (required : Z)
    (** [Error("... Cần ít nhất ${MIN_HISTORY_FOR_ANALYSIS} ngày.")] *)
| EmptyHistoryData
    (** [Error("DataAnalyzer: historyData cannot be empty.")] *)
| TypeError (what : string)
| ReferenceError (identifier : string)
| StrategyError (message : string)
| SyntaxError (what : string).

Inductive Result (A : Type) : Type :=
| Ok (a : A)
| Throw (e : JsError).

Arguments Ok {A} a.
Arguments Throw {A} e.

Definition bind {A B} (r : Result A) (k : A -> Result B) : Result B :=
  match r with
  | Ok a => k a
  | Throw e => Throw e
  end.

Notation "x <- r ;; k" := (bind r (fun x => k))
  (at level 61, r at next level, right associativity).

(** [arr.forEach(f)] and [for (const x of arr)] without [break], for a
    body that may throw. *)
Fixpoint forEachM {A S} (body : S -> A -> Result S) (l : list A) (s : S)
  : Result S :=
  match l with
  | [] => Ok s
  | x :: l' => s' <- body s x ;; forEachM body l' s'
  end.

(** [arr.forEach((x, index) => ...)], the index starting at [i]. *)
Fixpoint forEachiM {A S} (body : S -> A -> Z -> Result S) (l : list A)
  (i : Z) (s : S) : Result S :=
  match l with
  | [] => Ok s
  | x :: l' => s' <- body s x i ;; forEachiM body l' (i + 1)%Z s'
  end.

(** One iteration of a loop body either falls through to the next
    iteration or leaves the loop ([break], or a failed loop condition). *)
Inductive Step (S : Type) : Type :=
| Next (s : S)
| Break (s : S).

Arguments Next {S} s.
Arguments Break {S} s.

Fixpoint for_of {A S} (body : A -> S -> Step S) (l : list A) (s : S) : S :=
  match l with
  | [] => s
  | x :: l' =>
      match body x s with
      | Next s' => for_of body l' s'
      | Break s' => s'
      end
  end.

Fixpoint for_ofM {A S} (body : A -> S -> Result (Step S)) (l : list A)
  (s : S) : Result S :=
  match l with
  | [] => Ok s
  | x :: l' =>
      st <- body x s ;;
      match st with
      | Next s' => for_ofM body l' s'
      | Break s' => Ok s'
      end
  end.

(** The values taken by [i] in [for (let i = lo; i <= hi; i++)]. *)
Definition Zrange (lo hi : Z) : list Z :=
  map (fun k => (lo + Z.of_nat k)%Z) (seq 0 (Z.to_nat (hi - lo + 1))).

(** [arr[i]] for a number [i]: [undefined] outside the array. *)
Definition js_nth {A} (l : list A) (i : Z) : option A :=
  if (i <? 0)%Z then None else nth_error l (Z.to_nat i).

Definition len {A} (l : list A) : Z := Z.of_nat (List.length l).

(** [arr.slice(start)] for [0 <= start]. *)
Definition slice_from {A} (l : list A) (start : Z) : list A :=
  skipn (Z.to_nat start) l.

(** [arr.includes(x)] on an array of strings. *)
Definition includes (l : list string) (x : string) : bool :=
  existsb (String.eqb x) l.

(* ================================================================== *)
(** * Numbers *)

Definition Z_to_float (z : Z) : float :=
  match z with
  | Z0 => 0%float
  | Zpos _ => PrimFloat.of_uint63 (Uint63.of_Z z)
  | Zneg p => (- PrimFloat.of_uint63 (Uint63.of_Z (Zpos p)))%float
  end.

(** [isNaN(x)] *)
Definition isNaN (x : float) : bool := negb (PrimFloat.eqb x x).

(** [x || 0] on a number: [NaN], [0] and [-0] are falsy. *)
Definition or_zero (x : float) : float :=
  if isNaN x || PrimFloat.eqb x 0 then 0%float else x.

(** [Math.max(0, x)] *)
Definition max_zero (x : float) : float :=
  if isNaN x then x else if PrimFloat.ltb 0 x then x else 0%float.

(* ================================================================== *)
(** * Map and Set *)

Class KeyEq (K : Type) := keqb : K -> K -> bool.

#[global] Instance KeyEq_string : KeyEq string := String.eqb.
#[global] Instance KeyEq_Z : KeyEq Z := Z.eqb.
#[global] Instance KeyEq_oascii : KeyEq (option ascii) :=
  fun a b =>
    match a, b with
    | Some x, Some y => Ascii.eqb x y
    | None, None => true
    | _, _ => false
    end.
#[global] Instance KeyEq_oZ : KeyEq (option Z) :=
  fun a b =>
    match a, b with
    | Some x, Some y => Z.eqb x y
    | None, None => true
    | _, _ => false
    end.

Module JsMap.
Section Ops.
Context {K V : Type} `{KeyEq K}.

Definition t := list (K * V).

Fixpoint get (k : K) (m : list (K * V)) : option V :=
  match m with
  | [] => None
  | (k', v) :: m' => if keqb k k' then Some v else get k m'
  end.

Definition has (k : K) (m : list (K * V)) : bool :=
  match get k m with Some _ => true | None => false end.

(** [set] keeps the position of a key that is already present and
    appends a new key at the end. *)
Fixpoint set (k : K) (v : V) (m : list (K * V)) : list (K * V) :=
  match m with
  | [] => [(k, v)]
  | (k', v') :: m' =>
      if keqb k k' then (k', v) :: m' else (k', v') :: set k v m'
  end.

(** [new Map(entries)] *)
Definition of_entries (es : list (K * V)) : list (K * V) :=
  fold_left (fun m e => set (fst e) (snd e) m) es [].

Definition keys (m : list (K * V)) : list K := List.map fst m.
End Ops.
End JsMap.

Module JsSet.
Definition has (x : string) (s : list string) : bool := includes s x.
Definition add (x : string) (s : list string) : list string :=
  if has x s then s else s ++ [x].
(** [new Set(arr)], and [[...new Set(arr)]] read back as an array. *)
Definition of_list (l : list string) : list string :=
  fold_left (fun s x => add x s) l [].
End JsSet.

(* ================================================================== *)
(** * Counters kept in a Map

A counter is a number; [undefined + 1] is [NaN], written [None]. *)

(** [v + 1] for the value [v] that [m.get(k)] returned. *)
Definition plus_one (v : option (option Z)) : option Z :=
  match v with
  | Some (Some c) => Some (c + 1)%Z
  | _ => None
  end.

(** [m.set(k, m.get(k) + 1)] *)
Definition bump {K} `{KeyEq K} (k : K) (m : list (K * option Z))
  : list (K * option Z) :=
  JsMap.set k (plus_one (JsMap.get k m)) m.

(** [m.get(k) || 0] on a map whose values are integers. *)
Definition get_or_zero {K} `{KeyEq K} (k : K) (m : list (K * Z)) : Z :=
  match JsMap.get k m with
  | Some c => c
  | None => 0%Z
  end.

(** [m.set(k, (m.get(k) || 0) + 1)] *)
Definition bump_or_zero {K} `{KeyEq K} (k : K) (m : list (K * Z))
  : list (K * Z) :=
  JsMap.set k (get_or_zero k m + 1)%Z m.

(** [arr.slice(0, end)]; [None] is [Infinity]. *)
Definition slice_to {A} (l : list A) (e : option Z) : list A :=
  match e with
  | None => l
  | Some e =>
      firstn (Z.to_nat (if (e <? 0)%Z then Z.max (len l + e) 0 else e)) l
  end.

(* ================================================================== *)
(** * Math.min *)

(** [Math.min(a, b)] *)
Definition js_min (a b : float) : float :=
  if isNaN a || isNaN b then PrimFloat.nan
  else if PrimFloat.ltb a b then a
  else if PrimFloat.ltb b a then b
  else match PrimFloat.classify a with
       | PZero => b
       | _ => a
       end.

(* ================================================================== *)
(** * worker-utils.js *)

Module WorkerUtils.

Definition NUM_PREDICTED_LOTTO_NUMBERS : Z := 16.
Definition MIN_HISTORY_FOR_ANALYSIS : Z := 200.
Definition BACKTEST_WINDOW_SIZE : Z := 150.
Definition HIGH_ACCURACY_THRESHOLD : Z := 10.
Definition PROFIT_THRESHOLD_DEFAULT : Z := 5.

(** [String(i)] for a non-negative integer. *)
Definition String_of_nat (i : nat) : string :=
  NilEmpty.string_of_uint (Nat.to_uint i).

(** [s.padStart(n, '0')] *)
Definition padStart0 (n : nat) (s : string) : string :=
  String.concat "" (repeat "0"%string (n - String.length s)) ++ s.

(** [Array.from({ length: 100 }, (_, i) => String(i).padStart(2, '0'))] *)
Definition ALL_LOTTO_NUMBERS : list string :=
  map (fun i => padStart0 2 (String_of_nat i)) (seq 0 100).

Definition generateAllLottoNumbers : list string := ALL_LOTTO_NUMBERS.

(** The one-character string [s[i]], or [undefined]. *)
Definition char_at (i : nat) (s : string) : option ascii := String.get i s.

Definition str1 (c : ascii) : string := String c EmptyString.

(** [(numStr.length === 2 && numStr[0] !== numStr[1])
       ? (numStr[1] + numStr[0]) : numStr] *)
Definition reverseNumber (numStr : string) : string :=
  match char_at 0 numStr, char_at 1 numStr with
  | Some a, Some b =>
      if (String.length numStr =? 2)%nat && negb (Ascii.eqb a b)
      then String b (String a EmptyString)
      else numStr
  | _, _ => numStr
  end.

(** [isKep] *)
Definition isKep (numStr : string) : bool :=
  (String.length numStr =? 2)%nat
  && keqb (char_at 0 numStr) (char_at 1 numStr).

(** [parseInt] of a one-character string: the digit value, or [NaN]
    ([None]). *)
Definition digit_value (c : ascii) : option Z :=
  let n := nat_of_ascii c in
  if (48 <=? n)%nat && (n <=? 57)%nat then Some (Z.of_nat (n - 48))
  else None.

(** [(numStr.length === 2)
       ? (parseInt(numStr[0]) + parseInt(numStr[1])) : -1];
    [None] is [NaN]. *)
Definition calculateTotal (numStr : string) : option Z :=
  if (String.length numStr =? 2)%nat then
    match char_at 0 numStr, char_at 1 numStr with
    | Some a, Some b =>
        match digit_value a, digit_value b with
        | Some x, Some y => Some (x + y)%Z
        | _, _ => None
        end
    | _, _ => None
    end
  else Some (-1)%Z.

Definition BONG_SO_MAP : list (ascii * ascii) :=
  [ ("0", "5"); ("1", "6"); ("2", "7"); ("3", "8"); ("4", "9");
    ("5", "0"); ("6", "1"); ("7", "2"); ("8", "3"); ("9", "4") ]%char.

(** [this.BONG_SO_MAP[digit] || null] *)
Definition getBongSo (digit : ascii) : option ascii :=
  match find (fun e => Ascii.eqb (fst e) digit) BONG_SO_MAP with
  | Some e => Some (snd e)
  | None => None
  end.

(** [getLotoBong]; [None] is [null]. *)
Definition getLotoBong (numStr : string) : option string :=
  if negb (String.length numStr =? 2)%nat then None
  else
    match char_at 0 numStr, char_at 1 numStr with
    | Some a, Some b =>
        match getBongSo a, getBongSo b with
        | Some bongHead, Some bongTail =>
            Some (String bongHead (String bongTail EmptyString))
        | _, _ => None
        end
    | _, _ => None
    end.

(** [new Set([...new Set(arr1)].filter(x => new Set(arr2).has(x)))] *)
Definition getIntersection (arr1 arr2 : list string) : list string :=
  JsSet.of_list
    (filter (fun x => JsSet.has x (JsSet.of_list arr2)) (JsSet.of_list arr1)).

(** [new Set([...arr1, ...arr2])] *)
Definition getUnion (arr1 arr2 : list string) : list string :=
  JsSet.of_list (arr1 ++ arr2).

(** [const set2 = new Set(arr2);
     new Set([...arr1].filter(x => !set2.has(x)))] *)
Definition getDifference (arr1 arr2 : list string) : list string :=
  let set2 := JsSet.of_list arr2 in
  JsSet.of_list (filter (fun x => negb (JsSet.has x set2)) arr1).

End WorkerUtils.

(* ------------------------------------------------------------------ *)
(** ** Statistical utilities of worker-utils.js

[sumArray], [averageArray] and [standardDeviation] are arrow
functions written inside the object literal handed to
[Object.assign].  An arrow function has no [this] of its own: inside
[averageArray], [this.sumArray] is a property lookup on the [this] of
the enclosing script.  That binding is made explicit here. *)

Module Stats.

Record ThisScope : Type :=
  { this_sumArray : option (list float -> float) }.

(** [arr.reduce((acc, val) => acc + val, 0)] *)
Definition sumArray (arr : list float) : float :=
  fold_left (fun acc val => (acc + val)%float) arr 0%float.

(** The [this] of a classic worker script is the worker global object,
    and no script of the repository defines a global [sumArray]. *)
Definition worker_global : ThisScope := {| this_sumArray := None |}.

Section WithThis.
Variable this : ThisScope.

(** [arr.length === 0 ? 0 : this.sumArray(arr) / arr.length] *)
Definition averageArray (arr : list float) : Result float :=
  if (len arr =? 0)%Z then Ok 0%float
  else
    match this_sumArray this with
    | Some f => Ok (f arr / Z_to_float (len arr))%float
    | None => Throw (TypeError "this.sumArray is not a function")
    end.

(** Sample standard deviation; [Math.pow(d, 2)] is the product
    [d * d]. *)
Definition standardDeviation (arr : list float) : Result float :=
  if (len arr <? 2)%Z then Ok 0%float
  else
    mean <- averageArray arr ;;
    let sumOfSquares :=
      fold_left
        (fun sum val => (sum + (val - mean) * (val - mean))%float)
        arr 0%float in
    Ok (PrimFloat.sqrt (sumOfSquares / Z_to_float (len arr - 1))).
End WithThis.

End Stats.

(* ================================================================== *)
(** * Array.prototype.sort and parseInt *)

(** [arr.sort(compare)] is stable.  [gt a b] says that [compare(a, b)] is
    positive, the only case in which [a] has to move behind [b]; a [NaN]
    result counts as zero. *)
Section Sort.
Context {A : Type} (gt : A -> A -> bool).

Fixpoint sort_insert (x : A) (l : list A) : list A :=
  match l with
  | [] => [x]
  | y :: l' => if gt x y then y :: sort_insert x l' else x :: y :: l'
  end.

Fixpoint js_sort (l : list A) : list A :=
  match l with
  | [] => []
  | x :: l' => sort_insert x (js_sort l')
  end.
End Sort.

Module ParseInt.

Definition is_white (c : ascii) : bool :=
  let n := nat_of_ascii c in
  ((9 <=? n) && (n <=? 13) || (n =? 32))%nat.

Fixpoint skip_white (s : string) : string :=
  match s with
  | String c s' => if is_white c then skip_white s' else s
  | EmptyString => s
  end.

(** The value of [c] as a digit in the given radix (10 or 16). *)
Definition digit_in (radix : Z) (c : ascii) : option Z :=
  let n := nat_of_ascii c in
  if (48 <=? n)%nat && (n <=? 57)%nat then Some (Z.of_nat (n - 48))
  else if (radix =? 16)%Z && (97 <=? n)%nat && (n <=? 102)%nat
       then Some (Z.of_nat (n - 87))
  else if (radix =? 16)%Z && (65 <=? n)%nat && (n <=? 70)%nat
       then Some (Z.of_nat (n - 55))
  else None.

(** Reads the longest prefix of digits; [None] when there is none. *)
Fixpoint read_digits (radix : Z) (acc : option Z) (s : string) : option Z :=
  match s with
  | String c s' =>
      match digit_in radix c with
      | Some d =>
          read_digits radix
            (Some (match acc with Some a => a * radix + d | None => d end)%Z)
            s'
      | None => acc
      end
  | EmptyString => acc
  end.

Definition read_unsigned (s : string) : option Z :=
  match s with
  | String "0" (String "x" s') => read_digits 16 None s'
  | String "0" (String "X" s') => read_digits 16 None s'
  | _ => read_digits 10 None s
  end.

(** [parseInt(s)] without a radix argument, on ASCII input; [None] is
    [NaN]. *)
Definition parseInt (s : string) : option Z :=
  match skip_white s with
  | String "-" s' => option_map Z.opp (read_unsigned s')
  | String "+" s' => read_unsigned s'
  | s' => read_unsigned s'
  end.

(** [parseInt(s, 10)]: no hexadecimal prefix is recognised. *)
Definition parseInt10 (s : string) : option Z :=
  match skip_white s with
  | String "-" s' => option_map Z.opp (read_digits 10 None s')
  | String "+" s' => read_digits 10 None s'
  | s' => read_digits 10 None s'
  end.

End ParseInt.

(* ================================================================== *)
(** * data-preparer.js *)

(** A [Date]: its time value and the weekday [getDay()] reports. *)
Record JsDate : Type := { timeValue : Z; getDay : nat }.

Record OrganizedDay : Type :=
  { o_date : JsDate; o_numbers : list string }.

(** The fields of a prepared record that the analyses below read.  The
    remaining derived fields ([twoHits], [kepNumbersLanded], ...) are
    functions of [numbers] alone and are not reproduced. *)
Record DayInfo : Type :=
  { date : JsDate;
    dayOfWeek : nat;
    numbers : list string;
    uniqueNumbers : list string }.

Module DataPreparer.

Definition prepareDay (dayEntry : OrganizedDay) : DayInfo :=
  {| date := o_date dayEntry;
     dayOfWeek := getDay (o_date dayEntry);
     numbers := o_numbers dayEntry;
     uniqueNumbers := JsSet.of_list (o_numbers dayEntry) |}.

Definition prepareHistoricalData (organizedData : list OrganizedDay)
  : list DayInfo :=
  match organizedData with
  | [] => []
  | _ => map prepareDay organizedData
  end.

(** ** Derived lists of one day

The callback of [prepareHistoricalData] computes further lists from
[numbers] and [uniqueNumbers]; each is the expression of the source. *)

(** [numbers.forEach(num =>
       dailyFrequencyMap.set(num, (dailyFrequencyMap.get(num) || 0) + 1))] *)
Definition dailyFrequencyMap (numbers : list string) : list (string * Z) :=
  fold_left (fun m num => bump_or_zero num m) numbers [].

(** [entries.filter(([_, count]) => count >= 2).map(([num, _]) => num)] *)
Definition twoHits (numbers : list string) : list string :=
  map fst (filter (fun e => (snd e >=? 2)%Z) (dailyFrequencyMap numbers)).

Definition threeHits (numbers : list string) : list string :=
  map fst (filter (fun e => (snd e >=? 3)%Z) (dailyFrequencyMap numbers)).

Definition kepNumbersLanded (uniqueNumbers : list string) : list string :=
  filter WorkerUtils.isKep uniqueNumbers.

(** [reversed !== num && uniqueNumbers.includes(reversed)] *)
Definition reversedPairsLanded (uniqueNumbers : list string) : list string :=
  filter
    (fun num =>
       let reversed := WorkerUtils.reverseNumber num in
       negb (String.eqb reversed num) && includes uniqueNumbers reversed)
    uniqueNumbers.

(** [bong && bong !== num && uniqueNumbers.includes(bong)] *)
Definition bongNumbersLanded (uniqueNumbers : list string) : list string :=
  filter
    (fun num =>
       match WorkerUtils.getLotoBong num with
       | Some bong =>
           negb (String.eqb bong EmptyString)
           && negb (String.eqb bong num)
           && includes uniqueNumbers bong
       | None => false
       end)
    uniqueNumbers.

End DataPreparer.

(* ================================================================== *)
(** * data-analyzer.js *)

Module GanEntry.
Record t : Type :=
  { daysGone : Z; lastSeenDate : option JsDate; lastSeenIndex : Z }.
End GanEntry.

Module CycleInfo.
Record t : Type :=
  { appearances : list Z;
    avgCycle : float;
    lastSeenIndex : Z;
    daysSinceLast : Z;
    cycles : list Z;
    nextDueApprox : float;
    consistencyScore : float;
    cycleVariance : float }.

Definition initial : t :=
  {| appearances := []; avgCycle := 0%float; lastSeenIndex := (-1)%Z;
     daysSinceLast := (-1)%Z; cycles := []; nextDueApprox := (-1)%float;
     consistencyScore := 0%float; cycleVariance := 0%float |}.

(** [info.appearances.push(index)] *)
Definition push_appearance (index : Z) (info : t) : t :=
  {| appearances := appearances info ++ [index];
     avgCycle := avgCycle info; lastSeenIndex := lastSeenIndex info;
     daysSinceLast := daysSinceLast info; cycles := cycles info;
     nextDueApprox := nextDueApprox info;
     consistencyScore := consistencyScore info;
     cycleVariance := cycleVariance info |}.

Definition set_lastSeenIndex (i : Z) (info : t) : t :=
  {| appearances := appearances info;
     avgCycle := avgCycle info; lastSeenIndex := i;
     daysSinceLast := daysSinceLast info; cycles := cycles info;
     nextDueApprox := nextDueApprox info;
     consistencyScore := consistencyScore info;
     cycleVariance := cycleVariance info |}.

Definition set_daysSinceLast (d : Z) (info : t) : t :=
  {| appearances := appearances info;
     avgCycle := avgCycle info; lastSeenIndex := lastSeenIndex info;
     daysSinceLast := d; cycles := cycles info;
     nextDueApprox := nextDueApprox info;
     consistencyScore := consistencyScore info;
     cycleVariance := cycleVariance info |}.
End CycleInfo.

(** An item of [getFilteredGanNumbers]: [{ number: num, ...data }]. *)
Module GanItem.
Record t : Type :=
  { number : string;
    daysGone : Z;
    lastSeenDate : option JsDate;
    lastSeenIndex : Z }.
End GanItem.

(** An entry of [getHistoricalGanAnalysis]. *)
Module GanHistory.
Record t : Type :=
  { ganLengths : list Z;
    avgGan : float;
    stdDevGan : float;
    lastGanPeriod : Z }.

Definition initial : t :=
  {| ganLengths := []; avgGan := 0%float; stdDevGan := 0%float;
     lastGanPeriod := 0%Z |}.
End GanHistory.

(** [arr.forEach((x, index) => ...)] for a body that cannot throw. *)
Fixpoint forEachi {A S} (body : S -> A -> Z -> S) (l : list A) (i : Z)
  (s : S) : S :=
  match l with
  | [] => s
  | x :: l' => forEachi body l' (i + 1)%Z (body s x i)
  end.

Module DataAnalyzer.

Record t : Type :=
  { historyData : list DayInfo;
    allLottoNumbers : list string;
    currentDayIndex : Z }.

(** The constructor; [None] is an absent ([null], [undefined])
    argument. *)
Definition new (h : option (list DayInfo)) : Result t :=
  match h with
  | None => Throw EmptyHistoryData
  | Some l =>
      if (len l =? 0)%Z then Throw EmptyHistoryData
      else Ok {| historyData := l;
                 allLottoNumbers := WorkerUtils.generateAllLottoNumbers;
                 currentDayIndex := len l |}
  end.

Section Methods.
Variable this : t.

Definition _getHistorySlice (daysLookback : Z) : list DayInfo :=
  if (daysLookback =? 0)%Z then []
  else slice_from (historyData this)
         (Z.max 0 (len (historyData this) - daysLookback)).

(* -------------------------------------------------------------- *)
(** *** getGanStatus *)

Definition lastAppearanceMap : list (string * Z) :=
  forEachi
    (fun m dayInfo index =>
       fold_left (fun m num => JsMap.set num index m)
         (uniqueNumbers dayInfo) m)
    (historyData this) 0%Z [].

Definition getGanStatus : Result (list (string * GanEntry.t)) :=
  forEachM
    (fun ganMap num =>
       match JsMap.get num lastAppearanceMap with
       | Some lastSeenIndex =>
           match js_nth (historyData this) lastSeenIndex with
           | Some dayInfo =>
               Ok (JsMap.set num
                     {| GanEntry.daysGone :=
                          (currentDayIndex this - lastSeenIndex - 1)%Z;
                        GanEntry.lastSeenDate := Some (date dayInfo);
                        GanEntry.lastSeenIndex := lastSeenIndex |}
                     ganMap)
           | None =>
               Throw (TypeError "historyData[lastSeenIndex] is undefined")
           end
       | None =>
           Ok (JsMap.set num
                 {| GanEntry.daysGone := currentDayIndex this;
                    GanEntry.lastSeenDate := None;
                    GanEntry.lastSeenIndex := (-1)%Z |}
                 ganMap)
       end)
    (allLottoNumbers this) [].

(* -------------------------------------------------------------- *)
(** *** getConsistentPeriodBridge *)

(** [numberAppearanceIndices.get(num).push(index)] for every number
    of every record of the slice. *)
Definition collectIndices (startIndex : Z) (historySlice : list DayInfo)
  (m0 : list (string * list Z)) : Result (list (string * list Z)) :=
  forEachiM
    (fun m dayInfo relativeIndex =>
       forEachM
         (fun m num =>
            match JsMap.get num m with
            | Some indices =>
                Ok (JsMap.set num
                      (indices ++ [(startIndex + relativeIndex)%Z]) m)
            | None =>
                Throw (TypeError "numberAppearanceIndices.get(num) is undefined")
            end)
         (uniqueNumbers dayInfo) m)
    historySlice 0%Z m0.

(** [indices[a] - indices[b]]; [None] is [NaN]. *)
Definition index_diff (indices : list Z) (a b : Z) : option Z :=
  match js_nth indices a, js_nth indices b with
  | Some x, Some y => Some (x - y)%Z
  | _, _ => None
  end.

(** The innermost loop over [j]. *)
Definition isConsistentRun (indices : list Z) (minOccurrences period i : Z)
  : bool :=
  for_of
    (fun j isConsistent =>
       if negb (keqb (index_diff indices (i + j + 1) (i + j))
                  (Some period))
       then Break false
       else Next isConsistent)
    (Zrange 0 (minOccurrences - 2)) true.

(** The loop over [i] for one [period]. *)
Definition scanPeriod (num : string) (indices : list Z)
  (minOccurrences period : Z) (bridgeCandidates : list string)
  : list string :=
  for_of
    (fun i bridgeCandidates =>
       if isConsistentRun indices minOccurrences period i then
         let potentialNextIndex :=
           match js_nth indices (i + minOccurrences - 1) with
           | Some lastIndexInPattern => Some (lastIndexInPattern + period)%Z
           | None => None
           end in
         if keqb potentialNextIndex (Some (currentDayIndex this))
         then Break (JsSet.add num bridgeCandidates)
         else Next bridgeCandidates
       else Next bridgeCandidates)
    (Zrange 0 (len indices - minOccurrences)) bridgeCandidates.

Definition getConsistentPeriodBridge
  (minOccurrences maxPeriod daysLookback : Z) : Result (list string) :=
  let numberAppearanceIndices :=
    JsMap.of_entries
      (map (fun num => (num, @nil Z)) (allLottoNumbers this)) in
  let historySlice := _getHistorySlice daysLookback in
  let startIndex := (len (historyData this) - len historySlice)%Z in
  m <- collectIndices startIndex historySlice numberAppearanceIndices ;;
  Ok (fold_left
        (fun bridgeCandidates entry =>
           let num := fst entry in
           let indices := snd entry in
           if (len indices >=? minOccurrences)%Z then
             fold_left
               (fun bridgeCandidates period =>
                  scanPeriod num indices minOccurrences period
                    bridgeCandidates)
               (Zrange 1 maxPeriod) bridgeCandidates
           else bridgeCandidates)
        m []).

(* -------------------------------------------------------------- *)
(** *** getNumberCycleAnalysis *)

(** [for (i = 1; i < a.length; i++) cycles.push(a[i] - a[i - 1])] *)
Fixpoint gaps (a : list Z) : list Z :=
  match a with
  | x :: ((y :: _) as rest) => (y - x)%Z :: gaps rest
  | _ => []
  end.

Definition collectAppearances (m0 : list (string * CycleInfo.t))
  : Result (list (string * CycleInfo.t)) :=
  forEachiM
    (fun m dayInfo index =>
       forEachM
         (fun m num =>
            match JsMap.get num m with
            | Some info =>
                Ok (JsMap.set num (CycleInfo.push_appearance index info) m)
            | None => Throw (TypeError "cycleInfo.get(num) is undefined")
            end)
         (uniqueNumbers dayInfo) m)
    (historyData this) 0%Z m0.

(** The body of [cycleInfo.forEach((info, num) => ...)]. *)
Definition finishCycle (scope : Stats.ThisScope) (info : CycleInfo.t)
  : Result CycleInfo.t :=
  let currentDayIndex := len (historyData this) in
  let a := CycleInfo.appearances info in
  info1 <-
    (if (len a >=? 2)%Z then
       let cycles := CycleInfo.cycles info ++ gaps a in
       avgCycle <- Stats.averageArray scope (map Z_to_float cycles) ;;
       cycleVariance <-
         Stats.standardDeviation scope (map Z_to_float cycles) ;;
       Ok {| CycleInfo.appearances := a;
             CycleInfo.avgCycle := avgCycle;
             CycleInfo.lastSeenIndex := CycleInfo.lastSeenIndex info;
             CycleInfo.daysSinceLast := CycleInfo.daysSinceLast info;
             CycleInfo.cycles := cycles;
             CycleInfo.nextDueApprox :=
               (Z_to_float (last a 0%Z) + avgCycle)%float;
             CycleInfo.consistencyScore :=
               if PrimFloat.eqb cycleVariance 0 || isNaN cycleVariance
               then 1%float
               else (1 / (1 + cycleVariance))%float;
             CycleInfo.cycleVariance := cycleVariance |}
     else Ok info) ;;
  let info2 :=
    if (len a >? 0)%Z
    then CycleInfo.set_lastSeenIndex (last a 0%Z) info1
    else info1 in
  Ok (if negb (CycleInfo.lastSeenIndex info2 =? -1)%Z
      then CycleInfo.set_daysSinceLast
             (currentDayIndex - CycleInfo.lastSeenIndex info2 - 1)%Z info2
      else CycleInfo.set_daysSinceLast currentDayIndex info2).

Definition getNumberCycleAnalysis (scope : Stats.ThisScope)
  (minCycleCount : Z) : Result (list (string * CycleInfo.t)) :=
  let cycleInfo :=
    JsMap.of_entries
      (map (fun num => (num, CycleInfo.initial)) (allLottoNumbers this)) in
  m <- collectAppearances cycleInfo ;;
  forEachM
    (fun acc entry =>
       info <- finishCycle scope (snd entry) ;;
       Ok (acc ++ [(fst entry, info)]))
    m [].

(* -------------------------------------------------------------- *)
(** *** getConsecutiveAppearance *)

(** The backward loop for one number; leaving through the loop
    condition [(length - i) >= 0] is a [Break]. *)
Definition countBackward (num : string) (maxConsecutiveDays : Z)
  : Result Z :=
  for_ofM
    (fun i currentConsecutive =>
       if negb (len (historyData this) - i >=? 0)%Z
       then Ok (Break currentConsecutive)
       else
         match js_nth (historyData this) (len (historyData this) - i) with
         | Some dayInfo =>
             if includes (uniqueNumbers dayInfo) num
             then Ok (Next (currentConsecutive + 1)%Z)
             else Ok (Break currentConsecutive)
         | None => Throw (TypeError "historyData[length - i] is undefined")
         end)
    (Zrange 1 maxConsecutiveDays) 0%Z.

Definition getConsecutiveAppearance (maxConsecutiveDays : Z)
  : Result (list (string * Z)) :=
  let consecutiveMap :=
    JsMap.of_entries (map (fun num => (num, 0%Z)) (allLottoNumbers this)) in
  if (len (historyData this) <? maxConsecutiveDays)%Z
  then Ok consecutiveMap
  else
    forEachM
      (fun consecutiveMap num =>
         currentConsecutive <- countBackward num maxConsecutiveDays ;;
         Ok (if (currentConsecutive >? 0)%Z
             then JsMap.set num currentConsecutive consecutiveMap
             else consecutiveMap))
      (allLottoNumbers this) consecutiveMap.

(* -------------------------------------------------------------- *)
(** *** Convenience getters *)

(** [length > 0 ? historyData[length - 1].uniqueNumbers : []] *)
Definition getLastDayNumbers : list string :=
  match js_nth (historyData this) (len (historyData this) - 1) with
  | Some dayInfo => uniqueNumbers dayInfo
  | None => []
  end.

(* -------------------------------------------------------------- *)
(** *** getNumbersFrequency, getHotNumbers, getColdNumbers *)

Definition getNumbersFrequency (daysLookback : Z)
  : list (string * option Z) :=
  let frequencyMap :=
    JsMap.of_entries
      (map (fun num => (num, Some 0%Z)) (allLottoNumbers this)) in
  let recentHistory := _getHistorySlice daysLookback in
  fold_left
    (fun frequencyMap dayInfo =>
       fold_left (fun frequencyMap num => bump num frequencyMap)
         (numbers dayInfo) frequencyMap)
    recentHistory frequencyMap.

(** [compare(a, b) = b[1] - a[1]] is positive. *)
Definition byCountDesc (a b : string * option Z) : bool :=
  match snd b, snd a with
  | Some y, Some x => (0 <? y - x)%Z
  | _, _ => false
  end.

(** [compare(a, b) = a[1] - b[1]] is positive. *)
Definition byCountAsc (a b : string * option Z) : bool :=
  match snd a, snd b with
  | Some x, Some y => (0 <? x - y)%Z
  | _, _ => false
  end.

Definition getHotNumbers (topN daysLookback : Z) : list string :=
  let freqMap := getNumbersFrequency daysLookback in
  map fst (slice_to (js_sort byCountDesc freqMap) (Some topN)).

(** [entry[1] === minFreq]; [NaN] equals nothing. *)
Definition sameCount (x y : option Z) : bool :=
  match x, y with
  | Some a, Some b => (a =? b)%Z
  | _, _ => false
  end.

Definition getColdNumbers (topN daysLookback : Z) : list string :=
  let freqMap := getNumbersFrequency daysLookback in
  let coldList := js_sort byCountAsc freqMap in
  let minFreq :=
    match coldList with
    | entry :: _ => snd entry
    | [] => Some 0%Z
    end in
  map fst
    (slice_to (filter (fun entry => sameCount (snd entry) minFreq) coldList)
       (Some topN)).

(* -------------------------------------------------------------- *)
(** *** getFilteredGanNumbers, getGanKepNumbers *)

(** [maxDaysGan] and [topN] default to [Infinity], written [None]. *)
Definition getFilteredGanNumbers (minDaysGan : Z) (maxDaysGan topN : option Z)
  : Result (list GanItem.t) :=
  ganStatus <- getGanStatus ;;
  let items :=
    map (fun entry =>
           {| GanItem.number := fst entry;
              GanItem.daysGone := GanEntry.daysGone (snd entry);
              GanItem.lastSeenDate := GanEntry.lastSeenDate (snd entry);
              GanItem.lastSeenIndex := GanEntry.lastSeenIndex (snd entry) |})
      ganStatus in
  let kept :=
    filter
      (fun item =>
         (GanItem.daysGone item >=? minDaysGan)%Z
         && match maxDaysGan with
            | Some maxDays => (GanItem.daysGone item <=? maxDays)%Z
            | None => true
            end)
      items in
  Ok (slice_to
        (js_sort
           (fun a b => (0 <? GanItem.daysGone b - GanItem.daysGone a)%Z)
           kept)
        topN).

(** [ganKepMap.set(kep, ganStatus.get(kep))]; a missing entry is stored
    as [undefined] ([None]). *)
Definition getGanKepNumbers : Result (list (string * option GanEntry.t)) :=
  let kepNumbers := filter WorkerUtils.isKep (allLottoNumbers this) in
  ganStatus <- getGanStatus ;;
  Ok (fold_left
        (fun ganKepMap kep => JsMap.set kep (JsMap.get kep ganStatus) ganKepMap)
        kepNumbers []).

(* -------------------------------------------------------------- *)
(** *** getLoRoiCandidates, getLoLonCandidates *)

(** The loop over [i] for one number; the state is
    [(dropCount, lastFound)]. *)
Definition countDrops (historySlice : list DayInfo) (num : string)
  (mustBeConsecutive : bool) : Result (Z * bool) :=
  for_ofM
    (fun i st =>
       match js_nth historySlice i, js_nth historySlice (i - 1) with
       | Some currentDay, Some prevDay =>
           if includes (uniqueNumbers prevDay) num then
             if includes (uniqueNumbers currentDay) num
             then Ok (Next ((fst st + 1)%Z, snd st))
             else if mustBeConsecutive then Ok (Break (fst st, false))
             else Ok (Next st)
           else Ok (Next st)
       | _, _ => Throw (TypeError "historySlice[i] is undefined")
       end)
    (Zrange 1 (len historySlice - 1)) (0%Z, true).

Definition getLoRoiCandidates (daysLookback : Z) (mustBeConsecutive : bool)
  : Result (list (string * Z)) :=
  let historySlice := _getHistorySlice (daysLookback + 1) in
  if (len historySlice <? 2)%Z then Ok []
  else
    forEachM
      (fun loRoiCounts num =>
         st <- countDrops historySlice num mustBeConsecutive ;;
         let dropCount := fst st in
         let lastFound := snd st in
         Ok (if (dropCount >? 0)%Z
                && negb (mustBeConsecutive && negb lastFound)
             then JsMap.set num dropCount loRoiCounts
             else loRoiCounts))
      (allLottoNumbers this) [].

Definition getLoLonCandidates (daysLookback : Z) (bidirectional : bool)
  : list (string * Z) :=
  let historySlice := _getHistorySlice daysLookback in
  fold_left
    (fun loLonCounts dayInfo =>
       fold_left
         (fun loLonCounts num =>
            let reversedNum := WorkerUtils.reverseNumber num in
            if negb (String.eqb reversedNum num) then
              let loLonCounts := bump_or_zero reversedNum loLonCounts in
              if bidirectional
                 && includes (uniqueNumbers dayInfo) reversedNum
              then bump_or_zero num loLonCounts
              else loLonCounts
            else loLonCounts)
         (uniqueNumbers dayInfo) loLonCounts)
    historySlice [].

(* -------------------------------------------------------------- *)
(** *** getBongNumberCoOccurrences, getReverseCoOccurrences *)

Definition getBongNumberCoOccurrences (daysLookback : Z)
  : list (string * option Z) :=
  let bongCoOccurrences :=
    JsMap.of_entries
      (map (fun num => (num, Some 0%Z)) (allLottoNumbers this)) in
  let recentHistory := _getHistorySlice daysLookback in
  fold_left
    (fun bongCoOccurrences dayInfo =>
       fold_left
         (fun bongCoOccurrences num =>
            match WorkerUtils.getLotoBong num with
            | Some bongNum =>
                if negb (String.eqb bongNum EmptyString)
                   && negb (String.eqb bongNum num)
                   && includes (uniqueNumbers dayInfo) bongNum
                then bump bongNum (bump num bongCoOccurrences)
                else bongCoOccurrences
            | None => bongCoOccurrences
            end)
         (uniqueNumbers dayInfo) bongCoOccurrences)
    recentHistory bongCoOccurrences.

Definition getReverseCoOccurrences (daysLookback : Z)
  : list (string * option Z) :=
  let reverseCoOccurrences :=
    JsMap.of_entries
      (map (fun num => (num, Some 0%Z)) (allLottoNumbers this)) in
  let recentHistory := _getHistorySlice daysLookback in
  fold_left
    (fun reverseCoOccurrences dayInfo =>
       fold_left
         (fun reverseCoOccurrences num =>
            let reversedNum := WorkerUtils.reverseNumber num in
            if negb (String.eqb reversedNum num)
               && includes (uniqueNumbers dayInfo) reversedNum
            then bump reversedNum (bump num reverseCoOccurrences)
            else reverseCoOccurrences)
         (uniqueNumbers dayInfo) reverseCoOccurrences)
    recentHistory reverseCoOccurrences.

(* -------------------------------------------------------------- *)
(** *** getSandwichedNumbers *)

Definition getSandwichedNumbers (daysLookback : Z) : Result (list string) :=
  let historySlice := _getHistorySlice daysLookback in
  if (len historySlice <? 3)%Z then Ok []
  else
    forEachM
      (fun sandwichedCandidates i =>
         match js_nth historySlice i, js_nth historySlice (i + 1),
               js_nth historySlice (i + 2) with
         | Some a, Some x, Some b =>
             let dayA := JsSet.of_list (uniqueNumbers a) in
             let dayX := JsSet.of_list (uniqueNumbers x) in
             let dayB := JsSet.of_list (uniqueNumbers b) in
             Ok (fold_left
                   (fun sandwichedCandidates numA =>
                      if JsSet.has numA dayB then
                        fold_left
                          (fun sandwichedCandidates numX =>
                             JsSet.add numX sandwichedCandidates)
                          dayX sandwichedCandidates
                      else sandwichedCandidates)
                   dayA sandwichedCandidates)
         | _, _, _ => Throw (TypeError "historySlice[i] is undefined")
         end)
      (Zrange 0 (len historySlice - 3)) [].

(* -------------------------------------------------------------- *)
(** *** getHistoricalGanAnalysis *)

(** The loop over the records for one number; the state is
    [(lastAppearanceIndex, currentConsecutiveAbsence, ganLengths)]. *)
Definition scanAbsences (num : string) (ganLengths : list Z)
  : Z * Z * list Z :=
  forEachi
    (fun st dayInfo i =>
       let '(lastAppearanceIndex, currentConsecutiveAbsence, ganLengths) :=
         st in
       if includes (uniqueNumbers dayInfo) num then
         (i, 0%Z,
          if negb (lastAppearanceIndex =? -1)%Z
          then ganLengths ++ [currentConsecutiveAbsence]
          else ganLengths)
       else
         (lastAppearanceIndex, (currentConsecutiveAbsence + 1)%Z, ganLengths))
    (historyData this) 0%Z ((-1)%Z, 0%Z, ganLengths).

Definition getHistoricalGanAnalysis (scope : Stats.ThisScope)
  : Result (list (string * GanHistory.t)) :=
  let ganHistoryMap :=
    JsMap.of_entries
      (map (fun num => (num, GanHistory.initial)) (allLottoNumbers this)) in
  forEachM
    (fun ganHistoryMap num =>
       match JsMap.get num ganHistoryMap with
       | None => Throw (TypeError "historyForNum is undefined")
       | Some historyForNum =>
           let '(lastAppearanceIndex, currentConsecutiveAbsence, ganLengths) :=
             scanAbsences num (GanHistory.ganLengths historyForNum) in
           let lastGanPeriod :=
             if negb (lastAppearanceIndex =? -1)%Z
             then currentConsecutiveAbsence
             else len (historyData this) in
           if (len ganLengths >? 0)%Z then
             avgGan <- Stats.averageArray scope (map Z_to_float ganLengths) ;;
             stdDevGan <-
               Stats.standardDeviation scope (map Z_to_float ganLengths) ;;
             Ok (JsMap.set num
                   {| GanHistory.ganLengths := ganLengths;
                      GanHistory.avgGan := avgGan;
                      GanHistory.stdDevGan := stdDevGan;
                      GanHistory.lastGanPeriod := lastGanPeriod |}
                   ganHistoryMap)
           else
             Ok (JsMap.set num
                   {| GanHistory.ganLengths := ganLengths;
                      GanHistory.avgGan := GanHistory.avgGan historyForNum;
                      GanHistory.stdDevGan :=
                        GanHistory.stdDevGan historyForNum;
                      GanHistory.lastGanPeriod := lastGanPeriod |}
                   ganHistoryMap)
       end)
    (allLottoNumbers this) ganHistoryMap.

(* -------------------------------------------------------------- *)
(** *** getZoneFrequencies, getZoneForNumber *)

(** [num >= lo && num <= hi]; a comparison with [NaN] is false. *)
Definition within (num : option Z) (lo hi : Z) : bool :=
  match num with
  | Some n => (n >=? lo)%Z && (n <=? hi)%Z
  | None => false
  end.

Definition getZoneFrequencies (daysLookback : Z)
  : list (string * option Z) :=
  let zoneFreq :=
    JsMap.of_entries
      [("Zone1", Some 0%Z); ("Zone2", Some 0%Z);
       ("Zone3", Some 0%Z); ("Zone4", Some 0%Z)]%string in
  let recentHistory := _getHistorySlice daysLookback in
  fold_left
    (fun zoneFreq dayInfo =>
       fold_left
         (fun zoneFreq numStr =>
            let num := ParseInt.parseInt10 numStr in
            if within num 0 24 then bump "Zone1"%string zoneFreq
            else if within num 25 49 then bump "Zone2"%string zoneFreq
            else if within num 50 74 then bump "Zone3"%string zoneFreq
            else if within num 75 99 then bump "Zone4"%string zoneFreq
            else zoneFreq)
         (uniqueNumbers dayInfo) zoneFreq)
    recentHistory zoneFreq.

(** [None] is [null]. *)
Definition getZoneForNumber (numStr : string) : option string :=
  let num := ParseInt.parseInt10 numStr in
  if within num 0 24 then Some "Zone1"%string
  else if within num 25 49 then Some "Zone2"%string
  else if within num 50 74 then Some "Zone3"%string
  else if within num 75 99 then Some "Zone4"%string
  else None.

End Methods.

End DataAnalyzer.

(* ================================================================== *)
(** * prediction-engine.js

The text of this script is not a program.  The function expression
opened on line 39 is cut off after line 55, where the script starts
over, and that brace is never closed; and on line 248, inside
[_selectAndDiversifyNumbers], the array literal of the arrow function
is closed with a brace:

[const tailCounts = new Map(Array.from({ length: 10 }, (_, i) => [String(i), 0}));]

A script is parsed whole before its first statement runs, so none of
the assignments to [self.PredictionEngine] is ever executed.  What is
embedded here is therefore the text of line 248 and the nesting of
brackets, the part of the grammar the line breaks. *)

(** A strategy module: [{ name, weight, predict(analyzer) }]. *)
Record Strategy : Type :=
  { name : string;
    weight : float;
    predict : DataAnalyzer.t -> Result (list (string * float)) }.

Module Script.

Inductive bracket : Type := Paren | Square | Curly.

(** The tokens of a script outside comments, strings and templates: an
    opening bracket, a closing bracket, or anything else. *)
Inductive token : Type :=
| Open (b : bracket)
| Close (b : bracket)
| Word (s : string).

Definition bracket_eqb (a b : bracket) : bool :=
  match a, b with
  | Paren, Paren | Square, Square | Curly, Curly => true
  | _, _ => false
  end.

(** The brackets left open after [text], [stack] being those open
    before it, innermost first; nothing when a closing bracket meets no
    open bracket or one of another kind. *)
Fixpoint nesting (stack : list bracket) (text : list token)
  : option (list bracket) :=
  match text with
  | [] => Some stack
  | Open b :: text' => nesting (b :: stack) text'
  | Close b :: text' =>
      match stack with
      | b' :: stack' =>
          if bracket_eqb b b' then nesting stack' text' else None
      | [] => None
      end
  | Word _ :: text' => nesting stack text'
  end.

Definition well_nested (text : list token) : bool :=
  match nesting [] text with
  | Some [] => true
  | _ => false
  end.

(** Evaluation of a classic script in a global scope: a text that does
    not parse throws a SyntaxError before any of its statements runs. *)
Definition evaluate {S : Type} (text : list token)
  (statements : S -> Result S) (scope : S) : Result S :=
  if well_nested text then statements scope
  else Throw (SyntaxError "Unexpected token '}'").

End Script.

Module PredictionEngineText.

Import Script.

(** Line 248 of the script. *)
Definition line_248 : list token :=
  [Word "const"; Word "tailCounts"; Word "="; Word "new"; Word "Map";
   Open Paren; Word "Array"; Word "."; Word "from";
   Open Paren; Open Curly; Word "length"; Word ":"; Word "10"; Close Curly;
   Word ",";
   Open Paren; Word "_"; Word ","; Word "i"; Close Paren; Word "=>";
   Open Square; Word "String"; Open Paren; Word "i"; Close Paren;
   Word ","; Word "0"; Close Curly;
   Close Paren; Close Paren; Word ";"]%string.

(** The script: lines 1 to 247, line 248, lines 249 to 315. *)
Definition text (lines_1_247 lines_249_315 : list token) : list token :=
  lines_1_247 ++ line_248 ++ lines_249_315.

End PredictionEngineText.

(* ================================================================== *)
(** * backtester.js *)

Module Backtester.

Import WorkerUtils.

(** The global [self.PredictionEngine] as the backtester uses it. *)
Record Engine : Type :=
  { strategies : list Strategy;
    predictNextDay : option (list DayInfo) -> Result (list string) }.

Record StrategyPerformance : Type :=
  { sp_name : string;
    totalInfluenceScore : Z;
    totalCorrectlyPredictedNumbers : Z }.

(** The counters of the replay loop. *)
Record Counters : Type :=
  { c_totalDaysTested : Z;
    c_totalCorrectNumbers : Z;
    c_daysWithHighAccuracy : Z;
    c_daysMeetingProfitThreshold : Z;
    c_dailyCorrectCounts : list Z;
    c_totalInvestment : Z;
    c_totalGains : Z;
    c_dailyNetProfits : list Z }.

(** The returned [accuracyStats].  The source renders the three rates
    with [toFixed(2)] and the money totals with [toLocaleString]; the
    record holds the numbers that are rendered.  [roi = None] is the
    string ['N/A']. *)
Record AccuracyStats : Type :=
  { totalDaysTested : Z;
    avgCorrectNumbersPerDay : float;
    daysWithHighAccuracy : Z;
    percentageDaysHighAccuracy : float;
    daysMeetingProfitThreshold : Z;
    percentageDaysProfitable : float;
    roi : option float;
    totalInvestment : Z;
    totalGains : Z;
    netProfit : Z;
    dailyCorrectCounts : list Z;
    dailyNetProfits : list Z;
    strategyPerformance : list StrategyPerformance;
    reason : option string }.

Definition _getEmptyStats (reason : string) : AccuracyStats :=
  {| totalDaysTested := 0; avgCorrectNumbersPerDay := 0%float;
     daysWithHighAccuracy := 0; percentageDaysHighAccuracy := 0%float;
     daysMeetingProfitThreshold := 0; percentageDaysProfitable := 0%float;
     roi := None; totalInvestment := 0; totalGains := 0; netProfit := 0;
     dailyCorrectCounts := []; dailyNetProfits := [];
     strategyPerformance := []; reason := Some reason |}.

Definition COST_PER_LOTTO_POINT : Z := 23000.
Definition REWARD_PER_LOTTO_POINT_HIT : Z := 80000.
Definition COST_PER_DAY_PREDICTION : Z :=
  NUM_PREDICTED_LOTTO_NUMBERS * COST_PER_LOTTO_POINT.

Definition initialCounters : Counters :=
  {| c_totalDaysTested := 0; c_totalCorrectNumbers := 0;
     c_daysWithHighAccuracy := 0; c_daysMeetingProfitThreshold := 0;
     c_dailyCorrectCounts := []; c_totalInvestment := 0;
     c_totalGains := 0; c_dailyNetProfits := [] |}.

(** The body of the [try] block once the prediction has returned. *)
Definition recordPrediction (actualLandedNumbers : list string)
  (simulatedPredictedNumbers : list string) (c : Counters) : Counters :=
  let correctCount :=
    fold_left
      (fun correctCount predictedNum =>
         if includes actualLandedNumbers predictedNum
         then (correctCount + 1)%Z else correctCount)
      simulatedPredictedNumbers 0%Z in
  {| c_totalDaysTested := c_totalDaysTested c + 1;
     c_totalCorrectNumbers := c_totalCorrectNumbers c + correctCount;
     c_daysWithHighAccuracy :=
       if (correctCount >=? HIGH_ACCURACY_THRESHOLD)%Z
       then c_daysWithHighAccuracy c + 1 else c_daysWithHighAccuracy c;
     c_daysMeetingProfitThreshold :=
       if (correctCount >=? PROFIT_THRESHOLD_DEFAULT)%Z
       then c_daysMeetingProfitThreshold c + 1
       else c_daysMeetingProfitThreshold c;
     c_dailyCorrectCounts := c_dailyCorrectCounts c ++ [correctCount];
     c_totalInvestment := c_totalInvestment c + COST_PER_DAY_PREDICTION;
     c_totalGains :=
       c_totalGains c + correctCount * REWARD_PER_LOTTO_POINT_HIT;
     c_dailyNetProfits :=
       c_dailyNetProfits c
         ++ [correctCount * REWARD_PER_LOTTO_POINT_HIT
             - COST_PER_DAY_PREDICTION] |}%Z.

(** The [catch] block. *)
Definition recordFailure (c : Counters) : Counters :=
  {| c_totalDaysTested := c_totalDaysTested c + 1;
     c_totalCorrectNumbers := c_totalCorrectNumbers c;
     c_daysWithHighAccuracy := c_daysWithHighAccuracy c;
     c_daysMeetingProfitThreshold := c_daysMeetingProfitThreshold c;
     c_dailyCorrectCounts := c_dailyCorrectCounts c ++ [0];
     c_totalInvestment := c_totalInvestment c + COST_PER_DAY_PREDICTION;
     c_totalGains := c_totalGains c;
     c_dailyNetProfits :=
       c_dailyNetProfits c ++ [- COST_PER_DAY_PREDICTION] |}%Z.

(** [fullHistoryData.slice(0, i)] for [0 <= i]. *)
Definition trainingDataAt (fullHistoryData : list DayInfo) (i : Z)
  : list DayInfo :=
  firstn (Z.to_nat i) fullHistoryData.

(** One iteration of the replay loop for day index [i]. *)
Definition replayDay (engine : Engine) (fullHistoryData : list DayInfo)
  (c : Counters) (i : Z) : Result Counters :=
  let trainingData := trainingDataAt fullHistoryData i in
  match js_nth fullHistoryData i with
  | None => Throw (TypeError "fullHistoryData[i] is undefined")
  | Some dayInfo =>
      let actualLandedNumbers := numbers dayInfo in
      if (len trainingData <? MIN_HISTORY_FOR_ANALYSIS)%Z then Ok c
      else
        match predictNextDay engine (Some trainingData) with
        | Ok simulatedPredictedNumbers =>
            Ok (recordPrediction actualLandedNumbers
                  simulatedPredictedNumbers c)
        | Throw _ => Ok (recordFailure c)
        end
  end.

(** The first tested day index.  The adjusting branch assigns the
    identifier [MIN_HISTORY_FOR_ANALYSIS], which is bound neither in the
    function (the local constant is [MIN_HISTORY_FOR_PREDICTION]) nor
    globally: evaluating it throws. *)
Definition backtestStartIndex (fullHistoryData : list DayInfo) : Result Z :=
  let maxTestableIndex := (len fullHistoryData - 1)%Z in
  let actualBacktestStartIndex :=
    (maxTestableIndex - BACKTEST_WINDOW_SIZE + 1)%Z in
  if (actualBacktestStartIndex <? MIN_HISTORY_FOR_ANALYSIS)%Z
  then Throw (ReferenceError "MIN_HISTORY_FOR_ANALYSIS")
  else Ok actualBacktestStartIndex.

Definition quotient (a b : Z) : float :=
  if (b >? 0)%Z then (Z_to_float a / Z_to_float b)%float else 0%float.

Definition finalStats (engine : Engine) (c : Counters) : AccuracyStats :=
  let tracker :=
    JsMap.of_entries (map (fun s => (name s, (0%Z, 0%Z))) (strategies engine)) in
  let netProfit := (c_totalGains c - c_totalInvestment c)%Z in
  {| totalDaysTested := c_totalDaysTested c;
     avgCorrectNumbersPerDay :=
       quotient (c_totalCorrectNumbers c) (c_totalDaysTested c);
     daysWithHighAccuracy := c_daysWithHighAccuracy c;
     percentageDaysHighAccuracy :=
       if (c_totalDaysTested c >? 0)%Z
       then (quotient (c_daysWithHighAccuracy c) (c_totalDaysTested c) * 100)%float
       else 0%float;
     daysMeetingProfitThreshold := c_daysMeetingProfitThreshold c;
     percentageDaysProfitable :=
       if (c_totalDaysTested c >? 0)%Z
       then (quotient (c_daysMeetingProfitThreshold c) (c_totalDaysTested c) * 100)%float
       else 0%float;
     roi :=
       Some (if (c_totalInvestment c >? 0)%Z
             then (quotient netProfit (c_totalInvestment c) * 100)%float
             else 0%float);
     totalInvestment := c_totalInvestment c;
     totalGains := c_totalGains c;
     netProfit := netProfit;
     dailyCorrectCounts := c_dailyCorrectCounts c;
     dailyNetProfits := c_dailyNetProfits c;
     strategyPerformance :=
       map (fun e => {| sp_name := fst e;
                        totalInfluenceScore := fst (snd e);
                        totalCorrectlyPredictedNumbers := snd (snd e) |})
         tracker;
     reason := None |}.

Definition runBacktest (engine : Engine) (fullHistoryData : list DayInfo)
  : Result AccuracyStats :=
  if (len fullHistoryData <? MIN_HISTORY_FOR_ANALYSIS + 1)%Z
  then Ok (_getEmptyStats "Not enough history for backtest. Min history for prediction not met for even first test day.")
  else
    let maxTestableIndex := (len fullHistoryData - 1)%Z in
    actualBacktestStartIndex <- backtestStartIndex fullHistoryData ;;
    c <- forEachM (replayDay engine fullHistoryData)
           (Zrange actualBacktestStartIndex maxTestableIndex)
           initialCounters ;;
    Ok (finalStats engine c).

End Backtester.

(* ================================================================== *)
(** * prediction-strategies

Every strategy starts from a map that gives each number the score 0,
adds to the scores, and ends by capping them. *)

Module StrategyScores.

Definition MAX_STRATEGY_SCORE : float := 100%float.
Definition LOOKBACK_SHORT : Z := 7.

(** [allLottoNumbers.forEach(num => scores.set(num, 0))] on a new map. *)
Definition zeroScores (allLottoNumbers : list string)
  : list (string * float) :=
  fold_left (fun scores num => JsMap.set num 0%float scores)
    allLottoNumbers [].

(** [scores.set(num, scores.get(num) + x)]; [undefined + x] is [NaN]. *)
Definition addScore (num : string) (x : float)
  (scores : list (string * float)) : list (string * float) :=
  JsMap.set num
    (match JsMap.get num scores with
     | Some s => (s + x)%float
     | None => PrimFloat.nan
     end)
    scores.

(** [Math.max(0, Math.min(scores.get(num) || 0, MAX_STRATEGY_SCORE))] *)
Definition capScore (found : option float) : float :=
  max_zero
    (js_min
       (match found with
        | Some s => or_zero s
        | None => 0%float
        end)
       MAX_STRATEGY_SCORE).

(** The closing loop of every [predict]. *)
Definition capScores (allLottoNumbers : list string)
  (scores : list (string * float)) : list (string * float) :=
  fold_left
    (fun scores num => JsMap.set num (capScore (JsMap.get num scores)) scores)
    allLottoNumbers scores.

End StrategyScores.

(* ------------------------------------------------------------------ *)
(** ** strategy-lo-roi-lon.js *)

Module StrategyLoRoiLon.

Import StrategyScores.

Definition name : string := "Lô Rơi & Lô Lộn Chuyên Sâu".
Definition weight : float := 0.09%float.

Definition _applyLoRoiScores (scores : list (string * float))
  (analyzer : DataAnalyzer.t) : Result (list (string * float)) :=
  loRoiCandidates <-
    DataAnalyzer.getLoRoiCandidates analyzer LOOKBACK_SHORT false ;;
  let scores :=
    fold_left
      (fun scores entry =>
         addScore (fst entry) (Z_to_float (snd entry) * 15)%float scores)
      loRoiCandidates scores in
  let lastDayNumbers := DataAnalyzer.getLastDayNumbers analyzer in
  Ok (fold_left (fun scores num => addScore num 25%float scores)
        lastDayNumbers scores).

Definition _applyLoLonScores (scores : list (string * float))
  (analyzer : DataAnalyzer.t) : list (string * float) :=
  let loLonCandidates :=
    DataAnalyzer.getLoLonCandidates analyzer LOOKBACK_SHORT false in
  let scores :=
    fold_left
      (fun scores entry =>
         addScore (fst entry) (Z_to_float (snd entry) * 10)%float scores)
      loLonCandidates scores in
  let lastDayNumbers := DataAnalyzer.getLastDayNumbers analyzer in
  fold_left
    (fun scores num =>
       if negb (keqb (WorkerUtils.char_at 0 num) (WorkerUtils.char_at 1 num))
       then addScore (WorkerUtils.reverseNumber num) 20%float scores
       else scores)
    lastDayNumbers scores.

Definition _applySandwichedScores (scores : list (string * float))
  (analyzer : DataAnalyzer.t) : Result (list (string * float)) :=
  sandwichedNumbers <-
    DataAnalyzer.getSandwichedNumbers analyzer LOOKBACK_SHORT ;;
  Ok (fold_left (fun scores num => addScore num 35%float scores)
        sandwichedNumbers scores).

Definition predict (analyzer : DataAnalyzer.t)
  : Result (list (string * float)) :=
  let allLottoNumbers := DataAnalyzer.allLottoNumbers analyzer in
  let scores := zeroScores allLottoNumbers in
  scores <- _applyLoRoiScores scores analyzer ;;
  let scores := _applyLoLonScores scores analyzer in
  scores <- _applySandwichedScores scores analyzer ;;
  Ok (capScores allLottoNumbers scores).

Definition strategy : Strategy := Build_Strategy name weight predict.

End StrategyLoRoiLon.

(* ================================================================== *)
(** * worker.js

The worker loads its scripts with one [importScripts] call inside
[try]; [catch] posts the error and closes the worker.  Only
prediction-engine.js assigns [self.PredictionEngine], and the message
handler and the backtester reach the engine through that global. *)

Module Worker.

(** The worker global, as far as the engine goes:
    [self.PredictionEngine], and whether [self.close()] was called. *)
Record Global : Type :=
  { PredictionEngine : option Backtester.Engine;
    closed : bool }.

(** The global before prediction-engine.js is reached: the scripts
    loaded before it leave [self.PredictionEngine] undefined. *)
Definition initial : Global :=
  {| PredictionEngine := None; closed := false |}.

Section Startup.

(** The text of prediction-engine.js around line 248. *)
Variables lines_1_247 lines_249_315 : list Script.token.

(** The object the statements of prediction-engine.js would leave in
    [self.PredictionEngine] if they ran. *)
Variable definitions : Backtester.Engine.

(** [importScripts(..., 'prediction-engine.js', 'backtester.js')],
    from prediction-engine.js on. *)
Definition importScripts (g : Global) : Result Global :=
  Script.evaluate
    (PredictionEngineText.text lines_1_247 lines_249_315)
    (fun g => Ok {| PredictionEngine := Some definitions;
                    closed := closed g |})
    g.

(** [try { importScripts(...) } catch (e) { ...; self.close(); }] *)
Definition startup : Global :=
  match importScripts initial with
  | Ok g => g
  | Throw _ =>
      {| PredictionEngine := PredictionEngine initial; closed := true |}
  end.

End Startup.

(** The call [self.PredictionEngine.predictNextDay(historyData)] of the
    message handler and of the backtester. *)
Definition predictNextDay (g : Global) (historyData : option (list DayInfo))
  : Result (list string) :=
  match PredictionEngine g with
  | Some engine => Backtester.predictNextDay engine historyData
  | None =>
      Throw (TypeError
        "Cannot read properties of undefined (reading 'predictNextDay')")
  end.

End Worker.
(* ================================================================== *)
(** * Vocabulary of the specification *)

Definition is_digit (c : ascii) : bool :=
  let n := nat_of_ascii c in ((48 <=? n) && (n <=? 57))%nat.

(** A two-digit string over the digits 0-9. *)
Definition two_digit (s : string) : Prop :=
  exists a b, s = String a (String b EmptyString)
              /\ is_digit a = true /\ is_digit b = true.

Definition universe : list string := WorkerUtils.ALL_LOTTO_NUMBERS.

(** A record as the preparer builds it from validated numbers. *)
Definition prepared_day (d : DayInfo) : Prop :=
  uniqueNumbers d = JsSet.of_list (numbers d)
  /\ Forall (fun n => In n universe) (numbers d).

Definition prepared (h : list DayInfo) : Prop := Forall prepared_day h.

(** [num] landed on the record at index [i]. *)
Definition landed_at (h : list DayInfo) (num : string) (i : Z) : Prop :=
  exists d, js_nth h i = Some d /\ In num (uniqueNumbers d).

Definition never_landed (h : list DayInfo) (num : string) : Prop :=
  forall i, ~ landed_at h num i.

(** [i] is the most recent record index on which [num] landed. *)
Definition most_recent (h : list DayInfo) (num : string) (i : Z) : Prop :=
  landed_at h num i /\ forall j, (i < j)%Z -> ~ landed_at h num j.

(** The position, counted from the head of [l], of the last record of
    [l] on which [num] landed. *)
Fixpoint last_landing (num : string) (l : list DayInfo) : option Z :=
  match l with
  | [] => None
  | d :: l' =>
      match last_landing num l' with
      | Some k => Some (k + 1)%Z
      | None => if includes (uniqueNumbers d) num then Some 0%Z else None
      end
  end.

(** The entry that [getGanStatus] stores for one number. *)
Definition ganEntryOf (a : DataAnalyzer.t) (num : string) : Result GanEntry.t :=
  match JsMap.get num (DataAnalyzer.lastAppearanceMap a) with
  | Some lastSeenIndex =>
      match js_nth (DataAnalyzer.historyData a) lastSeenIndex with
      | Some dayInfo =>
          Ok {| GanEntry.daysGone :=
                  (DataAnalyzer.currentDayIndex a - lastSeenIndex - 1)%Z;
                GanEntry.lastSeenDate := Some (date dayInfo);
                GanEntry.lastSeenIndex := lastSeenIndex |}
      | None => Throw (TypeError "historyData[lastSeenIndex] is undefined")
      end
  | None =>
      Ok {| GanEntry.daysGone := DataAnalyzer.currentDayIndex a;
            GanEntry.lastSeenDate := None;
            GanEntry.lastSeenIndex := (-1)%Z |}
  end.

Definition sample_day (l : list string) : DayInfo :=
  {| date := {| timeValue := 0; getDay := 0 |};
     dayOfWeek := 0;
     numbers := l;
     uniqueNumbers := JsSet.of_list l |}.

Definition sample_analyzer (h : list DayInfo) : DataAnalyzer.t :=
  {| DataAnalyzer.historyData := h;
     DataAnalyzer.allLottoNumbers := universe;
     DataAnalyzer.currentDayIndex := len h |}.

Definition gan_sample : list DayInfo :=
  [sample_day ["07"; "07"; "12"]; sample_day ["12"]; sample_day []]%string.

(** The number of leading records of [l] that contain [num]. *)
Fixpoint leading_run (num : string) (l : list DayInfo) : Z :=
  match l with
  | [] => 0%Z
  | d :: l' =>
      if includes (uniqueNumbers d) num then (1 + leading_run num l')%Z
      else 0%Z
  end.

(** The streak over the most recent [n] records, walking backward from
    the latest and stopping at the first miss. *)
Definition trailing_streak (num : string) (h : list DayInfo) (n : Z) : Z :=
  leading_run num (firstn (Z.to_nat n) (rev h)).

(** The streak claim as the specification words it, for histories of
    any length. *)
Definition streak_claim_as_stated (h : list DayInfo) (n : Z) (num : string)
  : Prop :=
  forall a, DataAnalyzer.new (Some h) = Ok a ->
    exists m, DataAnalyzer.getConsecutiveAppearance a n = Ok m
              /\ JsMap.get num m = Some (trailing_streak num h n).

Definition short_history : list DayInfo :=
  [sample_day ["07"; "31"]; sample_day ["07"]]%string.

(** The indices, counted from [i], of the records of [l] on which [num]
    landed, in ascending order. *)
Fixpoint landings (num : string) (l : list DayInfo) (i : Z) : list Z :=
  match l with
  | [] => []
  | d :: l' =>
      if includes (uniqueNumbers d) num
      then i :: landings num l' (i + 1)
      else landings num l' (i + 1)
  end.

(** Consecutive entries of [run] are exactly [period] apart. *)
Definition evenly_spaced (period : Z) (run : list Z) : Prop :=
  forall k x y,
    js_nth run k = Some x -> js_nth run (k + 1) = Some y -> (y - x = period)%Z.

(** [indices] holds a run of [minOccurrences] consecutive entries, evenly
    spaced by [period], whose last entry plus [period] is [target]. *)
Definition periodic_run (indices : list Z) (minOccurrences period target : Z)
  : Prop :=
  exists pre run post,
    indices = pre ++ run ++ post
    /\ len run = minOccurrences
    /\ evenly_spaced period run
    /\ exists lastIndex,
         js_nth run (minOccurrences - 1) = Some lastIndex
         /\ (lastIndex + period = target)%Z.

(** The records of [l] with their indices, counted from [i]. *)
Fixpoint numbered (i : Z) (l : list DayInfo) : list (Z * DayInfo) :=
  match l with
  | [] => []
  | d :: l' => (i, d) :: numbered (i + 1) l'
  end.

(** The last [days] records of [h]: those whose index [i] satisfies
    [len h - days <= i]. *)
Definition lookback_window (h : list DayInfo) (days : Z) : list DayInfo :=
  map snd
    (filter (fun p => (len h - days <=? fst p)%Z) (numbered 0 h)).

(** The indices among the last [daysLookback] of [h] at which [num]
    landed, in ascending order. *)
Definition recent_landings (h : list DayInfo) (daysLookback : Z)
  (num : string) : list Z :=
  filter (fun i => (len h - daysLookback <=? i)%Z) (landings num h 0).

(** [num] has at least [minOccurrences] appearances among the last
    [daysLookback] records of [h], and for some period of 1 to
    [maxPeriod] a run of them projects onto the day after the last
    record. *)
Definition bridge_candidate (h : list DayInfo)
  (minOccurrences maxPeriod daysLookback : Z) (num : string) : Prop :=
  (minOccurrences <= len (recent_landings h daysLookback num))%Z
  /\ exists period,
       (1 <= period <= maxPeriod)%Z
       /\ periodic_run (recent_landings h daysLookback num) minOccurrences
            period (len h).

(** The appearance indices of [num] in the slice the analyzer takes. *)
Definition window_indices (a : DataAnalyzer.t) (daysLookback : Z)
  (num : string) : list Z :=
  let historySlice := DataAnalyzer._getHistorySlice a daysLookback in
  landings num historySlice
    (len (DataAnalyzer.historyData a) - len historySlice).

Definition active_bridge (a : DataAnalyzer.t)
  (minOccurrences maxPeriod daysLookback : Z) (num : string) : Prop :=
  (minOccurrences <= len (window_indices a daysLookback num))%Z
  /\ exists period,
       (1 <= period <= maxPeriod)%Z
       /\ periodic_run (window_indices a daysLookback num) minOccurrences
            period (DataAnalyzer.currentDayIndex a).

(** The test made at position [i] for one [period]. *)
Definition run_hit (a : DataAnalyzer.t) (indices : list Z)
  (minOccurrences period i : Z) : bool :=
  DataAnalyzer.isConsistentRun indices minOccurrences period i
  && keqb
       (match js_nth indices (i + minOccurrences - 1) with
        | Some lastIndexInPattern => Some (lastIndexInPattern + period)%Z
        | None => None
        end)
       (Some (DataAnalyzer.currentDayIndex a)).

Definition qualifies (a : DataAnalyzer.t) (indices : list Z)
  (minOccurrences maxPeriod : Z) : bool :=
  (len indices >=? minOccurrences)%Z
  && existsb
       (fun period =>
          existsb (run_hit a indices minOccurrences period)
            (Zrange 0 (len indices - minOccurrences)))
       (Zrange 1 maxPeriod).

(** A decision procedure for [prepared]. *)
Definition prepared_check (h : list DayInfo) : bool :=
  forallb
    (fun d =>
       (if list_eq_dec string_dec (uniqueNumbers d) (JsSet.of_list (numbers d))
        then true else false)
       && forallb (includes universe) (numbers d))
    h.

(** [1 / (1 + stddev)], or 1 when the deviation is 0 or [NaN]. *)
Definition consistency_of (stddev : float) : float :=
  if PrimFloat.eqb stddev 0 || isNaN stddev then 1%float
  else (1 / (1 + stddev))%float.

(** The entry of a number before the statistics are filled in. *)
Definition unfinished_cycle (appearances : list Z) : CycleInfo.t :=
  {| CycleInfo.appearances := appearances; CycleInfo.avgCycle := 0%float;
     CycleInfo.lastSeenIndex := (-1)%Z; CycleInfo.daysSinceLast := (-1)%Z;
     CycleInfo.cycles := []; CycleInfo.nextDueApprox := (-1)%float;
     CycleInfo.consistencyScore := 0%float;
     CycleInfo.cycleVariance := 0%float |}.

(** The consistency claim as the specification words it: the score is 1
    whenever the number has fewer than 2 gaps, that is, fewer than 3
    appearances. *)
Definition consistency_claim_as_stated (h : list DayInfo) (num : string)
  : Prop :=
  forall a m info,
    DataAnalyzer.new (Some h) = Ok a ->
    DataAnalyzer.getNumberCycleAnalysis a Stats.worker_global 3 = Ok m ->
    JsMap.get num m = Some info ->
    (len (landings num h 0) < 3)%Z ->
    CycleInfo.consistencyScore info = 1%float.

Definition single_landing : list DayInfo := [sample_day ["07"]%string].

(** Three days on which no number landed twice. *)
Definition scattered_landings : list DayInfo :=
  [sample_day ["07"; "12"]; sample_day ["70"]; sample_day ["33"; "21"]]%string.

Definition cycle_sample : list DayInfo :=
  [sample_day ["07"; "01"]; sample_day ["02"; "01"];
   sample_day ["07"; "01"]; sample_day ["02"]; sample_day ["01"]]%string.

(** The integer [parseInt] reads, 0 standing in for [NaN]. *)
Definition numeric_key (s : string) : Z :=
  match ParseInt.parseInt s with Some z => z | None => 0%Z end.

(** The number of predicted numbers that landed on day [i], the engine
    seeing only the records before [i]; 0 when the prediction throws. *)
Definition day_hits (engine : Backtester.Engine) (h : list DayInfo) (i : Z)
  : Z :=
  match js_nth h i,
        Backtester.predictNextDay engine (Some (Backtester.trainingDataAt h i))
  with
  | Some dayInfo, Ok predicted =>
      len (filter (includes (numbers dayInfo)) predicted)
  | _, _ => 0%Z
  end.

(** The day indices of the trailing 150-day window that have at least
    200 days of prior history. *)
Definition attempted_days (h : list DayInfo) : list Z :=
  if (len h <? 201)%Z then []
  else filter (fun i => (200 <=? i)%Z) (Zrange (len h - 150) (len h - 1)).

Definition sum_Z (l : list Z) : Z := fold_left Z.add l 0%Z.

(** The counters after replaying the days [days] from [c]. *)
Definition replayed (engine : Backtester.Engine) (h : list DayInfo)
  (days : list Z) (c : Backtester.Counters) : Backtester.Counters :=
  let hits := map (day_hits engine h) days in
  {| Backtester.c_totalDaysTested :=
       Backtester.c_totalDaysTested c + len days;
     Backtester.c_totalCorrectNumbers :=
       Backtester.c_totalCorrectNumbers c + sum_Z hits;
     Backtester.c_daysWithHighAccuracy :=
       Backtester.c_daysWithHighAccuracy c
       + len (filter (fun x => x >=? WorkerUtils.HIGH_ACCURACY_THRESHOLD) hits);
     Backtester.c_daysMeetingProfitThreshold :=
       Backtester.c_daysMeetingProfitThreshold c
       + len (filter (fun x => x >=? WorkerUtils.PROFIT_THRESHOLD_DEFAULT) hits);
     Backtester.c_dailyCorrectCounts :=
       Backtester.c_dailyCorrectCounts c ++ hits;
     Backtester.c_totalInvestment :=
       Backtester.c_totalInvestment c
       + Backtester.COST_PER_DAY_PREDICTION * len days;
     Backtester.c_totalGains :=
       Backtester.c_totalGains c
       + Backtester.REWARD_PER_LOTTO_POINT_HIT * sum_Z hits;
     Backtester.c_dailyNetProfits :=
       Backtester.c_dailyNetProfits c
       ++ map (fun x => x * Backtester.REWARD_PER_LOTTO_POINT_HIT
                        - Backtester.COST_PER_DAY_PREDICTION) hits |}%Z.

(** An engine that fails on every other day. *)
Definition flaky_engine : Backtester.Engine :=
  {| Backtester.strategies := [];
     Backtester.predictNextDay :=
       fun historyData =>
         match historyData with
         | Some l =>
             if Z.even (len l) then Ok ["07"; "12"]%string
             else Throw (StrategyError "no prediction today")
         | None => Throw (InsufficientHistory 200)
         end |}.

Definition long_history : list DayInfo :=
  repeat (sample_day ["07"; "12"; "70"]%string) 350.

Definition history_of_200_days : list DayInfo :=
  repeat (sample_day ["07"; "12"; "70"]%string) 200.

(** What the call of an undefined engine throws. *)
Definition engine_undefined : JsError :=
  TypeError "Cannot read properties of undefined (reading 'predictNextDay')".

Definition history_of_201_days : list DayInfo :=
  repeat (sample_day ["07"; "12"; "70"]%string) 201.

(* ================================================================== *)
(** * Further vocabulary *)

(** The digit sum of [s] is a number between 0 and 18. *)
Definition total_check (s : string) : bool :=
  match WorkerUtils.calculateTotal s with
  | Some t => (0 <=? t)%Z && (t <=? 18)%Z
  | None => false
  end.

(** How many elements of [l] are counted under the key [x], [key] naming
    the counter an element bumps (none for [None]). *)
Definition hits {A} (key : A -> option string) (x : string) (l : list A) : Z :=
  len (filter
         (fun e => match key e with
                   | Some k => String.eqb k x
                   | None => false
                   end) l).

(** All numbers drawn on the last [daysLookback] days, with
    repetitions. *)
Definition window_numbers (a : DataAnalyzer.t) (daysLookback : Z)
  : list string :=
  flat_map numbers
    (lookback_window (DataAnalyzer.historyData a) daysLookback).

(** The distinct numbers of each of the last [daysLookback] days, day
    after day. *)
Definition window_unique_numbers (a : DataAnalyzer.t) (daysLookback : Z)
  : list string :=
  flat_map uniqueNumbers
    (lookback_window (DataAnalyzer.historyData a) daysLookback).

Definition zone_names : list string :=
  ["Zone1"; "Zone2"; "Zone3"; "Zone4"]%string.

(** The zone of a universe member is decided by its quarter of 0..99. *)
Definition zone_check (s : string) : bool :=
  match DataAnalyzer.getZoneForNumber s,
        nth_error zone_names (Z.to_nat (numeric_key s / 25)) with
  | Some z, Some z' => String.eqb z z'
  | _, _ => false
  end.

(** Both [x] and [y] are among the distinct numbers of the day. *)
Definition landed_together (x y : string) (d : DayInfo) : bool :=
  includes (uniqueNumbers d) x && includes (uniqueNumbers d) y.

(** How many of the last [daysLookback] days saw both [x] and [y]
    land. *)
Definition days_together (a : DataAnalyzer.t) (daysLookback : Z)
  (x y : string) : Z :=
  len (filter (landed_together x y)
         (lookback_window (DataAnalyzer.historyData a) daysLookback)).

(** How many of the last [daysLookback] days saw [x] land. *)
Definition days_landed (a : DataAnalyzer.t) (daysLookback : Z) (x : string)
  : Z :=
  len (filter (fun d => includes (uniqueNumbers d) x)
         (lookback_window (DataAnalyzer.historyData a) daysLookback)).

(** Three days on which 12 met its reverse 21 and its shadow 67. *)
Definition pairs_sample : list DayInfo :=
  [sample_day ["12"; "21"; "67"; "33"]; sample_day ["21"; "40"];
   sample_day ["67"; "12"; "12"]]%string.

(** The reverse of [n] when it differs from [n]. *)
Definition reverse_partner (n : string) : option string :=
  if negb (String.eqb (WorkerUtils.reverseNumber n) n)
  then Some (WorkerUtils.reverseNumber n) else None.

(** The number of pairs of consecutive records of [l] that both hold
    [num]. *)
Fixpoint repeats (num : string) (l : list DayInfo) : Z :=
  match l with
  | prev :: ((cur :: _) as rest) =>
      ((if includes (uniqueNumbers prev) num
           && includes (uniqueNumbers cur) num
        then 1 else 0) + repeats num rest)%Z
  | _ => 0%Z
  end.

Definition kep_numbers : list string :=
  ["00"; "11"; "22"; "33"; "44"; "55"; "66"; "77"; "88"; "99"]%string.

(** How many times [num] was drawn on the last [daysLookback] days. *)
Definition drawn (a : DataAnalyzer.t) (daysLookback : Z) (num : string) : Z :=
  Z.of_nat (count_occ string_dec (window_numbers a daysLookback) num).

(** [minDaysGan <= daysGone <= maxDaysGan], [None] being no upper bound. *)
Definition gan_in_range (minDaysGan : Z) (maxDaysGan : option Z)
  (daysGone : Z) : Prop :=
  (minDaysGan <= daysGone)%Z
  /\ forall maxDays, maxDaysGan = Some maxDays -> (daysGone <= maxDays)%Z.

(** [numX] landed on a day of the window whose two neighbours share a
    number. *)
Definition sandwiched (slice : list DayInfo) (numX : string) : Prop :=
  exists i dayA dayX dayB numA,
    js_nth slice i = Some dayA
    /\ js_nth slice (i + 1) = Some dayX
    /\ js_nth slice (i + 2) = Some dayB
    /\ In numA (uniqueNumbers dayA)
    /\ In numA (uniqueNumbers dayB)
    /\ In numX (uniqueNumbers dayX).

Definition history_of_349_days : list DayInfo :=
  repeat (sample_day ["07"; "12"; "70"]%string) 349.

(** The records of [h] before index [i]. *)
Definition records_before (h : list DayInfo) (i : Z) : list DayInfo :=
  map snd (filter (fun p => (fst p <? i)%Z) (numbered 0 h)).

(** The number of predicted numbers that landed on day [i] when the
    engine is given the records before [i] and no other; 0 when the
    prediction throws. *)
Definition hits_without_lookahead (engine : Backtester.Engine)
  (h : list DayInfo) (i : Z) : Z :=
  match js_nth h i,
        Backtester.predictNextDay engine (Some (records_before h i))
  with
  | Some dayInfo, Ok predicted =>
      len (filter (includes (numbers dayInfo)) predicted)
  | _, _ => 0%Z
  end.
(* ================================================================== *)
(** * Basic facts: results, keys, maps, sets *)

Unset Implicit Arguments.

Class KeyEqLaws (K : Type) {keq : KeyEq K} : Prop :=
  { keqb_spec : forall a b : K, keqb a b = true <-> a = b }.

Arguments KeyEqLaws K {keq}.

#[global] Instance KeyEqLaws_string : KeyEqLaws string.
Proof. constructor. intros a b. apply String.eqb_eq. Qed.

#[global] Instance KeyEqLaws_Z : KeyEqLaws Z.
Proof. constructor. intros a b. apply Z.eqb_eq. Qed.

#[global] Instance KeyEqLaws_oascii : KeyEqLaws (option ascii).
Proof.
  constructor.
  intros [x|] [y|]; unfold keqb, KeyEq_oascii; split; intro E;
    try discriminate; try reflexivity.
  - apply Ascii.eqb_eq in E. now subst.
  - injection E as ->. apply Ascii.eqb_refl.
Qed.

#[global] Instance KeyEqLaws_oZ : KeyEqLaws (option Z).
Proof.
  constructor.
  intros [x|] [y|]; unfold keqb, KeyEq_oZ; split; intro E;
    try discriminate; try reflexivity.
  - apply Z.eqb_eq in E. now subst.
  - injection E as ->. apply Z.eqb_refl.
Qed.

Section KeyFacts.
Context {K : Type} `{KeyEqLaws K}.

Lemma keqb_refl (k : K) : keqb k k = true.
Proof. now apply keqb_spec. Qed.

Lemma keqb_neq (a b : K) : a <> b -> keqb a b = false.
Proof.
  intro N. destruct (keqb a b) eqn:E; [|reflexivity].
  apply keqb_spec in E. contradiction.
Qed.

Lemma keqb_false (a b : K) : keqb a b = false -> a <> b.
Proof. intros E ->. rewrite keqb_refl in E. discriminate. Qed.

Lemma key_dec (a b : K) : {a = b} + {a <> b}.
Proof.
  destruct (keqb a b) eqn:E.
  - left. now apply keqb_spec.
  - right. now apply keqb_false.
Qed.
End KeyFacts.

Section MapFacts.
Context {K V : Type} `{KeyEqLaws K}.
Implicit Types (m : list (K * V)) (k : K) (v : V).

Lemma get_set_same k v m : JsMap.get k (JsMap.set k v m) = Some v.
Proof.
  induction m as [|[k' v'] m IH]; simpl.
  - now rewrite keqb_refl.
  - destruct (keqb k k') eqn:E; simpl; rewrite E; auto.
Qed.

Lemma get_set_other k k' v m :
  k <> k' -> JsMap.get k (JsMap.set k' v m) = JsMap.get k m.
Proof.
  intro N. induction m as [|[k2 v2] m IH]; simpl.
  - now rewrite keqb_neq by assumption.
  - destruct (keqb k' k2) eqn:E; simpl.
    + apply keqb_spec in E. subst k2. now rewrite keqb_neq by assumption.
    + destruct (keqb k k2); auto.
Qed.

Lemma get_None_iff k m : JsMap.get k m = None <-> ~ In k (JsMap.keys m).
Proof.
  induction m as [|[k' v'] m IH]; simpl.
  - tauto.
  - destruct (keqb k k') eqn:E.
    + apply keqb_spec in E. subst. split; [discriminate | tauto].
    + apply keqb_false in E. rewrite IH. split; intro N.
      * intros [F|F]; [now apply E | now apply N].
      * tauto.
Qed.

Lemma get_Some_in k v m : JsMap.get k m = Some v -> In k (JsMap.keys m).
Proof.
  intro E. destruct (in_dec key_dec k (JsMap.keys m)) as [I|N]; auto.
  apply get_None_iff in N. congruence.
Qed.

Lemma in_keys_get k m : In k (JsMap.keys m) -> exists v, JsMap.get k m = Some v.
Proof.
  intro I. destruct (JsMap.get k m) as [v|] eqn:E; eauto.
  apply get_None_iff in E. contradiction.
Qed.

Lemma keys_set_in k v m :
  In k (JsMap.keys m) -> JsMap.keys (JsMap.set k v m) = JsMap.keys m.
Proof.
  induction m as [|[k' v'] m IH]; simpl; [tauto|].
  intros [E|I].
  - subst. now rewrite keqb_refl.
  - destruct (keqb k k'); simpl; [reflexivity|]. f_equal. now apply IH.
Qed.

Lemma keys_set_notin k v m :
  ~ In k (JsMap.keys m) -> JsMap.keys (JsMap.set k v m) = JsMap.keys m ++ [k].
Proof.
  induction m as [|[k' v'] m IH]; simpl; [reflexivity|].
  intro N. rewrite keqb_neq by (intro; subst; tauto).
  simpl. f_equal. apply IH. tauto.
Qed.

Lemma in_keys_set k k' v m :
  In k (JsMap.keys (JsMap.set k' v m)) <-> k = k' \/ In k (JsMap.keys m).
Proof.
  destruct (in_dec key_dec k' (JsMap.keys m)) as [I|N].
  - rewrite (keys_set_in _ _ _ I). split; [tauto|]. intros [->|]; auto.
  - rewrite (keys_set_notin _ _ _ N), in_app_iff. simpl. split; intuition.
Qed.

Lemma NoDup_keys_set k v m :
  NoDup (JsMap.keys m) -> NoDup (JsMap.keys (JsMap.set k v m)).
Proof.
  intro ND. destruct (in_dec key_dec k (JsMap.keys m)) as [I|N].
  - now rewrite keys_set_in.
  - rewrite keys_set_notin by assumption.
    apply NoDup_app; [assumption | repeat constructor; simpl; tauto |].
    intros x Ix [<-|[]]. contradiction.
Qed.

(** A [Map] built from entries with pairwise distinct keys keeps the
    entries as they are. *)
Lemma of_entries_NoDup (f : K -> V) (l : list K) :
  NoDup l ->
  JsMap.of_entries (map (fun k => (k, f k)) l) = map (fun k => (k, f k)) l.
Proof.
  unfold JsMap.of_entries.
  assert (G : forall l acc,
    NoDup (acc ++ l) ->
    fold_left (fun m e => JsMap.set (fst e) (snd e) m)
      (map (fun k => (k, f k)) l) (map (fun k => (k, f k)) acc)
    = map (fun k => (k, f k)) (acc ++ l)).
  { clear l. induction l as [|x l IH]; intros acc ND; simpl.
    - now rewrite app_nil_r.
    - assert (Nx : ~ In x acc).
      { apply NoDup_remove_2 in ND. rewrite in_app_iff in ND. tauto. }
      assert (S : JsMap.set x (f x) (map (fun k => (k, f k)) acc)
                  = map (fun k => (k, f k)) (acc ++ [x])).
      { clear IH ND. induction acc as [|y acc IHa]; simpl; [reflexivity|].
        rewrite keqb_neq by (intro; subst; simpl in Nx; tauto).
        f_equal. apply IHa. simpl in Nx. tauto. }
      rewrite S, IH; rewrite <- app_assoc; simpl; auto. }
  intro ND. apply (G l []). assumption.
Qed.

Lemma keys_map_pair (f : K -> V) (l : list K) :
  JsMap.keys (map (fun k => (k, f k)) l) = l.
Proof. unfold JsMap.keys. rewrite map_map. simpl. apply map_id. Qed.

Lemma get_map_pair (f : K -> V) (l : list K) k :
  In k l -> JsMap.get k (map (fun k => (k, f k)) l) = Some (f k).
Proof.
  induction l as [|x l IH]; simpl; [tauto|].
  intros [->|I].
  - now rewrite keqb_refl.
  - destruct (keqb k x) eqn:E; auto. apply keqb_spec in E. now subst.
Qed.
End MapFacts.

Lemma includes_In (l : list string) (x : string) :
  includes l x = true <-> In x l.
Proof.
  unfold includes. rewrite existsb_exists. split.
  - intros (y & I & E). apply String.eqb_eq in E. now subst.
  - intro I. exists x. split; auto. apply String.eqb_refl.
Qed.

Lemma includes_false (l : list string) (x : string) :
  includes l x = false <-> ~ In x l.
Proof.
  rewrite <- includes_In. destruct (includes l x); split; congruence.
Qed.

Lemma set_add_In (x y : string) (s : list string) :
  In y (JsSet.add x s) <-> y = x \/ In y s.
Proof.
  unfold JsSet.add, JsSet.has. destruct (includes s x) eqn:E.
  - apply includes_In in E. split; [tauto|]. intros [->|]; auto.
  - rewrite in_app_iff. simpl. split; intuition.
Qed.

Lemma set_add_NoDup (x : string) (s : list string) :
  NoDup s -> NoDup (JsSet.add x s).
Proof.
  intro ND. unfold JsSet.add, JsSet.has. destruct (includes s x) eqn:E; auto.
  apply includes_false in E. apply NoDup_app; auto.
  - repeat constructor. simpl. tauto.
  - intros y Iy [<-|[]]. contradiction.
Qed.

Lemma set_of_list_spec (l : list string) :
  NoDup (JsSet.of_list l) /\ forall x, In x (JsSet.of_list l) <-> In x l.
Proof.
  unfold JsSet.of_list.
  assert (G : forall l s, NoDup s ->
    NoDup (fold_left (fun s x => JsSet.add x s) l s)
    /\ forall x, In x (fold_left (fun s x => JsSet.add x s) l s)
                 <-> In x s \/ In x l).
  { clear l. induction l as [|y l IH]; intros s ND; simpl.
    - split; auto. intro; tauto.
    - destruct (IH (JsSet.add y s) (set_add_NoDup y s ND)) as [N1 I1].
      split; auto. intro x. rewrite I1, set_add_In. intuition. }
  destruct (G l [] (NoDup_nil _)) as [N I]. split; auto.
  intro x. rewrite I. simpl. tauto.
Qed.

(** A duplicate-free array is its own [Set]. *)
Lemma set_of_list_NoDup (l : list string) : NoDup l -> JsSet.of_list l = l.
Proof.
  unfold JsSet.of_list.
  assert (G : forall l s, NoDup (s ++ l) ->
    fold_left (fun s x => JsSet.add x s) l s = s ++ l).
  { clear l. induction l as [|y l IH]; intros s ND; simpl.
    - now rewrite app_nil_r.
    - assert (Ny : ~ In y s).
      { apply NoDup_remove_2 in ND. rewrite in_app_iff in ND. tauto. }
      unfold JsSet.add at 2, JsSet.has.
      apply includes_false in Ny. rewrite Ny.
      rewrite IH; rewrite <- app_assoc; auto. }
  intro ND. apply (G l []). assumption.
Qed.

(* ================================================================== *)
(** * The universe of two-digit numbers *)

Definition digit_chars : list ascii :=
  ["0"; "1"; "2"; "3"; "4"; "5"; "6"; "7"; "8"; "9"]%char.

Lemma is_digit_chars (c : ascii) : is_digit c = true <-> In c digit_chars.
Proof.
  split.
  - destruct c as [[] [] [] [] [] [] [] []]; vm_compute; intro E;
      try discriminate; tauto.
  - intro I. repeat (destruct I as [<-|I]; [reflexivity|]). destruct I.
Qed.

Lemma universe_by_digits :
  universe
  = flat_map
      (fun a => map (fun b => String a (String b EmptyString)) digit_chars)
      digit_chars.
Proof. vm_compute. reflexivity. Qed.

Lemma universe_two_digit (s : string) : In s universe <-> two_digit s.
Proof.
  rewrite universe_by_digits, in_flat_map. unfold two_digit. split.
  - intros (a & Ia & I). apply in_map_iff in I. destruct I as (b & <- & Ib).
    exists a, b. now rewrite !is_digit_chars.
  - intros (a & b & -> & Da & Db). exists a. rewrite <- is_digit_chars.
    split; auto. apply in_map_iff. exists b. now rewrite <- is_digit_chars.
Qed.

Lemma universe_length : List.length universe = 100%nat.
Proof. reflexivity. Qed.

Lemma universe_NoDup : NoDup universe.
Proof.
  assert (D : forall l : list string,
             (forallb (fun p => negb (includes (snd p) (fst p)))
                ((fix tails (l : list string) :=
                    match l with
                    | [] => []
                    | x :: r => (x, r) :: tails r
                    end) l) = true) -> NoDup l).
  { induction l as [|x l IH]; simpl; intro E; constructor.
    - apply andb_prop in E. destruct E as [E _].
      apply negb_true_iff in E. now apply includes_false in E.
    - apply IH. apply andb_prop in E. tauto. }
  apply D. vm_compute. reflexivity.
Qed.

(** What the involution claim asks of one number, as a test. *)
Definition involution_check (s : string) : bool :=
  String.eqb (WorkerUtils.reverseNumber (WorkerUtils.reverseNumber s)) s
  && includes universe (WorkerUtils.reverseNumber s)
  && match WorkerUtils.getLotoBong s with
     | Some t =>
         includes universe t
         && match WorkerUtils.getLotoBong t with
            | Some u => String.eqb u s
            | None => false
            end
     | None => false
     end.

Lemma involution_check_universe : forallb involution_check universe = true.
Proof. vm_compute. reflexivity. Qed.

(** C10.  Digit reversal and the shadow mapping are involutions on the
    two-digit strings over 0-9, and both map such a string to a member of
    the universe "00".."99". *)
Theorem reverse_and_bong_involutive (s : string) :
  two_digit s ->
  WorkerUtils.reverseNumber (WorkerUtils.reverseNumber s) = s
  /\ In (WorkerUtils.reverseNumber s) universe
  /\ exists t, WorkerUtils.getLotoBong s = Some t
               /\ In t universe
               /\ WorkerUtils.getLotoBong t = Some s.
Proof.
  intro T. apply universe_two_digit in T.
  pose proof involution_check_universe as C.
  rewrite forallb_forall in C. specialize (C s T).
  unfold involution_check in C.
  apply andb_prop in C. destruct C as [C C3].
  apply andb_prop in C. destruct C as [C1 C2].
  apply String.eqb_eq in C1. apply includes_In in C2.
  split; [assumption|]. split; [assumption|].
  destruct (WorkerUtils.getLotoBong s) as [t|]; [|discriminate].
  exists t. apply andb_prop in C3. destruct C3 as [C3 C4].
  apply includes_In in C3.
  destruct (WorkerUtils.getLotoBong t) as [u|]; [|discriminate].
  apply String.eqb_eq in C4. subst u. auto.
Qed.

Lemma reverse_and_bong_involutive_witness :
  two_digit "27"
  /\ WorkerUtils.reverseNumber (WorkerUtils.reverseNumber "27") = "27"%string
  /\ In (WorkerUtils.reverseNumber "27") universe
  /\ exists t, WorkerUtils.getLotoBong "27" = Some t
               /\ In t universe
               /\ WorkerUtils.getLotoBong t = Some "27"%string.
Proof.
  assert (T : two_digit "27").
  { exists "2"%char, "7"%char. repeat split; reflexivity. }
  split; [exact T|]. exact (reverse_and_bong_involutive "27" T).
Defined.

(* ================================================================== *)
(** * Arrays, loops *)

Lemma len_nonneg {A} (l : list A) : (0 <= len l)%Z.
Proof. unfold len. lia. Qed.

Lemma len_cons {A} (x : A) (l : list A) : len (x :: l) = (len l + 1)%Z.
Proof. unfold len. simpl List.length. lia. Qed.

Lemma len_app {A} (l1 l2 : list A) : len (l1 ++ l2) = (len l1 + len l2)%Z.
Proof. unfold len. rewrite length_app. lia. Qed.

Lemma len_nil {A} : len (@nil A) = 0%Z.
Proof. reflexivity. Qed.

Lemma js_nth_nil {A} (i : Z) : js_nth (@nil A) i = None.
Proof.
  unfold js_nth. destruct (i <? 0)%Z; auto. now destruct (Z.to_nat i).
Qed.

Lemma js_nth_cons_0 {A} (x : A) (l : list A) : js_nth (x :: l) 0 = Some x.
Proof. reflexivity. Qed.

Lemma js_nth_cons_pos {A} (x : A) (l : list A) (i : Z) :
  (0 < i)%Z -> js_nth (x :: l) i = js_nth l (i - 1).
Proof.
  intro P. unfold js_nth.
  destruct (i <? 0)%Z eqn:E1; [lia|]. destruct (i - 1 <? 0)%Z eqn:E2; [lia|].
  replace (Z.to_nat i) with (S (Z.to_nat (i - 1))) by lia. reflexivity.
Qed.

Lemma js_nth_neg {A} (l : list A) (i : Z) : (i < 0)%Z -> js_nth l i = None.
Proof. intro N. unfold js_nth. destruct (i <? 0)%Z eqn:E; [reflexivity | lia]. Qed.

Lemma js_nth_range {A} (l : list A) (i : Z) (x : A) :
  js_nth l i = Some x -> (0 <= i < len l)%Z.
Proof.
  unfold js_nth, len. destruct (i <? 0)%Z eqn:E; [discriminate|].
  intro N. assert (Z.to_nat i < List.length l)%nat.
  { apply nth_error_Some. congruence. }
  lia.
Qed.

Lemma js_nth_defined {A} (l : list A) (i : Z) :
  (0 <= i < len l)%Z -> exists x, js_nth l i = Some x.
Proof.
  unfold js_nth, len. intro R. destruct (i <? 0)%Z eqn:E; [lia|].
  destruct (nth_error l (Z.to_nat i)) as [x|] eqn:N; eauto.
  apply nth_error_None in N. lia.
Qed.

Lemma js_nth_In {A} (l : list A) (i : Z) (x : A) :
  js_nth l i = Some x -> In x l.
Proof.
  unfold js_nth. destruct (i <? 0)%Z; [discriminate|]. apply nth_error_In.
Qed.

Lemma js_nth_app_l {A} (l1 l2 : list A) (i : Z) :
  (i < len l1)%Z -> js_nth (l1 ++ l2) i = js_nth l1 i.
Proof.
  unfold js_nth, len. intro R. destruct (i <? 0)%Z eqn:E; [reflexivity|].
  apply nth_error_app1. lia.
Qed.

Lemma js_nth_app_r {A} (l1 l2 : list A) (i : Z) :
  (len l1 <= i)%Z -> js_nth (l1 ++ l2) i = js_nth l2 (i - len l1).
Proof.
  unfold js_nth, len. intro R.
  destruct (i <? 0)%Z eqn:E1; [lia|].
  destruct (i - Z.of_nat (List.length l1) <? 0)%Z eqn:E2; [lia|].
  rewrite nth_error_app2 by lia. f_equal. lia.
Qed.

Lemma forEachM_ext {A S} (f g : S -> A -> Result S) (l : list A) (s : S) :
  (forall s x, In x l -> f s x = g s x) -> forEachM f l s = forEachM g l s.
Proof.
  revert s. induction l as [|x l IH]; intros s E; simpl; [reflexivity|].
  rewrite E by (left; reflexivity). destruct (g s x); simpl; auto.
  apply IH. intros. apply E. now right.
Qed.

Lemma forEachM_app {A S} (f : S -> A -> Result S) (l1 l2 : list A) (s : S) :
  forEachM f (l1 ++ l2) s = (s' <- forEachM f l1 s ;; forEachM f l2 s').
Proof.
  revert s. induction l1 as [|x l1 IH]; intro s; simpl; [reflexivity|].
  destruct (f s x); simpl; auto.
Qed.

(** A loop that stores one computed value per key. *)
Lemma forEachM_set_each {V} (g : string -> Result V) (l : list string)
  (m0 : list (string * V)) :
  (forall x, In x l -> exists v, g x = Ok v) ->
  exists m,
    forEachM (fun m x => v <- g x ;; Ok (JsMap.set x v m)) l m0 = Ok m
    /\ (forall x, In x l -> exists v, g x = Ok v /\ JsMap.get x m = Some v)
    /\ (forall x, ~ In x l -> JsMap.get x m = JsMap.get x m0).
Proof.
  revert m0. induction l as [|y l IH]; intros m0 D; simpl.
  - exists m0. repeat split; auto. intros x [].
  - destruct (D y (or_introl eq_refl)) as [vy Ey]. rewrite Ey. simpl.
    destruct (IH (JsMap.set y vy m0)) as (m & Em & In1 & Out1).
    { intros x I. apply D. now right. }
    exists m. split; [assumption|]. split.
    + intros x [<-|I].
      * destruct (in_dec string_dec y l) as [I|N]; [now apply In1|].
        exists vy. split; auto. rewrite (Out1 y N). apply get_set_same.
      * now apply In1.
    + intros x N. rewrite Out1 by tauto. apply get_set_other.
      intro; subst; tauto.
Qed.

(* ================================================================== *)
(** * Absence status *)

Lemma get_fold_set_const {V} (num : string) (v : V) (nums : list string)
  (m : list (string * V)) :
  JsMap.get num (fold_left (fun m n => JsMap.set n v m) nums m)
  = if includes nums num then Some v else JsMap.get num m.
Proof.
  revert m. induction nums as [|n nums IH]; intro m; simpl; [reflexivity|].
  rewrite IH. destruct (includes nums num) eqn:E.
  - now rewrite orb_true_r.
  - rewrite orb_false_r. destruct (String.eqb num n) eqn:E2.
    + apply String.eqb_eq in E2. subst. apply get_set_same.
    + apply String.eqb_neq in E2. now apply get_set_other.
Qed.

Lemma lastAppearance_from (num : string) (l : list DayInfo) (i : Z)
  (m : list (string * Z)) :
  JsMap.get num
    (forEachi
       (fun m dayInfo index =>
          fold_left (fun m num => JsMap.set num index m)
            (uniqueNumbers dayInfo) m)
       l i m)
  = match last_landing num l with
    | Some k => Some (i + k)%Z
    | None => JsMap.get num m
    end.
Proof.
  revert i m. induction l as [|d l IH]; intros i m; simpl; [reflexivity|].
  rewrite IH. destruct (last_landing num l) as [k|].
  - f_equal. lia.
  - rewrite get_fold_set_const. destruct (includes (uniqueNumbers d) num).
    + f_equal. lia.
    + reflexivity.
Qed.

Lemma landed_at_cons (d : DayInfo) (l : list DayInfo) (num : string) (j : Z) :
  landed_at (d :: l) num j
  <-> (j = 0%Z /\ In num (uniqueNumbers d)) \/ ((0 < j)%Z /\ landed_at l num (j - 1)).
Proof.
  unfold landed_at. split.
  - intros (x & N & I). pose proof (js_nth_range _ _ _ N) as R.
    destruct (Z.eq_dec j 0) as [->|NZ].
    + left. rewrite js_nth_cons_0 in N. injection N as <-. auto.
    + right. split; [lia|]. rewrite js_nth_cons_pos in N by lia. eauto.
  - intros [[-> I]|[P (x & N & I)]].
    + exists d. split; auto.
    + exists x. split; auto. now rewrite js_nth_cons_pos.
Qed.

Lemma last_landing_None (num : string) (l : list DayInfo) :
  last_landing num l = None <-> never_landed l num.
Proof.
  unfold never_landed. induction l as [|d l IH]; simpl.
  - split; auto. intros _ i (x & N & _). rewrite js_nth_nil in N. discriminate.
  - destruct (last_landing num l) as [k|].
    + split; [discriminate|]. intro Nv. exfalso.
      assert (F : Some k = None) by (apply IH; intros i L;
        apply (Nv (i + 1)%Z); apply landed_at_cons; right;
        split; [destruct L as (x & N & _); apply js_nth_range in N; lia|];
        now replace (i + 1 - 1)%Z with i by lia).
      discriminate.
    + destruct (includes (uniqueNumbers d) num) eqn:E.
      * split; [discriminate|]. intro Nv. exfalso. apply (Nv 0%Z).
        apply landed_at_cons. left. split; auto. now apply includes_In.
      * split; auto. intros _ i L. apply landed_at_cons in L.
        apply includes_false in E. destruct L as [[_ I]|[_ L]]; [tauto|].
        destruct IH as [IH _]. exact (IH eq_refl _ L).
Qed.

Lemma last_landing_Some (num : string) (l : list DayInfo) (k : Z) :
  last_landing num l = Some k <-> most_recent l num k.
Proof.
  unfold most_recent. revert k. induction l as [|d l IH]; intro k; simpl.
  - split; [discriminate|]. intros [(x & N & _) _].
    rewrite js_nth_nil in N. discriminate.
  - destruct (last_landing num l) as [k'|] eqn:E.
    + destruct (IH k') as [IH1 _]. destruct (IH1 eq_refl) as [L' After'].
      assert (P' : (0 <= k')%Z)
        by (destruct L' as (x & N & _); apply js_nth_range in N; lia).
      split.
      * intro Ek. injection Ek as <-. split.
        -- apply landed_at_cons. right. split; [lia|].
           now replace (k' + 1 - 1)%Z with k' by lia.
        -- intros j Lt L. apply landed_at_cons in L.
           destruct L as [[-> _]|[_ L]]; [lia|].
           apply (After' (j - 1)%Z); [lia | assumption].
      * intros [L After]. f_equal.
        destruct (Z.lt_trichotomy k (k' + 1)) as [Lt|[Eq|Gt]]; [|lia|].
        -- exfalso. apply (After (k' + 1)%Z Lt). apply landed_at_cons.
           right. split; [lia|]. now replace (k' + 1 - 1)%Z with k' by lia.
        -- exfalso. apply landed_at_cons in L.
           destruct L as [[-> _]|[_ L]]; [lia|].
           apply (After' (k - 1)%Z); [lia | assumption].
    + pose proof (proj1 (last_landing_None num l) E) as Nv.
      destruct (includes (uniqueNumbers d) num) eqn:I.
      * apply includes_In in I. split.
        -- intro Ek. injection Ek as <-. split.
           ++ apply landed_at_cons. left. auto.
           ++ intros j Lt L. apply landed_at_cons in L.
              destruct L as [[-> _]|[_ L]]; [lia|]. exact (Nv _ L).
        -- intros [L _]. apply landed_at_cons in L.
           destruct L as [[-> _]|[_ L]]; [reflexivity|].
           exfalso. exact (Nv _ L).
      * apply includes_false in I. split; [discriminate|].
        intros [L _]. apply landed_at_cons in L.
        destruct L as [[_ F]|[_ L]]; [tauto|]. exfalso. exact (Nv _ L).
Qed.

Lemma lastAppearanceMap_spec (a : DataAnalyzer.t) (num : string) :
  JsMap.get num (DataAnalyzer.lastAppearanceMap a)
  = last_landing num (DataAnalyzer.historyData a).
Proof.
  unfold DataAnalyzer.lastAppearanceMap. rewrite lastAppearance_from.
  destruct (last_landing num (DataAnalyzer.historyData a)); auto.
Qed.

Lemma new_analyzer (h : list DayInfo) (a : DataAnalyzer.t) :
  DataAnalyzer.new (Some h) = Ok a ->
  h <> []
  /\ DataAnalyzer.historyData a = h
  /\ DataAnalyzer.allLottoNumbers a = universe
  /\ DataAnalyzer.currentDayIndex a = len h.
Proof.
  unfold DataAnalyzer.new. destruct (len h =? 0)%Z eqn:E; [discriminate|].
  intro O. injection O as <-. simpl. repeat split.
  intros ->. discriminate.
Qed.

Lemma ganEntryOf_defined (a : DataAnalyzer.t) (num : string) :
  exists e, ganEntryOf a num = Ok e.
Proof.
  unfold ganEntryOf. rewrite lastAppearanceMap_spec.
  destruct (last_landing num (DataAnalyzer.historyData a)) as [k|] eqn:E;
    [|eauto].
  apply last_landing_Some in E. destruct E as [(d & N & _) _].
  rewrite N. eauto.
Qed.

(** [getGanStatus] returns, and holds [ganEntryOf] for every number the
    analyzer ranges over. *)
Lemma getGanStatus_returns (a : DataAnalyzer.t) :
  exists g,
    DataAnalyzer.getGanStatus a = Ok g
    /\ forall num, In num (DataAnalyzer.allLottoNumbers a) ->
         exists e, ganEntryOf a num = Ok e /\ JsMap.get num g = Some e.
Proof.
  unfold DataAnalyzer.getGanStatus.
  rewrite forEachM_ext
    with (g := fun m x => v <- ganEntryOf a x ;; Ok (JsMap.set x v m)).
  - destruct (forEachM_set_each (ganEntryOf a)
                (DataAnalyzer.allLottoNumbers a) [])
      as (g & Eg & Ing & _).
    + intros x _. apply ganEntryOf_defined.
    + exists g. auto.
  - intros s x _. unfold ganEntryOf.
    destruct (JsMap.get x (DataAnalyzer.lastAppearanceMap a)); [|reflexivity].
    destruct (js_nth (DataAnalyzer.historyData a) z); reflexivity.
Qed.

(** C4.  For a non-empty history and a universe member, [getGanStatus]
    reports [daysGone >= 0]; [daysGone] equals [currentDayIndex] exactly
    when the member never landed; and when it did land, [lastSeenIndex] is
    the most recent record index containing it and [daysGone] is
    [currentDayIndex - lastSeenIndex - 1]. *)
Theorem getGanStatus_daysGone (h : list DayInfo) (a : DataAnalyzer.t)
  (num : string) :
  DataAnalyzer.new (Some h) = Ok a ->
  In num universe ->
  exists g e,
    DataAnalyzer.getGanStatus a = Ok g
    /\ JsMap.get num g = Some e
    /\ (0 <= GanEntry.daysGone e)%Z
    /\ (GanEntry.daysGone e = DataAnalyzer.currentDayIndex a
        <-> never_landed h num)
    /\ (~ never_landed h num ->
        most_recent h num (GanEntry.lastSeenIndex e)
        /\ GanEntry.daysGone e
           = (DataAnalyzer.currentDayIndex a - GanEntry.lastSeenIndex e - 1)%Z).
Proof.
  intros New U. destruct (new_analyzer h a New) as (NE & Hh & Ha & Hc).
  destruct (getGanStatus_returns a) as (g & Eg & Each).
  destruct (Each num) as (e & Ee & Ge); [now rewrite Ha|].
  exists g, e. split; [assumption|]. split; [assumption|].
  unfold ganEntryOf in Ee. rewrite lastAppearanceMap_spec, Hh in Ee.
  rewrite Hc in *.
  destruct (last_landing num h) as [k|] eqn:L.
  - pose proof (proj1 (last_landing_Some num h k) L) as MR.
    destruct MR as [(d & N & I) After]. rewrite N in Ee. injection Ee as <-.
    simpl. apply js_nth_range in N as R.
    split; [lia|]. split.
    + split; [lia|]. intro Nv. exfalso. apply (Nv k). exists d. auto.
    + intros _. split; [|reflexivity]. split; [exists d; auto | assumption].
  - injection Ee as <-. simpl. apply last_landing_None in L.
    split; [apply len_nonneg|]. split; [tauto|]. intro F. contradiction.
Qed.

Lemma getGanStatus_daysGone_witness :
  exists g e,
    DataAnalyzer.getGanStatus (sample_analyzer gan_sample) = Ok g
    /\ JsMap.get "07"%string g = Some e
    /\ (0 <= GanEntry.daysGone e)%Z
    /\ (GanEntry.daysGone e
        = DataAnalyzer.currentDayIndex (sample_analyzer gan_sample)
        <-> never_landed gan_sample "07")
    /\ (~ never_landed gan_sample "07" ->
        most_recent gan_sample "07" (GanEntry.lastSeenIndex e)
        /\ GanEntry.daysGone e
           = (DataAnalyzer.currentDayIndex (sample_analyzer gan_sample)
              - GanEntry.lastSeenIndex e - 1)%Z).
Proof.
  apply (getGanStatus_daysGone gan_sample (sample_analyzer gan_sample) "07").
  - reflexivity.
  - vm_compute. tauto.
Defined.

(* ================================================================== *)
(** * Consecutive-appearance streak *)

Lemma Zrange_nil (lo hi : Z) : (hi < lo)%Z -> Zrange lo hi = [].
Proof.
  intro L. unfold Zrange. replace (Z.to_nat (hi - lo + 1)) with 0%nat by lia.
  reflexivity.
Qed.

Lemma Zrange_cons (lo hi : Z) :
  (lo <= hi)%Z -> Zrange lo hi = lo :: Zrange (lo + 1) hi.
Proof.
  intro L. unfold Zrange.
  replace (Z.to_nat (hi - lo + 1)) with (S (Z.to_nat (hi - (lo + 1) + 1)))
    by lia.
  simpl. f_equal; [lia|]. rewrite <- seq_shift, map_map.
  apply map_ext. intro k. lia.
Qed.

Lemma Zrange_length (lo hi : Z) :
  List.length (Zrange lo hi) = Z.to_nat (hi - lo + 1).
Proof. unfold Zrange. now rewrite length_map, length_seq. Qed.

Lemma In_Zrange (lo hi i : Z) : In i (Zrange lo hi) <-> (lo <= i <= hi)%Z.
Proof.
  unfold Zrange. rewrite in_map_iff. split.
  - intros (k & <- & I). apply in_seq in I. lia.
  - intro R. exists (Z.to_nat (i - lo)). split; [cbv beta; lia|].
    apply in_seq. lia.
Qed.

(** Induction on an integer interval, from its lower end. *)
Lemma Zrange_ind (hi : Z) (P : Z -> Prop) :
  (forall lo, (hi < lo)%Z -> P lo) ->
  (forall lo, (lo <= hi)%Z -> P (lo + 1)%Z -> P lo) ->
  forall lo, P lo.
Proof.
  intros Base Step lo.
  remember (Z.to_nat (hi - lo + 1)) as n eqn:En. revert lo En.
  induction n as [|n IH]; intros lo En.
  - apply Base. lia.
  - apply Step; [lia|]. apply IH. lia.
Qed.

Lemma js_nth_rev {A} (l : list A) (i : Z) :
  (1 <= i <= len l)%Z -> js_nth l (len l - i) = js_nth (rev l) (i - 1).
Proof.
  unfold js_nth, len. intro R.
  destruct (Z.of_nat (List.length l) - i <? 0)%Z eqn:E1; [lia|].
  destruct (i - 1 <? 0)%Z eqn:E2; [lia|].
  rewrite nth_error_rev.
  destruct (Z.to_nat (i - 1) <? List.length l)%nat eqn:E3;
    [|apply Nat.ltb_ge in E3; lia].
  f_equal. lia.
Qed.

Lemma skipn_js_nth {A} (l : list A) (k : Z) (x : A) :
  js_nth l k = Some x ->
  skipn (Z.to_nat k) l = x :: skipn (Z.to_nat (k + 1)) l.
Proof.
  intro N. pose proof (js_nth_range _ _ _ N) as R. unfold js_nth in N.
  destruct (k <? 0)%Z; [discriminate|].
  replace (Z.to_nat (k + 1)) with (S (Z.to_nat k)) by lia.
  revert N. generalize (Z.to_nat k). clear.
  induction l as [|y l IH]; intros [|n] N; simpl in *; try discriminate.
  - now injection N as ->.
  - now apply IH.
Qed.

Section Streak.
Variable h : list DayInfo.
Variable num : string.
Variable n : Z.
Hypothesis enough : (n <= len h)%Z.

Let body := fun (i currentConsecutive : Z) =>
  if negb (len h - i >=? 0)%Z then Ok (Break currentConsecutive)
  else
    match js_nth h (len h - i) with
    | Some dayInfo =>
        if includes (uniqueNumbers dayInfo) num
        then Ok (Next (currentConsecutive + 1)%Z)
        else Ok (Break currentConsecutive)
    | None => Throw (TypeError "historyData[length - i] is undefined")
    end.

Lemma countBackward_from (i c : Z) :
  (1 <= i)%Z ->
  for_ofM body (Zrange i n) c
  = Ok (c + leading_run num
              (firstn (Z.to_nat (n - i + 1))
                 (skipn (Z.to_nat (i - 1)) (rev h))))%Z.
Proof.
  revert c. pattern i. apply (Zrange_ind n); clear i.
  - intros i L c _. rewrite Zrange_nil by lia.
    replace (Z.to_nat (n - i + 1)) with 0%nat by lia. simpl. f_equal. lia.
  - intros i L IH c P. rewrite Zrange_cons by lia.
    cbn [for_ofM]. unfold body at 1.
    destruct (len h - i >=? 0)%Z eqn:E; [|lia]. cbn [negb].
    rewrite js_nth_rev by lia.
    destruct (js_nth_defined (rev h) (i - 1)) as [d Ed].
    { unfold len in *. rewrite length_rev. lia. }
    rewrite Ed. rewrite (skipn_js_nth _ _ _ Ed).
    replace (Z.to_nat (n - i + 1)) with (S (Z.to_nat (n - (i + 1) + 1)))
      by lia.
    replace (i - 1 + 1)%Z with (i + 1 - 1)%Z by lia.
    cbn [firstn leading_run].
    destruct (includes (uniqueNumbers d) num); cbn [bind].
    + rewrite IH by lia. f_equal. lia.
    + f_equal. lia.
Qed.

Lemma countBackward_all :
  for_ofM body (Zrange 1 n) 0%Z = Ok (trailing_streak num h n).
Proof.
  rewrite countBackward_from by lia. unfold trailing_streak.
  replace (n - 1 + 1)%Z with n by lia. reflexivity.
Qed.
End Streak.

Lemma countBackward_spec (a : DataAnalyzer.t) (num : string) (n : Z) :
  (n <= len (DataAnalyzer.historyData a))%Z ->
  DataAnalyzer.countBackward a num n
  = Ok (trailing_streak num (DataAnalyzer.historyData a) n).
Proof.
  intro E. unfold DataAnalyzer.countBackward.
  now rewrite <- (countBackward_all _ num n E).
Qed.

Lemma leading_run_nonneg (num : string) (l : list DayInfo) :
  (0 <= leading_run num l)%Z.
Proof.
  induction l as [|d l IH]; cbn [leading_run]; [lia|].
  destruct (includes (uniqueNumbers d) num); lia.
Qed.

(** The loop over the numbers stores each positive streak and leaves
    the initial zero otherwise. *)
Lemma store_streaks (count : string -> Z) (g : string -> Result Z)
  (l : list string) (m0 : list (string * Z)) :
  NoDup l ->
  (forall x, In x l -> JsMap.get x m0 = Some 0%Z) ->
  (forall x, In x l -> g x = Ok (count x) /\ (0 <= count x)%Z) ->
  exists m,
    forEachM
      (fun consecutiveMap num =>
         currentConsecutive <- g num ;;
         Ok (if (currentConsecutive >? 0)%Z
             then JsMap.set num currentConsecutive consecutiveMap
             else consecutiveMap))
      l m0 = Ok m
    /\ (forall x, In x l -> JsMap.get x m = Some (count x))
    /\ (forall x, ~ In x l -> JsMap.get x m = JsMap.get x m0).
Proof.
  revert m0. induction l as [|y l IH]; intros m0 ND Z0 G; simpl.
  - exists m0. repeat split; auto. intros x [].
  - inversion ND as [|? ? Ny ND']; subst.
    destruct (G y (or_introl eq_refl)) as [Gy Py]. rewrite Gy. simpl.
    set (m1 := if (count y >? 0)%Z then JsMap.set y (count y) m0 else m0).
    assert (Other : forall x, x <> y -> JsMap.get x m1 = JsMap.get x m0).
    { intros x Nx. unfold m1. destruct (count y >? 0)%Z; auto.
      now apply get_set_other. }
    assert (Same : JsMap.get y m1 = Some (count y)).
    { unfold m1. destruct (count y >? 0)%Z eqn:E; [apply get_set_same|].
      rewrite Z0 by (left; reflexivity). f_equal. lia. }
    destruct (IH m1 ND') as (m & Em & In1 & Out1).
    + intros x I. rewrite Other by (intro; subst; contradiction).
      apply Z0. now right.
    + intros x I. apply G. now right.
    + exists m. split; [assumption|]. split.
      * intros x [<-|I]; [|now apply In1]. now rewrite Out1.
      * intros x N. rewrite Out1 by tauto. apply Other. intro; subst; tauto.
Qed.

(** C9, as amended.  For histories with at least [n] records,
    [getConsecutiveAppearance n] reports for every universe member its
    streak over the most recent [n] records; for a history shorter than
    [n] it reports 0 for every member. *)
Theorem getConsecutiveAppearance_streak (h : list DayInfo)
  (a : DataAnalyzer.t) (n : Z) (num : string) :
  DataAnalyzer.new (Some h) = Ok a ->
  (1 <= n)%Z ->
  In num universe ->
  exists m,
    DataAnalyzer.getConsecutiveAppearance a n = Ok m
    /\ JsMap.get num m
       = Some (if (len h <? n)%Z then 0%Z else trailing_streak num h n).
Proof.
  intros New Pn U. destruct (new_analyzer h a New) as (NE & Hh & Ha & Hc).
  unfold DataAnalyzer.getConsecutiveAppearance. rewrite Hh, Ha.
  rewrite (of_entries_NoDup (fun _ => 0%Z)) by apply universe_NoDup.
  destruct (len h <? n)%Z eqn:E.
  - eexists. split; [reflexivity|]. now apply (get_map_pair (fun _ => 0%Z)).
  - destruct (store_streaks (fun x => trailing_streak x h n)
                (fun x => DataAnalyzer.countBackward a x n) universe
                (map (fun k => (k, 0%Z)) universe))
      as (m & Em & In1 & _).
    + apply universe_NoDup.
    + intros x I. now apply (get_map_pair (fun _ => 0%Z)).
    + intros x I. split.
      * rewrite countBackward_spec by (rewrite Hh; lia). now rewrite Hh.
      * apply leading_run_nonneg.
    + exists m. split; [exact Em | now apply In1].
Qed.

Lemma getConsecutiveAppearance_streak_witness :
  exists m,
    DataAnalyzer.getConsecutiveAppearance (sample_analyzer gan_sample) 2 = Ok m
    /\ JsMap.get "12"%string m
       = Some (if (len gan_sample <? 2)%Z then 0%Z
               else trailing_streak "12" gan_sample 2).
Proof.
  apply (getConsecutiveAppearance_streak gan_sample
           (sample_analyzer gan_sample) 2 "12").
  - reflexivity.
  - lia.
  - vm_compute. tauto.
Defined.

(** C9, counterexample.  On a two-record history in which "07" landed on
    both days, a streak over the last 3 records is 2 by the specification's
    wording, while the code reports 0. *)
Lemma streak_claim_fails_on_short_history :
  ~ streak_claim_as_stated short_history 3 "07".
Proof.
  intro C. destruct (C (sample_analyzer short_history) eq_refl) as (m & Em & Gm).
  vm_compute in Em. injection Em as <-. vm_compute in Gm. discriminate.
Qed.

(* ================================================================== *)
(** * Appearance indices *)

Lemma landings_spec (num : string) (l : list DayInfo) (i k : Z) :
  In k (landings num l i) <-> landed_at l num (k - i).
Proof.
  revert i. induction l as [|d l IH]; intro i; simpl.
  - split; [tauto|]. intros (x & N & _). rewrite js_nth_nil in N. discriminate.
  - rewrite landed_at_cons.
    replace (k - i - 1)%Z with (k - (i + 1))%Z by lia.
    destruct (includes (uniqueNumbers d) num) eqn:E.
    + apply includes_In in E. simpl. rewrite IH. split.
      * intros [<-|L]; [left; split; [lia | assumption]|].
        right. split; auto. destruct L as (x & N & _).
        apply js_nth_range in N. lia.
      * intros [[Z0 _]|[_ L]]; [left; lia | now right].
    + apply includes_false in E. rewrite IH. split.
      * intro L. right. split; auto. destruct L as (x & N & _).
        apply js_nth_range in N. lia.
      * intros [[_ I]|[_ L]]; [contradiction | assumption].
Qed.

Lemma landings_absent (num : string) (l : list DayInfo) (i : Z) :
  (forall d, In d l -> ~ In num (uniqueNumbers d)) -> landings num l i = [].
Proof.
  revert i. induction l as [|d l IH]; intros i N; simpl; [reflexivity|].
  assert (E : includes (uniqueNumbers d) num = false).
  { apply includes_false. apply N. now left. }
  rewrite E. apply IH. intros d' I. apply N. now right.
Qed.

(** ** Collecting indices into a map

    [getConsistentPeriodBridge] and [getNumberCycleAnalysis] both walk
    the records and push the record index onto the entry of each landed
    number.  [push] is the update of one entry. *)
Section Collect.
Context {V : Type}.
Variable push : Z -> V -> V.
Variable err : JsError.

Let pushOne (index : Z) :=
  fun (m : list (string * V)) (num : string) =>
    match JsMap.get num m with
    | Some v => Ok (JsMap.set num (push index v) m)
    | None => Throw err
    end.

Lemma push_day (index : Z) (nums : list string) (m : list (string * V)) :
  NoDup nums ->
  (forall x, In x nums -> In x (JsMap.keys m)) ->
  exists m',
    forEachM (pushOne index) nums m = Ok m'
    /\ JsMap.keys m' = JsMap.keys m
    /\ forall x,
         JsMap.get x m'
         = if includes nums x then option_map (push index) (JsMap.get x m)
           else JsMap.get x m.
Proof.
  revert m. induction nums as [|y nums IH]; intros m ND Sub.
  - exists m. repeat split; auto.
  - inversion ND as [|? ? Ny ND']; subst.
    destruct (in_keys_get y m (Sub y (or_introl eq_refl))) as [vy Ey].
    cbn [forEachM]. unfold pushOne at 1. rewrite Ey. cbn [bind].
    destruct (IH (JsMap.set y (push index vy) m) ND') as (m' & Em & Km & Gm).
    { intros x I. apply in_keys_set. right. apply Sub. now right. }
    exists m'. split; [exact Em|]. split.
    + rewrite Km. apply keys_set_in. now apply Sub; left.
    + intro x. rewrite Gm. cbn [includes existsb].
      fold (includes nums x).
      destruct (String.eqb x y) eqn:E.
      * apply String.eqb_eq in E. subst x.
        apply includes_false in Ny. rewrite Ny. cbn [orb].
        rewrite get_set_same, Ey. reflexivity.
      * apply String.eqb_neq in E. cbn [orb].
        rewrite get_set_other by assumption. reflexivity.
Qed.

Lemma collect_days (l : list DayInfo) (i : Z) (m : list (string * V)) :
  (forall d, In d l -> NoDup (uniqueNumbers d)) ->
  (forall d x, In d l -> In x (uniqueNumbers d) -> In x (JsMap.keys m)) ->
  exists m',
    forEachiM
      (fun m dayInfo index => forEachM (pushOne index) (uniqueNumbers dayInfo) m)
      l i m = Ok m'
    /\ JsMap.keys m' = JsMap.keys m
    /\ forall x,
         JsMap.get x m'
         = option_map
             (fun v => fold_left (fun v k => push k v) (landings x l i) v)
             (JsMap.get x m).
Proof.
  revert i m. induction l as [|d l IH]; intros i m ND Sub.
  - exists m. repeat split; auto. intro x. simpl.
    now destruct (JsMap.get x m).
  - destruct (push_day i (uniqueNumbers d) m) as (m1 & E1 & K1 & G1).
    { apply ND. now left. }
    { intros x I. apply (Sub d); auto. now left. }
    cbn [forEachiM]. rewrite E1. cbn [bind].
    destruct (IH (i + 1)%Z m1) as (m' & E' & K' & G').
    { intros d' I. apply ND. now right. }
    { intros d' x I Ix. rewrite K1. apply (Sub d'); auto. now right. }
    exists m'. split; [exact E'|]. split; [congruence|].
    intro x. rewrite G', G1. cbn [landings].
    destruct (includes (uniqueNumbers d) x); destruct (JsMap.get x m);
      reflexivity.
Qed.
End Collect.

Lemma prepared_day_facts (d : DayInfo) :
  prepared_day d ->
  NoDup (uniqueNumbers d) /\ forall x, In x (uniqueNumbers d) -> In x universe.
Proof.
  intros [U F]. rewrite U. destruct (set_of_list_spec (numbers d)) as [ND I].
  split; auto. intros x Ix. apply I in Ix. rewrite Forall_forall in F. auto.
Qed.

Lemma prepared_skipn (h : list DayInfo) (n : nat) :
  prepared h -> prepared (skipn n h).
Proof.
  unfold prepared. rewrite !Forall_forall. intros P d I. apply P.
  rewrite <- (firstn_skipn n h). apply in_or_app. now right.
Qed.

Lemma prepared_firstn (h : list DayInfo) (n : nat) :
  prepared h -> prepared (firstn n h).
Proof.
  unfold prepared. rewrite !Forall_forall. intros P d I. apply P.
  rewrite <- (firstn_skipn n h). apply in_or_app. now left.
Qed.

Lemma prepared_slice (a : DataAnalyzer.t) (lookback : Z) :
  prepared (DataAnalyzer.historyData a) ->
  prepared (DataAnalyzer._getHistorySlice a lookback).
Proof.
  intro P. unfold DataAnalyzer._getHistorySlice.
  destruct (lookback =? 0)%Z; [constructor|]. now apply prepared_skipn.
Qed.

Lemma landings_outside_universe (num : string) (l : list DayInfo) (i : Z) :
  prepared l -> ~ In num universe -> landings num l i = [].
Proof.
  intros P N. apply landings_absent. intros d I F.
  unfold prepared in P. rewrite Forall_forall in P.
  destruct (prepared_day_facts d (P d I)) as [_ Sub]. apply N. now apply Sub.
Qed.

(** The indices collected for the bridge analysis. *)
Lemma collectIndices_spec (start : Z) (l : list DayInfo) :
  prepared l ->
  exists m,
    DataAnalyzer.collectIndices start l
      (JsMap.of_entries (map (fun num => (num, @nil Z)) universe)) = Ok m
    /\ JsMap.keys m = universe
    /\ forall x, In x universe -> JsMap.get x m = Some (landings x l start).
Proof.
  intro P. unfold prepared in P. rewrite Forall_forall in P.
  rewrite (of_entries_NoDup (fun _ => @nil Z)) by apply universe_NoDup.
  unfold DataAnalyzer.collectIndices.
  destruct (collect_days (fun i v => v ++ [(start + i)%Z])
              (TypeError "numberAppearanceIndices.get(num) is undefined")
              l 0%Z (map (fun k => (k, @nil Z)) universe))
    as (m & Em & Km & Gm).
  - intros d I. now apply prepared_day_facts, P.
  - intros d x I Ix. rewrite (keys_map_pair (fun _ => @nil Z)).
    now apply (prepared_day_facts d (P d I)).
  - exists m. split; [exact Em|]. split.
    + now rewrite Km, (keys_map_pair (fun _ => @nil Z)).
    + intros x U. rewrite Gm, (get_map_pair (fun _ => @nil Z)) by assumption.
      cbn [option_map]. f_equal.
      assert (G : forall k i acc,
        fold_left (fun v j => v ++ [(start + j)%Z]) (landings x k i) acc
        = acc ++ landings x k (start + i)).
      { clear. induction k as [|d k IH]; intros i acc; cbn [landings].
        - simpl. now rewrite app_nil_r.
        - replace (start + i + 1)%Z with (start + (i + 1))%Z by lia.
          destruct (includes (uniqueNumbers d) x); cbn [fold_left].
          + rewrite IH, <- app_assoc. reflexivity.
          + apply IH. }
      rewrite G. simpl. now replace (start + 0)%Z with start by lia.
Qed.

(* ================================================================== *)
(** * The lookback window *)

Lemma len_skipn {A} (l : list A) (n : nat) :
  len (skipn n l) = Z.max 0 (len l - Z.of_nat n).
Proof. unfold len. rewrite length_skipn. lia. Qed.

Lemma numbered_from (l : list DayInfo) (i t : Z) :
  map snd (filter (fun p => (t <=? fst p)%Z) (numbered i l))
  = skipn (Z.to_nat (t - i)) l.
Proof.
  revert i. induction l as [|d l IH]; intro i; cbn [numbered filter map fst].
  - now rewrite skipn_nil.
  - destruct (t <=? i)%Z eqn:E; cbn [map snd].
    + replace (Z.to_nat (t - i)) with 0%nat by lia. cbn [skipn].
      rewrite IH. replace (Z.to_nat (t - (i + 1))) with 0%nat by lia.
      reflexivity.
    + replace (Z.to_nat (t - i)) with (S (Z.to_nat (t - (i + 1)))) by lia.
      cbn [skipn]. apply IH.
Qed.

(** The slice the analyzer takes is the last [daysLookback] records. *)
Lemma getHistorySlice_window (a : DataAnalyzer.t) (daysLookback : Z) :
  DataAnalyzer._getHistorySlice a daysLookback
  = lookback_window (DataAnalyzer.historyData a) daysLookback.
Proof.
  unfold DataAnalyzer._getHistorySlice, lookback_window, slice_from.
  rewrite numbered_from.
  destruct (daysLookback =? 0)%Z eqn:E.
  - apply Z.eqb_eq in E. subst. symmetry. apply skipn_all2.
    unfold len. lia.
  - f_equal. lia.
Qed.

Lemma landings_from (num : string) (l : list DayInfo) (i t : Z) :
  filter (fun j => (t <=? j)%Z) (landings num l i)
  = landings num (skipn (Z.to_nat (t - i)) l)
      (i + Z.of_nat (Z.to_nat (t - i))).
Proof.
  revert i. induction l as [|d l IH]; intro i.
  - now rewrite skipn_nil.
  - destruct (t <=? i)%Z eqn:E.
    + replace (Z.to_nat (t - i)) with 0%nat by lia. cbn [skipn].
      replace (i + Z.of_nat 0)%Z with i by lia.
      apply forallb_filter_id. apply forallb_forall. intros j I.
      apply landings_spec in I. destruct I as (x & N & _).
      apply js_nth_range in N. lia.
    + replace (Z.to_nat (t - i)) with (S (Z.to_nat (t - (i + 1)))) by lia.
      cbn [skipn landings].
      replace (i + Z.of_nat (S (Z.to_nat (t - (i + 1)))))%Z
        with (i + 1 + Z.of_nat (Z.to_nat (t - (i + 1))))%Z by lia.
      rewrite <- IH.
      destruct (includes (uniqueNumbers d) num); [|reflexivity].
      cbn [filter]. now rewrite E.
Qed.

(** The indices the analyzer collects over its slice are the
    appearances among the last [daysLookback] records. *)
Lemma window_indices_recent (a : DataAnalyzer.t) (daysLookback : Z)
  (num : string) :
  window_indices a daysLookback num
  = recent_landings (DataAnalyzer.historyData a) daysLookback num.
Proof.
  unfold window_indices, recent_landings. cbv zeta.
  set (h := DataAnalyzer.historyData a).
  rewrite landings_from.
  replace (len h - daysLookback - 0)%Z with (len h - daysLookback)%Z by lia.
  unfold DataAnalyzer._getHistorySlice, slice_from. fold h.
  destruct (daysLookback =? 0)%Z eqn:E.
  - apply Z.eqb_eq in E. subst.
    rewrite skipn_all2 by (unfold len; lia). reflexivity.
  - replace (Z.to_nat (Z.max 0 (len h - daysLookback)))
      with (Z.to_nat (len h - daysLookback)) by lia.
    destruct (le_lt_dec (Z.to_nat (len h - daysLookback)) (List.length h)) as [L|L].
    + f_equal. rewrite len_skipn. unfold len in *. lia.
    + rewrite skipn_all2 by lia. reflexivity.
Qed.

(* ================================================================== *)
(** * Periodic bridges *)

Lemma for_of_ext {A S} (f g : A -> S -> Step S) (l : list A) (s : S) :
  (forall x s, f x s = g x s) -> for_of f l s = for_of g l s.
Proof.
  intro E. revert s. induction l as [|x l IH]; intro s; simpl; [reflexivity|].
  rewrite E. destruct (g x s); auto.
Qed.

Lemma for_of_first_hit {A S} (hit : A -> bool) (f : S -> S) (l : list A)
  (s : S) :
  for_of (fun x s => if hit x then Break (f s) else Next s) l s
  = if existsb hit l then f s else s.
Proof.
  induction l as [|x l IH]; simpl; [reflexivity|].
  destruct (hit x); simpl; auto.
Qed.

Lemma for_of_all {A} (p : A -> bool) (l : list A) :
  for_of (fun x (ok : bool) => if negb (p x) then Break false else Next ok)
    l true
  = forallb p l.
Proof.
  induction l as [|x l IH]; simpl; [reflexivity|].
  destruct (p x); simpl; auto.
Qed.

Lemma set_add_idem (x : string) (s : list string) :
  JsSet.add x (JsSet.add x s) = JsSet.add x s.
Proof.
  unfold JsSet.add at 1. unfold JsSet.has.
  assert (I : includes (JsSet.add x s) x = true).
  { apply includes_In. apply set_add_In. now left. }
  now rewrite I.
Qed.

Lemma scanPeriod_spec (a : DataAnalyzer.t) (num : string) (indices : list Z)
  (minOccurrences period : Z) (bridge : list string) :
  DataAnalyzer.scanPeriod a num indices minOccurrences period bridge
  = if existsb (run_hit a indices minOccurrences period)
         (Zrange 0 (len indices - minOccurrences))
    then JsSet.add num bridge else bridge.
Proof.
  unfold DataAnalyzer.scanPeriod.
  rewrite <- (for_of_first_hit (run_hit a indices minOccurrences period)
                (JsSet.add num)).
  apply for_of_ext. intros i s. unfold run_hit.
  destruct (DataAnalyzer.isConsistentRun indices minOccurrences period i);
    reflexivity.
Qed.

Lemma bridge_entry_step (a : DataAnalyzer.t) (minOccurrences maxPeriod : Z)
  (num : string) (indices : list Z) (bridge : list string) :
  (if (len indices >=? minOccurrences)%Z then
     fold_left
       (fun bridgeCandidates period =>
          DataAnalyzer.scanPeriod a num indices minOccurrences period
            bridgeCandidates)
       (Zrange 1 maxPeriod) bridge
   else bridge)
  = if qualifies a indices minOccurrences maxPeriod
    then JsSet.add num bridge else bridge.
Proof.
  unfold qualifies. destruct (len indices >=? minOccurrences)%Z; [|reflexivity].
  cbn [andb]. generalize (Zrange 1 maxPeriod) as periods. intro periods.
  revert bridge. induction periods as [|p periods IH]; intro bridge;
    [reflexivity|].
  cbn [fold_left existsb]. rewrite IH, scanPeriod_spec.
  destruct (existsb (run_hit a indices minOccurrences p)
              (Zrange 0 (len indices - minOccurrences))); cbn [orb].
  - rewrite set_add_idem. now destruct (existsb _ periods).
  - reflexivity.
Qed.

Lemma bridge_fold (a : DataAnalyzer.t) (minOccurrences maxPeriod : Z)
  (m : list (string * list Z)) (acc : list string) :
  NoDup acc ->
  let r :=
    fold_left
      (fun bridgeCandidates entry =>
         let num := fst entry in
         let indices := snd entry in
         if (len indices >=? minOccurrences)%Z then
           fold_left
             (fun bridgeCandidates period =>
                DataAnalyzer.scanPeriod a num indices minOccurrences period
                  bridgeCandidates)
             (Zrange 1 maxPeriod) bridgeCandidates
         else bridgeCandidates)
      m acc in
  NoDup r
  /\ forall x, In x r <->
       In x acc
       \/ exists indices, In (x, indices) m
                          /\ qualifies a indices minOccurrences maxPeriod = true.
Proof.
  revert acc. induction m as [|[num indices] m IH]; intros acc ND; cbn zeta.
  - simpl. split; auto. intro x. split; [tauto|]. intros [I|(i & [] & _)]; auto.
  - cbn [fold_left fst snd]. rewrite bridge_entry_step.
    destruct (qualifies a indices minOccurrences maxPeriod) eqn:Q.
    + destruct (IH (JsSet.add num acc) (set_add_NoDup num acc ND)) as [N1 I1].
      split; [exact N1|]. intro x. rewrite I1, set_add_In. split.
      * intros [[->|I]|(i & I & Qi)]; auto.
        -- right. exists indices. split; auto. now left.
        -- right. exists i. split; auto. now right.
      * intros [I|(i & [E|I] & Qi)]; auto.
        -- injection E as -> ->. auto.
        -- right. eauto.
    + destruct (IH acc ND) as [N1 I1]. split; [exact N1|].
      intro x. rewrite I1. split.
      * intros [I|(i & I & Qi)]; auto. right. exists i. split; auto. now right.
      * intros [I|(i & [E|I] & Qi)]; auto.
        -- injection E as -> ->. congruence.
        -- right. eauto.
Qed.

Lemma in_map_get {V} (m : list (string * V)) (x : string) (v : V) :
  NoDup (JsMap.keys m) -> (In (x, v) m <-> JsMap.get x m = Some v).
Proof.
  induction m as [|[k w] m IH]; intro ND; simpl.
  - split; [tauto | discriminate].
  - inversion ND as [|? ? Nk ND']; subst.
    unfold keqb, KeyEq_string. destruct (String.eqb x k) eqn:E.
    + apply String.eqb_eq in E. subst k. split.
      * intros [Eq|I]; [now injection Eq as -> | ].
        exfalso. apply Nk. apply in_map_iff. exists (x, v). auto.
      * intro Eq. injection Eq as ->. now left.
    + apply String.eqb_neq in E. rewrite <- IH by assumption. split.
      * intros [Eq|I]; [injection Eq as -> ->; congruence | assumption].
      * now right.
Qed.

(** ** The test of one position, in the words of the specification *)

Lemma isConsistentRun_true (indices : list Z) (minOccurrences period i : Z) :
  DataAnalyzer.isConsistentRun indices minOccurrences period i = true
  <-> forall j, (0 <= j <= minOccurrences - 2)%Z ->
        DataAnalyzer.index_diff indices (i + j + 1) (i + j) = Some period.
Proof.
  unfold DataAnalyzer.isConsistentRun.
  rewrite (for_of_all
             (fun j => keqb (DataAnalyzer.index_diff indices (i + j + 1) (i + j))
                         (Some period))).
  rewrite forallb_forall. split.
  - intros F j R. apply keqb_spec. apply F. apply In_Zrange. lia.
  - intros F j I. apply keqb_spec. apply F. apply In_Zrange in I. lia.
Qed.

Lemma js_nth_segment {A} (pre run post : list A) (k : Z) :
  (0 <= k < len run)%Z ->
  js_nth (pre ++ run ++ post) (len pre + k) = js_nth run k.
Proof.
  intro R. rewrite js_nth_app_r by lia.
  replace (len pre + k - len pre)%Z with k by lia.
  now rewrite js_nth_app_l by lia.
Qed.

Lemma js_nth_skipn {A} (l : list A) (i k : Z) :
  (0 <= i)%Z -> (0 <= k)%Z ->
  js_nth (skipn (Z.to_nat i) l) k = js_nth l (i + k).
Proof.
  intros Pi Pk. unfold js_nth.
  destruct (k <? 0)%Z eqn:E1; [lia|]. destruct (i + k <? 0)%Z eqn:E2; [lia|].
  rewrite nth_error_skipn. f_equal. lia.
Qed.

Lemma js_nth_firstn {A} (l : list A) (n k : Z) :
  (k < n)%Z -> js_nth (firstn (Z.to_nat n) l) k = js_nth l k.
Proof.
  intro L. unfold js_nth. destruct (k <? 0)%Z eqn:E1; [reflexivity|].
  rewrite nth_error_firstn.
  destruct (Z.to_nat k <? Z.to_nat n)%nat eqn:E2; [reflexivity|].
  apply Nat.ltb_ge in E2. lia.
Qed.

Lemma run_hit_true (a : DataAnalyzer.t) (indices : list Z)
  (minOccurrences period i : Z) :
  (1 <= minOccurrences)%Z ->
  (0 <= i <= len indices - minOccurrences)%Z ->
  run_hit a indices minOccurrences period i = true
  <-> (evenly_spaced period
         (firstn (Z.to_nat minOccurrences) (skipn (Z.to_nat i) indices))
       /\ exists lastIndex,
            js_nth indices (i + minOccurrences - 1) = Some lastIndex
            /\ (lastIndex + period = DataAnalyzer.currentDayIndex a)%Z).
Proof.
  intros Pm Ri. unfold run_hit. rewrite andb_true_iff, isConsistentRun_true.
  assert (Seg : forall k, (0 <= k < minOccurrences)%Z ->
            js_nth (firstn (Z.to_nat minOccurrences)
                      (skipn (Z.to_nat i) indices)) k
            = js_nth indices (i + k)).
  { intros k Rk. rewrite js_nth_firstn by lia. apply js_nth_skipn; lia. }
  assert (SegLen : len (firstn (Z.to_nat minOccurrences)
                          (skipn (Z.to_nat i) indices)) = minOccurrences).
  { unfold len in *. rewrite length_firstn, length_skipn. lia. }
  split.
  - intros [C L]. split.
    + intros k x y Ex Ey. pose proof (js_nth_range _ _ _ Ex) as Rx.
      pose proof (js_nth_range _ _ _ Ey) as Ry. rewrite SegLen in Rx, Ry.
      rewrite Seg in Ex, Ey by lia.
      specialize (C k ltac:(lia)). unfold DataAnalyzer.index_diff in C.
      replace (i + (k + 1))%Z with (i + k + 1)%Z in Ey by lia.
      rewrite Ex, Ey in C. now injection C.
    + apply keqb_spec in L.
      destruct (js_nth indices (i + minOccurrences - 1)) as [l|];
        [|discriminate].
      exists l. split; auto. now injection L.
  - intros [Ev (l & El & Eq)]. split.
    + intros j Rj. unfold DataAnalyzer.index_diff.
      destruct (js_nth_defined indices (i + j)) as [x Ex]; [lia|].
      destruct (js_nth_defined indices (i + j + 1)) as [y Ey]; [lia|].
      rewrite Ex, Ey. f_equal. apply (Ev j).
      * rewrite Seg by lia. exact Ex.
      * rewrite Seg by lia. now replace (i + (j + 1))%Z with (i + j + 1)%Z by lia.
    + rewrite El. apply keqb_spec. f_equal. exact Eq.
Qed.

Lemma qualifies_true (a : DataAnalyzer.t) (indices : list Z)
  (minOccurrences maxPeriod : Z) :
  (1 <= minOccurrences)%Z ->
  qualifies a indices minOccurrences maxPeriod = true
  <-> ((minOccurrences <= len indices)%Z
       /\ exists period,
            (1 <= period <= maxPeriod)%Z
            /\ periodic_run indices minOccurrences period
                 (DataAnalyzer.currentDayIndex a)).
Proof.
  intro Pm. unfold qualifies. rewrite andb_true_iff, existsb_exists.
  split.
  - intros [L (period & Ip & E)]. apply In_Zrange in Ip.
    apply existsb_exists in E. destruct E as (i & Ii & Hit).
    apply In_Zrange in Ii. apply run_hit_true in Hit; [|lia|lia].
    destruct Hit as [Ev (l & El & Eq)].
    split; [lia|]. exists period. split; [lia|].
    exists (firstn (Z.to_nat i) indices),
      (firstn (Z.to_nat minOccurrences) (skipn (Z.to_nat i) indices)),
      (skipn (Z.to_nat minOccurrences) (skipn (Z.to_nat i) indices)).
    split; [now rewrite !firstn_skipn|].
    split; [unfold len in *; rewrite length_firstn, length_skipn; lia|].
    split; [exact Ev|]. exists l. split; [|exact Eq].
    rewrite js_nth_firstn by lia. rewrite js_nth_skipn by lia.
    now replace (i + (minOccurrences - 1))%Z with (i + minOccurrences - 1)%Z
      by lia.
  - intros [L (period & Rp & pre & run & post & -> & Lr & Ev & l & El & Eq)].
    split; [lia|]. exists period. split; [apply In_Zrange; lia|].
    apply existsb_exists. exists (len pre).
    rewrite !len_app in *. pose proof (len_nonneg pre). pose proof (len_nonneg post).
    split; [apply In_Zrange; lia|].
    apply run_hit_true; [lia | rewrite !len_app; lia |].
    assert (Sk : skipn (Z.to_nat (len pre)) (pre ++ run ++ post) = run ++ post).
    { unfold len. rewrite Nat2Z.id. rewrite skipn_app, skipn_all, Nat.sub_diag.
      reflexivity. }
    assert (Fr : firstn (Z.to_nat minOccurrences) (run ++ post) = run).
    { rewrite <- Lr. unfold len. rewrite Nat2Z.id.
      rewrite firstn_app, firstn_all, Nat.sub_diag. simpl.
      apply app_nil_r. }
    rewrite Sk, Fr. split; [exact Ev|]. exists l. split; [|exact Eq].
    replace (len pre + minOccurrences - 1)%Z
      with (len pre + (minOccurrences - 1))%Z by lia.
    rewrite js_nth_segment by lia. exact El.
Qed.

(** The set [getConsistentPeriodBridge] returns, in terms of the indices
    collected over the analyzer's slice. *)
Lemma bridge_over_slice (h : list DayInfo) (a : DataAnalyzer.t)
  (minOccurrences maxPeriod daysLookback : Z) (num : string) :
  DataAnalyzer.new (Some h) = Ok a ->
  prepared h ->
  (1 <= minOccurrences)%Z ->
  (1 <= maxPeriod)%Z ->
  exists r : list string,
    DataAnalyzer.getConsistentPeriodBridge a minOccurrences maxPeriod
      daysLookback = Ok r
    /\ NoDup r
    /\ (In num r <->
        active_bridge a minOccurrences maxPeriod daysLookback num).
Proof.
  intros New P Pm Pp. destruct (new_analyzer h a New) as (NE & Hh & Ha & Hc).
  unfold DataAnalyzer.getConsistentPeriodBridge. rewrite Ha.
  destruct (collectIndices_spec
              (len (DataAnalyzer.historyData a)
               - len (DataAnalyzer._getHistorySlice a daysLookback))
              (DataAnalyzer._getHistorySlice a daysLookback))
    as (m & Em & Km & Gm).
  { apply prepared_slice. now rewrite Hh. }
  rewrite Em. cbn [bind].
  destruct (bridge_fold a minOccurrences maxPeriod m [] (NoDup_nil _))
    as [ND In_r].
  eexists. split; [reflexivity|]. split; [exact ND|].
  rewrite In_r. unfold active_bridge. rewrite <- qualifies_true by assumption.
  split.
  - intros [[]|(indices & I & Q)].
    apply in_map_get in I; [|rewrite Km; apply universe_NoDup].
    assert (U : In num universe).
    { rewrite <- Km. eapply get_Some_in. exact I. }
    rewrite Gm in I by assumption. injection I as <-. exact Q.
  - intro Q. right. exists (window_indices a daysLookback num).
    split; [|exact Q].
    assert (U : In num universe).
    { destruct (in_dec string_dec num universe) as [U|N]; [exact U|].
      exfalso. unfold window_indices in Q.
      rewrite landings_outside_universe in Q;
        [| apply prepared_slice; now rewrite Hh | exact N].
      unfold qualifies in Q. apply andb_true_iff in Q. destruct Q as [Q _].
      rewrite len_nil in Q. lia. }
    apply in_map_get; [rewrite Km; apply universe_NoDup|].
    now apply Gm.
Qed.

Lemma prepared_check_ok (h : list DayInfo) :
  prepared_check h = true -> prepared h.
Proof.
  unfold prepared_check, prepared. rewrite forallb_forall, Forall_forall.
  intros C d I. specialize (C d I). apply andb_prop in C. destruct C as [C1 C2].
  split.
  - destruct (list_eq_dec string_dec (uniqueNumbers d)
                (JsSet.of_list (numbers d))); [assumption | discriminate].
  - rewrite forallb_forall in C2. apply Forall_forall. intros n In_n.
    apply includes_In. now apply C2.
Qed.

(** C7.  For a non-empty prepared history, [minOccurrences >= 1],
    [maxPeriod >= 1] and any lookback window, a number is in the set
    [getConsistentPeriodBridge] returns exactly when at least
    [minOccurrences] of its appearance indices lie among the last
    [daysLookback] records and, for some period in 1..[maxPeriod], a run
    of [minOccurrences] consecutive ones of them, spaced by that period,
    ends one period before the history length, the [currentDayIndex].
    The result is a duplicate-free collection of numbers and carries no
    scores. *)
Theorem getConsistentPeriodBridge_iff (h : list DayInfo) (a : DataAnalyzer.t)
  (minOccurrences maxPeriod daysLookback : Z) (num : string) :
  DataAnalyzer.new (Some h) = Ok a ->
  prepared h ->
  (1 <= minOccurrences)%Z ->
  (1 <= maxPeriod)%Z ->
  exists r : list string,
    DataAnalyzer.getConsistentPeriodBridge a minOccurrences maxPeriod
      daysLookback = Ok r
    /\ NoDup r
    /\ (In num r <->
        bridge_candidate h minOccurrences maxPeriod daysLookback num).
Proof.
  intros New P Pm Pp.
  destruct (bridge_over_slice h a minOccurrences maxPeriod daysLookback num
              New P Pm Pp) as (r & E & ND & I).
  destruct (new_analyzer h a New) as (_ & Hh & _ & Hc).
  exists r. split; [exact E|]. split; [exact ND|].
  rewrite I. unfold active_bridge, bridge_candidate.
  rewrite window_indices_recent, Hh, Hc. reflexivity.
Qed.

Lemma getConsistentPeriodBridge_iff_witness :
  exists r : list string,
    DataAnalyzer.getConsistentPeriodBridge (sample_analyzer cycle_sample)
      2 7 4 = Ok r
    /\ NoDup r
    /\ (In "02"%string r <-> bridge_candidate cycle_sample 2 7 4 "02").
Proof.
  apply (getConsistentPeriodBridge_iff cycle_sample
           (sample_analyzer cycle_sample) 2 7 4 "02").
  - reflexivity.
  - apply prepared_check_ok. vm_compute. reflexivity.
  - lia.
  - lia.
Defined.

(* ================================================================== *)
(** * Cycle analysis *)

Lemma get_app {K V} `{KeyEqLaws K} (k : K) (m1 m2 : list (K * V)) :
  JsMap.get k (m1 ++ m2)
  = match JsMap.get k m1 with
    | Some v => Some v
    | None => JsMap.get k m2
    end.
Proof.
  induction m1 as [|[k' v'] m1 IH]; simpl; [reflexivity|].
  destruct (keqb k k'); auto.
Qed.

(** A loop that rebuilds a map entry by entry. *)
Lemma forEachM_rebuild {V W} (f : V -> Result W) (m : list (string * V))
  (acc r : list (string * W)) :
  forEachM (fun acc entry => w <- f (snd entry) ;; Ok (acc ++ [(fst entry, w)]))
    m acc = Ok r ->
  (forall x w, JsMap.get x acc = Some w -> JsMap.get x r = Some w)
  /\ (forall x v, JsMap.get x acc = None -> JsMap.get x m = Some v ->
        exists w, f v = Ok w /\ JsMap.get x r = Some w).
Proof.
  revert acc. induction m as [|[k v0] m IH]; intros acc E.
  - simpl in E. injection E as <-. split; auto. intros x v _ F. discriminate.
  - cbn [forEachM fst snd] in E. destruct (f v0) as [w0|e] eqn:F0;
      [|discriminate]. cbn [bind] in E.
    destruct (IH _ E) as [P1 P2]. split.
    + intros x w G. apply P1. rewrite get_app, G. reflexivity.
    + intros x v N G. cbn [JsMap.get] in G.
      destruct (keqb x k) eqn:Ek.
      * injection G as <-. exists w0. split; auto. apply P1.
        rewrite get_app, N. simpl. now rewrite Ek.
      * apply P2; auto. rewrite get_app, N. simpl. now rewrite Ek.
Qed.

Lemma push_appearances (idxs l : list Z) :
  fold_left (fun v k => CycleInfo.push_appearance k v) idxs (unfinished_cycle l)
  = unfinished_cycle (l ++ idxs).
Proof.
  revert l. induction idxs as [|i idxs IH]; intro l; simpl.
  - now rewrite app_nil_r.
  - change (CycleInfo.push_appearance i (unfinished_cycle l))
      with (unfinished_cycle (l ++ [i])).
    rewrite IH, <- app_assoc. reflexivity.
Qed.

Lemma collectAppearances_spec (a : DataAnalyzer.t) :
  prepared (DataAnalyzer.historyData a) ->
  exists m,
    DataAnalyzer.collectAppearances a
      (JsMap.of_entries (map (fun num => (num, CycleInfo.initial)) universe))
    = Ok m
    /\ JsMap.keys m = universe
    /\ forall x, In x universe ->
         JsMap.get x m
         = Some (unfinished_cycle (landings x (DataAnalyzer.historyData a) 0)).
Proof.
  intro P. unfold prepared in P. rewrite Forall_forall in P.
  rewrite (of_entries_NoDup (fun _ => CycleInfo.initial))
    by apply universe_NoDup.
  unfold DataAnalyzer.collectAppearances.
  destruct (collect_days CycleInfo.push_appearance
              (TypeError "cycleInfo.get(num) is undefined")
              (DataAnalyzer.historyData a) 0%Z
              (map (fun k => (k, CycleInfo.initial)) universe))
    as (m & Em & Km & Gm).
  - intros d I. now apply prepared_day_facts, P.
  - intros d x I Ix. rewrite (keys_map_pair (fun _ => CycleInfo.initial)).
    now apply (prepared_day_facts d (P d I)).
  - exists m. split; [exact Em|]. split.
    + now rewrite Km, (keys_map_pair (fun _ => CycleInfo.initial)).
    + intros x U.
      rewrite Gm, (get_map_pair (fun _ => CycleInfo.initial)) by assumption.
      cbn [option_map]. f_equal.
      change CycleInfo.initial with (unfinished_cycle []).
      now rewrite push_appearances.
Qed.

(** What [finishCycle] makes of the consistency score. *)
Lemma finishCycle_score (a : DataAnalyzer.t) (scope : Stats.ThisScope)
  (idxs : list Z) (info : CycleInfo.t) :
  DataAnalyzer.finishCycle a scope (unfinished_cycle idxs) = Ok info ->
  CycleInfo.appearances info = idxs
  /\ ((len idxs < 2)%Z -> CycleInfo.consistencyScore info = 0%float)
  /\ ((2 <= len idxs)%Z ->
      exists stddev,
        Stats.standardDeviation scope
          (map Z_to_float (DataAnalyzer.gaps idxs)) = Ok stddev
        /\ CycleInfo.cycleVariance info = stddev
        /\ CycleInfo.consistencyScore info = consistency_of stddev).
Proof.
  unfold DataAnalyzer.finishCycle. cbn [unfinished_cycle CycleInfo.appearances
    CycleInfo.cycles List.app].
  destruct (len idxs >=? 2)%Z eqn:E.
  - destruct (Stats.averageArray scope (map Z_to_float (DataAnalyzer.gaps idxs)))
      as [avg|e]; [|discriminate]. cbn [bind].
    destruct (Stats.standardDeviation scope
                (map Z_to_float (DataAnalyzer.gaps idxs)))
      as [sd|e]; [|discriminate]. cbn [bind].
    intro O. injection O as <-.
    split; [|split].
    + destruct (len idxs >? 0)%Z; cbn;
        try match goal with |- context [negb ?b] => destruct b end; reflexivity.
    + lia.
    + intros _. exists sd. split; [reflexivity|].
      destruct (len idxs >? 0)%Z; cbn;
        try match goal with |- context [negb ?b] => destruct b end;
        split; reflexivity.
  - cbn [bind]. intro O. injection O as <-.
    split; [|split].
    + destruct (len idxs >? 0)%Z; cbn;
        try match goal with |- context [negb ?b] => destruct b end; reflexivity.
    + intros _. destruct (len idxs >? 0)%Z; cbn;
        try match goal with |- context [negb ?b] => destruct b end; reflexivity.
    + lia.
Qed.

Lemma len_map {A B} (f : A -> B) (l : list A) : len (map f l) = len l.
Proof. unfold len. now rewrite length_map. Qed.

Lemma len_gaps (idxs : list Z) :
  len (DataAnalyzer.gaps idxs) = Z.max 0 (len idxs - 1).
Proof.
  induction idxs as [|x [|y idxs] IH]; try reflexivity.
  change (DataAnalyzer.gaps (x :: y :: idxs))
    with ((y - x)%Z :: DataAnalyzer.gaps (y :: idxs)).
  rewrite len_cons, IH, !len_cons. pose proof (len_nonneg idxs). lia.
Qed.

(* ================================================================== *)
(** * Sorting *)

Section SortFacts.
Context {A : Type} (gt : A -> A -> bool).

Lemma sort_insert_perm (x : A) (l : list A) :
  Permutation (sort_insert gt x l) (x :: l).
Proof.
  induction l as [|y l IH]; simpl; [reflexivity|].
  destruct (gt x y); [|reflexivity].
  rewrite IH. apply perm_swap.
Qed.

Lemma js_sort_perm (l : list A) : Permutation (js_sort gt l) l.
Proof.
  induction l as [|x l IH]; simpl; [reflexivity|].
  rewrite sort_insert_perm. now constructor.
Qed.

Lemma js_sort_length (l : list A) :
  List.length (js_sort gt l) = List.length l.
Proof. apply Permutation_length, js_sort_perm. Qed.

Lemma js_sort_In (l : list A) (x : A) : In x (js_sort gt l) <-> In x l.
Proof.
  split; apply Permutation_in; [|symmetry]; apply js_sort_perm.
Qed.

(** When the comparator orders the elements by an integer key, the
    result is ascending in that key. *)
Variable key : A -> Z.
Variable P : A -> Prop.
Hypothesis by_key :
  forall a b, P a -> P b -> gt a b = (key b <? key a)%Z.

Lemma sort_insert_sorted (x : A) (l : list A) :
  P x -> Forall P l ->
  StronglySorted (fun a b => key a <= key b)%Z l ->
  StronglySorted (fun a b => key a <= key b)%Z (sort_insert gt x l).
Proof.
  intros Px Pl S. induction S as [|y l S IH F]; simpl.
  - repeat constructor.
  - inversion Pl as [|? ? Py Pl']; subst.
    rewrite by_key by assumption.
    destruct (key y <? key x)%Z eqn:E.
    + constructor; [now apply IH|].
      assert (Pm : Permutation (sort_insert gt x l) (x :: l))
        by apply sort_insert_perm.
      rewrite Forall_forall in *. intros z Iz.
      apply (Permutation_in _ Pm) in Iz. destruct Iz as [<-|Iz].
      * lia.
      * now apply F.
    + constructor; [now constructor|].
      constructor; [lia|].
      rewrite Forall_forall in *. intros z Iz. specialize (F z Iz). lia.
Qed.

Lemma js_sort_sorted (l : list A) :
  Forall P l ->
  StronglySorted (fun a b => key a <= key b)%Z (js_sort gt l).
Proof.
  induction l as [|x l IH]; intro Pl; simpl; [constructor|].
  inversion Pl as [|? ? Px Pl']; subst.
  apply sort_insert_sorted; [exact Px | | apply IH; exact Pl'].
  apply Forall_forall. intros z Iz. apply (proj1 (js_sort_In l z)) in Iz.
  rewrite Forall_forall in Pl'. now apply Pl'.
Qed.
End SortFacts.

(* ================================================================== *)
(** * The engine script is never evaluated *)

Lemma nesting_app (stack : list Script.bracket) (t1 t2 : list Script.token) :
  Script.nesting stack (t1 ++ t2)
  = match Script.nesting stack t1 with
    | Some stack' => Script.nesting stack' t2
    | None => None
    end.
Proof.
  revert stack. induction t1 as [|[b|b|w] t1 IH]; intro stack; cbn; auto.
  destruct stack as [|b' stack]; [reflexivity|].
  destruct (Script.bracket_eqb b b'); auto.
Qed.

(** Whatever is open before line 248 and whatever follows it, the brace
    that closes its array literal stops the nesting. *)
Lemma line_248_stops_nesting (stack : list Script.bracket)
  (rest : list Script.token) :
  Script.nesting stack (PredictionEngineText.line_248 ++ rest) = None.
Proof. reflexivity. Qed.

Lemma text_not_well_nested (lines_1_247 lines_249_315 : list Script.token) :
  Script.well_nested (PredictionEngineText.text lines_1_247 lines_249_315)
  = false.
Proof.
  unfold Script.well_nested, PredictionEngineText.text.
  rewrite nesting_app.
  destruct (Script.nesting [] lines_1_247) as [stack|]; [|reflexivity].
  now rewrite line_248_stops_nesting.
Qed.

Lemma importScripts_throws (lines_1_247 lines_249_315 : list Script.token)
  (definitions : Backtester.Engine) (g : Worker.Global) :
  exists what,
    Worker.importScripts lines_1_247 lines_249_315 definitions g
    = Throw (SyntaxError what).
Proof.
  unfold Worker.importScripts, Script.evaluate.
  rewrite text_not_well_nested. eauto.
Qed.

Lemma startup_without_engine (lines_1_247 lines_249_315 : list Script.token)
  (definitions : Backtester.Engine) :
  Worker.startup lines_1_247 lines_249_315 definitions
  = {| Worker.PredictionEngine := None; Worker.closed := true |}.
Proof.
  unfold Worker.startup.
  destruct (importScripts_throws lines_1_247 lines_249_315 definitions
              Worker.initial) as [what E].
  now rewrite E.
Qed.

(** C1.  Whatever surrounds line 248 in prediction-engine.js and
    whatever its statements would define, the worker ends its startup
    without an engine, and the call
    [self.PredictionEngine.predictNextDay(historyData)] throws a
    TypeError for every history: no list of 16 numbers is ever returned,
    in particular not for the prepared history of 200 days. *)
Theorem predictNextDay_is_never_defined
  (lines_1_247 lines_249_315 : list Script.token)
  (definitions : Backtester.Engine) :
  prepared history_of_200_days
  /\ len history_of_200_days = 200%Z
  /\ forall historyData,
       Worker.predictNextDay
         (Worker.startup lines_1_247 lines_249_315 definitions) historyData
       = Throw engine_undefined.
Proof.
  split; [apply prepared_check_ok; vm_compute; reflexivity|].
  split; [reflexivity|]. intro historyData.
  now rewrite startup_without_engine.
Qed.


(** C3.  With the engine undefined, the error raised for an absent or an
    empty history is the TypeError of the call, not the insufficient-data
    error that names the 200 days; and the history of exactly 200 days
    gets the same TypeError instead of a prediction. *)
Theorem predictNextDay_raises_no_insufficient_data_error
  (lines_1_247 lines_249_315 : list Script.token)
  (definitions : Backtester.Engine) :
  Worker.predictNextDay
    (Worker.startup lines_1_247 lines_249_315 definitions) None
  <> Throw (InsufficientHistory WorkerUtils.MIN_HISTORY_FOR_ANALYSIS)
  /\ Worker.predictNextDay
       (Worker.startup lines_1_247 lines_249_315 definitions) (Some [])
     <> Throw (InsufficientHistory WorkerUtils.MIN_HISTORY_FOR_ANALYSIS)
  /\ len history_of_200_days = WorkerUtils.MIN_HISTORY_FOR_ANALYSIS
  /\ Worker.predictNextDay
       (Worker.startup lines_1_247 lines_249_315 definitions)
       (Some history_of_200_days)
     = Throw engine_undefined.
Proof.
  rewrite startup_without_engine.
  split; [discriminate|]. split; [discriminate|].
  split; reflexivity.
Qed.

(* ================================================================== *)
(** * Backtest *)

Lemma count_matches (actual predicted : list string) (c0 : Z) :
  fold_left
    (fun correctCount predictedNum =>
       if includes actual predictedNum then (correctCount + 1)%Z
       else correctCount)
    predicted c0
  = (c0 + len (filter (includes actual) predicted))%Z.
Proof.
  revert c0. induction predicted as [|p l IH]; intro c0; simpl.
  - unfold len. simpl. lia.
  - rewrite IH. destruct (includes actual p); [rewrite len_cons|]; lia.
Qed.

Lemma counters_eq (c c' : Backtester.Counters) :
  Backtester.c_totalDaysTested c = Backtester.c_totalDaysTested c' ->
  Backtester.c_totalCorrectNumbers c = Backtester.c_totalCorrectNumbers c' ->
  Backtester.c_daysWithHighAccuracy c = Backtester.c_daysWithHighAccuracy c' ->
  Backtester.c_daysMeetingProfitThreshold c
  = Backtester.c_daysMeetingProfitThreshold c' ->
  Backtester.c_dailyCorrectCounts c = Backtester.c_dailyCorrectCounts c' ->
  Backtester.c_totalInvestment c = Backtester.c_totalInvestment c' ->
  Backtester.c_totalGains c = Backtester.c_totalGains c' ->
  Backtester.c_dailyNetProfits c = Backtester.c_dailyNetProfits c' ->
  c = c'.
Proof.
  destruct c, c'. simpl. intros. subst. reflexivity.
Qed.

Lemma fold_add_from (l : list Z) (a : Z) :
  fold_left Z.add l a = (a + fold_left Z.add l 0)%Z.
Proof.
  revert a. induction l as [|y l IH]; intro a; cbn [fold_left]; [lia|].
  rewrite (IH (a + y)%Z), (IH (0 + y)%Z). lia.
Qed.

Lemma sum_Z_cons (x : Z) (l : list Z) : sum_Z (x :: l) = (x + sum_Z l)%Z.
Proof.
  unfold sum_Z. cbn [fold_left]. rewrite fold_add_from. lia.
Qed.

Ltac counter_fields :=
  apply counters_eq; unfold replayed;
  cbn [Backtester.c_totalDaysTested Backtester.c_totalCorrectNumbers
       Backtester.c_daysWithHighAccuracy
       Backtester.c_daysMeetingProfitThreshold
       Backtester.c_dailyCorrectCounts Backtester.c_totalInvestment
       Backtester.c_totalGains Backtester.c_dailyNetProfits map filter].

Lemma lenZ_nil : len (@nil Z) = 0%Z.
Proof. reflexivity. Qed.

Lemma lenZ_single (x : Z) : len [x] = 1%Z.
Proof. reflexivity. Qed.

Lemma lenZ_cons (x : Z) (l : list Z) : len (x :: l) = (len l + 1)%Z.
Proof. apply len_cons. Qed.

Lemma sum_Z_nil : sum_Z [] = 0%Z.
Proof. reflexivity. Qed.

Lemma replayed_nil (engine : Backtester.Engine) (h : list DayInfo)
  (c : Backtester.Counters) :
  replayed engine h [] c = c.
Proof.
  counter_fields; rewrite ?app_nil_r, ?lenZ_nil, ?sum_Z_nil;
    try reflexivity; lia.
Qed.

Lemma trainingData_length (h : list DayInfo) (i : Z) :
  (0 <= i <= len h)%Z -> len (Backtester.trainingDataAt h i) = i.
Proof.
  intro R. unfold Backtester.trainingDataAt, len in *.
  rewrite length_firstn. lia.
Qed.

(** One replayed day, as the counters see it. *)
Lemma replayDay_spec (engine : Backtester.Engine) (h : list DayInfo)
  (c : Backtester.Counters) (i : Z) :
  (200 <= i < len h)%Z ->
  Backtester.replayDay engine h c i = Ok (replayed engine h [i] c).
Proof.
  intro R. unfold Backtester.replayDay.
  destruct (js_nth_defined h i ltac:(lia)) as [d Ed].
  rewrite Ed, trainingData_length by lia.
  unfold WorkerUtils.MIN_HISTORY_FOR_ANALYSIS.
  destruct (i <? 200)%Z eqn:E; [lia|].
  assert (Hits : day_hits engine h i
                 = match Backtester.predictNextDay engine
                           (Some (Backtester.trainingDataAt h i)) with
                   | Ok p => len (filter (includes (numbers d)) p)
                   | Throw _ => 0%Z
                   end).
  { unfold day_hits. now rewrite Ed. }
  destruct (Backtester.predictNextDay engine
              (Some (Backtester.trainingDataAt h i))) as [p|e].
  - f_equal. unfold Backtester.recordPrediction.
    rewrite count_matches, Z.add_0_l, <- Hits.
    counter_fields; rewrite ?lenZ_single, ?sum_Z_cons, ?sum_Z_nil;
      try reflexivity; try lia.
    + destruct (day_hits engine h i >=? WorkerUtils.HIGH_ACCURACY_THRESHOLD)%Z;
        rewrite ?lenZ_single, ?lenZ_nil; lia.
    + destruct (day_hits engine h i >=? WorkerUtils.PROFIT_THRESHOLD_DEFAULT)%Z;
        rewrite ?lenZ_single, ?lenZ_nil; lia.
  - f_equal. unfold Backtester.recordFailure.
    counter_fields; rewrite ?Hits, ?lenZ_single, ?sum_Z_cons, ?sum_Z_nil;
      try reflexivity; try lia.
    + cbn. lia.
    + cbn. lia.
Qed.

Lemma replayed_cons (engine : Backtester.Engine) (h : list DayInfo)
  (i : Z) (days : list Z) (c : Backtester.Counters) :
  replayed engine h days (replayed engine h [i] c)
  = replayed engine h (i :: days) c.
Proof.
  counter_fields;
    rewrite ?lenZ_single, ?lenZ_cons, ?lenZ_nil, ?sum_Z_cons, ?sum_Z_nil,
      <- ?app_assoc;
    try reflexivity; try lia.
  - destruct (day_hits engine h i >=? WorkerUtils.HIGH_ACCURACY_THRESHOLD)%Z;
      rewrite ?lenZ_single, ?lenZ_cons, ?lenZ_nil; lia.
  - destruct (day_hits engine h i >=? WorkerUtils.PROFIT_THRESHOLD_DEFAULT)%Z;
      rewrite ?lenZ_single, ?lenZ_cons, ?lenZ_nil; lia.
Qed.

(** The replay loop never aborts: a day whose prediction throws is
    recorded and the loop goes on. *)
Lemma replay_loop (engine : Backtester.Engine) (h : list DayInfo)
  (days : list Z) (c : Backtester.Counters) :
  (forall i, In i days -> (200 <= i < len h)%Z) ->
  forEachM (Backtester.replayDay engine h) days c
  = Ok (replayed engine h days c).
Proof.
  revert c. induction days as [|i days IH]; intros c R.
  - cbn [forEachM]. now rewrite replayed_nil.
  - cbn [forEachM]. rewrite replayDay_spec by (apply R; now left).
    cbn [bind]. rewrite IH by (intros j Ij; apply R; now right).
    now rewrite replayed_cons.
Qed.

Lemma runBacktest_short (engine : Backtester.Engine) (h : list DayInfo) :
  (len h < 201)%Z ->
  exists stats,
    Backtester.runBacktest engine h = Ok stats
    /\ Backtester.totalDaysTested stats = 0%Z
    /\ Backtester.dailyCorrectCounts stats = []
    /\ Backtester.dailyNetProfits stats = []
    /\ Backtester.totalInvestment stats = 0%Z.
Proof.
  intro L. unfold Backtester.runBacktest.
  unfold WorkerUtils.MIN_HISTORY_FOR_ANALYSIS.
  destruct (len h <? 200 + 1)%Z eqn:E; [|lia].
  eexists. split; [reflexivity|]. repeat split.
Qed.

(** Between 201 and 349 days the start index has to be adjusted, and the
    adjusting assignment reads an identifier that is not bound. *)
Lemma runBacktest_middle (engine : Backtester.Engine) (h : list DayInfo) :
  (201 <= len h < 350)%Z ->
  Backtester.runBacktest engine h
  = Throw (ReferenceError "MIN_HISTORY_FOR_ANALYSIS").
Proof.
  intro L. unfold Backtester.runBacktest, Backtester.backtestStartIndex.
  unfold WorkerUtils.MIN_HISTORY_FOR_ANALYSIS,
    WorkerUtils.BACKTEST_WINDOW_SIZE.
  destruct (len h <? 200 + 1)%Z eqn:E1; [lia|].
  destruct (len h - 1 - 150 + 1 <? 200)%Z eqn:E2; [reflexivity | lia].
Qed.

Lemma runBacktest_long (engine : Backtester.Engine) (h : list DayInfo) :
  (350 <= len h)%Z ->
  Backtester.runBacktest engine h
  = Ok (Backtester.finalStats engine
          (replayed engine h (Zrange (len h - 150) (len h - 1))
             Backtester.initialCounters)).
Proof.
  intro L. unfold Backtester.runBacktest, Backtester.backtestStartIndex.
  unfold WorkerUtils.MIN_HISTORY_FOR_ANALYSIS,
    WorkerUtils.BACKTEST_WINDOW_SIZE.
  destruct (len h <? 200 + 1)%Z eqn:E1; [lia|].
  destruct (len h - 1 - 150 + 1 <? 200)%Z eqn:E2; [lia|].
  cbn [bind]. replace (len h - 1 - 150 + 1)%Z with (len h - 150)%Z by lia.
  rewrite replay_loop; [reflexivity|].
  intros i I. apply In_Zrange in I. lia.
Qed.

Lemma attempted_days_long (h : list DayInfo) :
  (350 <= len h)%Z -> attempted_days h = Zrange (len h - 150) (len h - 1).
Proof.
  intro L. unfold attempted_days.
  destruct (len h <? 201)%Z eqn:E; [lia|].
  apply forallb_filter_id. apply forallb_forall. intros i I.
  apply In_Zrange in I. lia.
Qed.

Lemma js_nth_map {A B} (f : A -> B) (l : list A) (k : Z) :
  js_nth (map f l) k = option_map f (js_nth l k).
Proof.
  unfold js_nth. destruct (k <? 0)%Z; [reflexivity|]. apply nth_error_map.
Qed.

Lemma day_hits_failed (engine : Backtester.Engine) (h : list DayInfo)
  (i : Z) (e : JsError) :
  Backtester.predictNextDay engine (Some (Backtester.trainingDataAt h i))
  = Throw e ->
  day_hits engine h i = 0%Z.
Proof.
  intro T. unfold day_hits. rewrite T. now destruct (js_nth h i).
Qed.

(** C6.  Whenever [runBacktest] runs its replay loop (or returns the
    empty statistics), it returns normally; [totalDaysTested] is the number
    of attempted days; the investment is the daily cost times that number;
    and a day whose prediction throws is recorded with 0 correct numbers
    and a net profit of minus the daily cost, the loop going on to the
    next day. *)
Theorem runBacktest_counts_failed_days (engine : Backtester.Engine)
  (h : list DayInfo) :
  (len h < 201)%Z \/ (350 <= len h)%Z ->
  exists stats,
    Backtester.runBacktest engine h = Ok stats
    /\ Backtester.totalDaysTested stats = len (attempted_days h)
    /\ len (Backtester.dailyCorrectCounts stats) = len (attempted_days h)
    /\ len (Backtester.dailyNetProfits stats) = len (attempted_days h)
    /\ Backtester.totalInvestment stats
       = (Backtester.COST_PER_DAY_PREDICTION * len (attempted_days h))%Z
    /\ forall k i e,
         js_nth (attempted_days h) k = Some i ->
         Backtester.predictNextDay engine
           (Some (Backtester.trainingDataAt h i)) = Throw e ->
         js_nth (Backtester.dailyCorrectCounts stats) k = Some 0%Z
         /\ js_nth (Backtester.dailyNetProfits stats) k
            = Some (- Backtester.COST_PER_DAY_PREDICTION)%Z.
Proof.
  intros [Short|Long].
  - destruct (runBacktest_short engine h Short) as (stats & E & T & C & P & I).
    exists stats. split; [exact E|].
    assert (A : attempted_days h = []).
    { unfold attempted_days. destruct (len h <? 201)%Z eqn:E1; [reflexivity|lia]. }
    rewrite A, T, C, P, I.
    split; [reflexivity|]. split; [reflexivity|]. split; [reflexivity|].
    split; [reflexivity|].
    intros k i e N _. rewrite js_nth_nil in N. discriminate.
  - rewrite attempted_days_long by assumption.
    eexists. split; [now apply runBacktest_long|].
    cbn [Backtester.finalStats Backtester.totalDaysTested
         Backtester.dailyCorrectCounts Backtester.dailyNetProfits
         Backtester.totalInvestment].
    unfold replayed, Backtester.initialCounters.
    cbn [Backtester.c_totalDaysTested Backtester.c_dailyCorrectCounts
         Backtester.c_dailyNetProfits Backtester.c_totalInvestment app].
    split; [lia|]. split; [now rewrite len_map|].
    split; [now rewrite !len_map|]. split; [lia|].
    intros k i e N T. rewrite !js_nth_map, N. cbn [option_map].
    rewrite (day_hits_failed engine h i e T). split; reflexivity.
Qed.

Lemma runBacktest_counts_failed_days_witness :
  exists stats,
    Backtester.runBacktest flaky_engine long_history = Ok stats
    /\ Backtester.totalDaysTested stats = len (attempted_days long_history)
    /\ len (Backtester.dailyCorrectCounts stats)
       = len (attempted_days long_history)
    /\ len (Backtester.dailyNetProfits stats)
       = len (attempted_days long_history)
    /\ Backtester.totalInvestment stats
       = (Backtester.COST_PER_DAY_PREDICTION
          * len (attempted_days long_history))%Z
    /\ forall k i e,
         js_nth (attempted_days long_history) k = Some i ->
         Backtester.predictNextDay flaky_engine
           (Some (Backtester.trainingDataAt long_history i)) = Throw e ->
         js_nth (Backtester.dailyCorrectCounts stats) k = Some 0%Z
         /\ js_nth (Backtester.dailyNetProfits stats) k
            = Some (- Backtester.COST_PER_DAY_PREDICTION)%Z.
Proof.
  apply (runBacktest_counts_failed_days flaky_engine long_history).
  right. vm_compute. discriminate.
Defined.

(** C5, failing input.  On a 201-day history one day has enough prior
    history to be tested, yet the backtest ends in a [ReferenceError]
    before it replays any day. *)
Theorem runBacktest_throws_at_201_days (engine : Backtester.Engine) :
  Backtester.runBacktest engine history_of_201_days
  = Throw (ReferenceError "MIN_HISTORY_FOR_ANALYSIS").
Proof.
  apply runBacktest_middle. vm_compute. split; [discriminate | reflexivity].
Qed.

(* ================================================================== *)
(** * Further facts about worker-utils.js *)

Lemma reverseNumber_involutive (s : string) :
  WorkerUtils.reverseNumber (WorkerUtils.reverseNumber s) = s.
Proof.
  destruct s as [|a [|b [|c s]]]; try reflexivity.
  - unfold WorkerUtils.reverseNumber. cbn.
    destruct (Ascii.eqb a b) eqn:E; cbn.
    + rewrite E. reflexivity.
    + rewrite Ascii.eqb_sym, E. reflexivity.
Qed.

Lemma reverseNumber_fixed (s : string) :
  WorkerUtils.reverseNumber s = s
  <-> String.length s <> 2%nat \/ WorkerUtils.isKep s = true.
Proof.
  destruct s as [|a [|b [|c s]]]; cbn.
  - split; auto.
  - split; auto; intros _; left; discriminate.
  - unfold WorkerUtils.reverseNumber, WorkerUtils.isKep. cbn.
    unfold keqb, KeyEq_oascii.
    destruct (Ascii.eqb a b) eqn:E; cbn.
    + split; auto.
    + split.
      * intro F. injection F as F1 F2. subst. rewrite Ascii.eqb_refl in E.
        discriminate.
      * intros [F|F]; [now elim F | discriminate].
  - split; auto; intros _; left; discriminate.
Qed.

(** X1.  [reverseNumber] is an involution on every string, not only on
    lottery numbers, and the strings it leaves unchanged are exactly the
    kép numbers (both characters equal) and the strings whose length is
    not 2. *)
Theorem reverseNumber_involution_and_fixed_points (s : string) :
  WorkerUtils.reverseNumber (WorkerUtils.reverseNumber s) = s
  /\ (WorkerUtils.reverseNumber s = s
      <-> String.length s <> 2%nat \/ WorkerUtils.isKep s = true).
Proof.
  split; [apply reverseNumber_involutive | apply reverseNumber_fixed].
Qed.

Lemma calculateTotal_reverse (s : string) :
  WorkerUtils.calculateTotal (WorkerUtils.reverseNumber s)
  = WorkerUtils.calculateTotal s.
Proof.
  destruct s as [|a [|b [|c s]]]; try reflexivity.
  unfold WorkerUtils.reverseNumber. cbn.
  destruct (Ascii.eqb a b); cbn; [reflexivity|].
  unfold WorkerUtils.calculateTotal. cbn.
  destruct (WorkerUtils.digit_value a), (WorkerUtils.digit_value b);
    try reflexivity.
  f_equal. lia.
Qed.

Lemma total_check_universe : forallb total_check universe = true.
Proof. vm_compute. reflexivity. Qed.

(** X2.  The digit sum of a two-digit number lies between 0 and 18, and
    a number and its reverse have the same digit sum. *)
Theorem calculateTotal_range_and_reverse (s : string) :
  two_digit s ->
  exists t,
    WorkerUtils.calculateTotal s = Some t
    /\ (0 <= t <= 18)%Z
    /\ WorkerUtils.calculateTotal (WorkerUtils.reverseNumber s) = Some t.
Proof.
  intro T. apply universe_two_digit in T.
  pose proof total_check_universe as C. rewrite forallb_forall in C.
  specialize (C s T). unfold total_check in C.
  destruct (WorkerUtils.calculateTotal s) as [t|] eqn:E; [|discriminate].
  exists t. split; [reflexivity|]. split; [lia|].
  now rewrite calculateTotal_reverse.
Qed.

Lemma calculateTotal_range_and_reverse_witness :
  exists t,
    WorkerUtils.calculateTotal "49" = Some t
    /\ (0 <= t <= 18)%Z
    /\ WorkerUtils.calculateTotal (WorkerUtils.reverseNumber "49") = Some t.
Proof.
  apply (calculateTotal_range_and_reverse "49").
  exists "4"%char, "9"%char. repeat split; reflexivity.
Defined.

Lemma getBongSo_digit (c d : ascii) :
  WorkerUtils.getBongSo c = Some d ->
  is_digit c = true /\ is_digit d = true /\ d <> c
  /\ WorkerUtils.getBongSo d = Some c.
Proof.
  intro E.
  assert (D : is_digit c = true).
  { destruct (is_digit c) eqn:D; [reflexivity|]. exfalso.
    revert E. unfold WorkerUtils.getBongSo, WorkerUtils.BONG_SO_MAP.
    cbn [find fst snd].
    repeat match goal with
           | |- context [Ascii.eqb ?x c] =>
               let Q := fresh "Q" in
               destruct (Ascii.eqb x c) eqn:Q;
               [apply Ascii.eqb_eq in Q; subst c; discriminate D|]
           end.
    discriminate. }
  apply is_digit_chars in D.
  repeat (destruct D as [<-|D];
          [vm_compute in E; injection E as <-;
           repeat split; try reflexivity; discriminate|]).
  destruct D.
Qed.

Lemma getBongSo_of_digit (c : ascii) :
  is_digit c = true -> exists d, WorkerUtils.getBongSo c = Some d.
Proof.
  intro D. apply is_digit_chars in D.
  repeat (destruct D as [<-|D]; [eexists; reflexivity|]). destruct D.
Qed.

Lemma getLotoBong_Some (s t : string) :
  WorkerUtils.getLotoBong s = Some t ->
  two_digit s /\ two_digit t /\ t <> s /\ WorkerUtils.getLotoBong t = Some s.
Proof.
  destruct s as [|a [|b [|c s]]]; try discriminate.
  unfold WorkerUtils.getLotoBong. cbn.
  destruct (WorkerUtils.getBongSo a) as [x|] eqn:Ea; [|discriminate].
  destruct (WorkerUtils.getBongSo b) as [y|] eqn:Eb; [|discriminate].
  intro F. injection F as <-.
  destruct (getBongSo_digit _ _ Ea) as (Da & Dx & Nx & Bx).
  destruct (getBongSo_digit _ _ Eb) as (Db & Dy & Ny & By).
  split; [exists a, b; auto|]. split; [exists x, y; auto|].
  split; [intro F; injection F as F1 F2; contradiction|].
  cbn. rewrite Bx, By. reflexivity.
Qed.

Lemma getLotoBong_None (s : string) :
  WorkerUtils.getLotoBong s = None <-> ~ two_digit s.
Proof.
  split.
  - intros N (a & b & -> & Da & Db).
    destruct (getBongSo_of_digit a Da) as [x Ex].
    destruct (getBongSo_of_digit b Db) as [y Ey].
    unfold WorkerUtils.getLotoBong in N. cbn in N. rewrite Ex, Ey in N.
    discriminate.
  - intro N. destruct (WorkerUtils.getLotoBong s) as [t|] eqn:E; auto.
    apply getLotoBong_Some in E. tauto.
Qed.

(** X3.  [getLotoBong] returns a number exactly on the strings made of
    two decimal digits ([null] on every other string); the number it
    returns is again two digits, differs from the argument (so the test
    [bongNum !== num] at the call sites never fails) and is mapped back
    to the argument. *)
Theorem getLotoBong_pairs (s : string) :
  two_digit s
  <-> exists t,
        WorkerUtils.getLotoBong s = Some t
        /\ two_digit t /\ t <> s /\ WorkerUtils.getLotoBong t = Some s.
Proof.
  split.
  - intro T. destruct (WorkerUtils.getLotoBong s) as [t|] eqn:E.
    + exists t. apply getLotoBong_Some in E. tauto.
    + apply getLotoBong_None in E. contradiction.
  - intros (t & E & _). apply getLotoBong_Some in E. tauto.
Qed.

Lemma set_has_In (x : string) (s : list string) :
  JsSet.has x s = true <-> In x s.
Proof. apply includes_In. Qed.

(** X4.  The three set helpers of worker-utils.js: each returns a
    duplicate-free collection; [getIntersection] holds the common
    members, [getDifference] the members of the first array that the
    second lacks, [getUnion] the members of either; so intersection and
    difference split the first array. *)
Theorem set_helpers_spec (arr1 arr2 : list string) :
  NoDup (WorkerUtils.getIntersection arr1 arr2)
  /\ NoDup (WorkerUtils.getDifference arr1 arr2)
  /\ NoDup (WorkerUtils.getUnion arr1 arr2)
  /\ forall x,
       (In x (WorkerUtils.getIntersection arr1 arr2)
        <-> In x arr1 /\ In x arr2)
       /\ (In x (WorkerUtils.getDifference arr1 arr2)
           <-> In x arr1 /\ ~ In x arr2)
       /\ (In x (WorkerUtils.getUnion arr1 arr2)
           <-> In x arr1 \/ In x arr2).
Proof.
  unfold WorkerUtils.getIntersection, WorkerUtils.getDifference,
    WorkerUtils.getUnion.
  split; [apply set_of_list_spec|]. split; [apply set_of_list_spec|].
  split; [apply set_of_list_spec|].
  intro x. split; [|split].
  - rewrite (proj2 (set_of_list_spec _)), filter_In, set_has_In,
      !(proj2 (set_of_list_spec _)). tauto.
  - rewrite (proj2 (set_of_list_spec _)), filter_In, negb_true_iff.
    unfold JsSet.has. rewrite includes_false, (proj2 (set_of_list_spec _)).
    tauto.
  - rewrite (proj2 (set_of_list_spec _)), in_app_iff. tauto.
Qed.

(* ================================================================== *)
(** * Further facts about data-preparer.js *)

Lemma In_entry_get {K V} `{KeyEqLaws K} (k : K) (v : V) (m : list (K * V)) :
  NoDup (JsMap.keys m) -> (In (k, v) m <-> JsMap.get k m = Some v).
Proof.
  induction m as [|[k' v'] m IH]; simpl; intro ND.
  - split; [tauto | discriminate].
  - inversion ND as [|? ? Nk ND']; subst.
    destruct (keqb k k') eqn:E.
    + apply keqb_spec in E. subst k'. split.
      * intros [F|F]; [now injection F as -> |].
        exfalso. apply Nk. change k with (fst (k, v)). now apply in_map.
      * intro F. injection F as ->. now left.
    + apply keqb_false in E. rewrite <- IH by assumption. split.
      * intros [F|F]; [injection F as -> ->; now elim E | assumption].
      * tauto.
Qed.

Lemma get_or_zero_bump (x y : string) (m : list (string * Z)) :
  get_or_zero x (bump_or_zero y m)
  = (get_or_zero x m + if string_dec y x then 1 else 0)%Z.
Proof.
  unfold bump_or_zero, get_or_zero at 1.
  destruct (string_dec y x) as [->|N].
  - rewrite get_set_same. reflexivity.
  - rewrite get_set_other by congruence. fold (get_or_zero x m). lia.
Qed.

Lemma tally_from (l : list string) (m : list (string * Z)) (x : string) :
  get_or_zero x (fold_left (fun m num => bump_or_zero num m) l m)
  = (get_or_zero x m + Z.of_nat (count_occ string_dec l x))%Z.
Proof.
  revert m. induction l as [|y l IH]; intro m; simpl; [lia|].
  rewrite IH, get_or_zero_bump. destruct (string_dec y x); lia.
Qed.

(** Every stored count is positive and the keys stay distinct. *)
Lemma tally_keys (l : list string) (m : list (string * Z)) :
  NoDup (JsMap.keys m) ->
  (forall k c, JsMap.get k m = Some c -> (0 < c)%Z) ->
  NoDup (JsMap.keys (fold_left (fun m num => bump_or_zero num m) l m))
  /\ forall k c,
       JsMap.get k (fold_left (fun m num => bump_or_zero num m) l m) = Some c ->
       (0 < c)%Z.
Proof.
  revert m. induction l as [|y l IH]; intros m ND Pos; simpl; [auto|].
  apply IH.
  - now apply NoDup_keys_set.
  - intros k c. unfold bump_or_zero.
    destruct (string_dec k y) as [->|N].
    + rewrite get_set_same. intro F. injection F as <-.
      unfold get_or_zero. destruct (JsMap.get y m) as [c0|] eqn:E; [|lia].
      specialize (Pos _ _ E). lia.
    + rewrite get_set_other by assumption. apply Pos.
Qed.

Lemma dailyFrequencyMap_spec (numbers : list string) :
  NoDup (JsMap.keys (DataPreparer.dailyFrequencyMap numbers))
  /\ forall x c,
       In (x, c) (DataPreparer.dailyFrequencyMap numbers)
       <-> (c = Z.of_nat (count_occ string_dec numbers x) /\ (0 < c)%Z).
Proof.
  unfold DataPreparer.dailyFrequencyMap.
  destruct (tally_keys numbers []) as [ND Pos];
    [constructor | discriminate |].
  split; [exact ND|]. intros x c.
  rewrite (In_entry_get x c _ ND).
  pose proof (tally_from numbers [] x) as T.
  unfold get_or_zero at 2 in T. cbn [JsMap.get] in T.
  unfold get_or_zero in T. split.
  - intro G. rewrite G in T. split; [lia|]. exact (Pos _ _ G).
  - intros [-> P].
    destruct (JsMap.get x _) as [c0|]; [f_equal; lia | lia].
Qed.

Lemma hits_spec (threshold : Z) (numbers : list string) :
  (0 < threshold)%Z ->
  NoDup (map fst (filter (fun e => (snd e >=? threshold)%Z)
                    (DataPreparer.dailyFrequencyMap numbers)))
  /\ forall x,
       In x (map fst (filter (fun e => (snd e >=? threshold)%Z)
                        (DataPreparer.dailyFrequencyMap numbers)))
       <-> (threshold <= Z.of_nat (count_occ string_dec numbers x))%Z.
Proof.
  intro P. destruct (dailyFrequencyMap_spec numbers) as [ND S]. split.
  - unfold JsMap.keys in ND. revert ND.
    generalize (DataPreparer.dailyFrequencyMap numbers).
    induction l as [|e l IH]; simpl; intro ND; [constructor|].
    inversion ND as [|? ? Ne ND']; subst.
    destruct (snd e >=? threshold)%Z; simpl; auto.
    constructor; auto. intro I. apply Ne.
    apply in_map_iff in I. destruct I as (e' & E & I).
    apply filter_In in I. rewrite <- E. apply in_map. tauto.
  - intro x. rewrite in_map_iff. split.
    + intros ([y c] & E & I). simpl in E. subst y.
      apply filter_In in I. destruct I as [I C]. simpl in C.
      apply S in I. lia.
    + intro C. exists (x, Z.of_nat (count_occ string_dec numbers x)).
      split; [reflexivity|]. apply filter_In. split.
      * apply S. split; [reflexivity | lia].
      * simpl. lia.
Qed.

(** X5.  [twoHits] lists, without repetition, exactly the numbers that
    occur at least twice among the day's numbers, [threeHits] those that
    occur at least three times; every three-hit number is therefore also
    a two-hit number. *)
Theorem twoHits_threeHits_spec (numbers : list string) :
  NoDup (DataPreparer.twoHits numbers)
  /\ NoDup (DataPreparer.threeHits numbers)
  /\ (forall x, In x (DataPreparer.twoHits numbers)
                <-> (2 <= count_occ string_dec numbers x)%nat)
  /\ (forall x, In x (DataPreparer.threeHits numbers)
                <-> (3 <= count_occ string_dec numbers x)%nat)
  /\ incl (DataPreparer.threeHits numbers) (DataPreparer.twoHits numbers).
Proof.
  unfold DataPreparer.twoHits, DataPreparer.threeHits.
  destruct (hits_spec 2 numbers) as [N2 S2]; [lia|].
  destruct (hits_spec 3 numbers) as [N3 S3]; [lia|].
  split; [exact N2|]. split; [exact N3|].
  split; [intro x; rewrite S2; lia|].
  split; [intro x; rewrite S3; lia|].
  intros x I. apply S3 in I. apply S2. lia.
Qed.

(** X6.  The records built by [prepareHistoricalData] keep the dates and
    the numbers of the organized days in order; each [uniqueNumbers] is
    duplicate-free with the same members as [numbers], and [dayOfWeek]
    is the weekday of the date.  When all numbers are members of the
    universe the result is a prepared history. *)
Theorem prepareHistoricalData_spec (organizedData : list OrganizedDay) :
  map numbers (DataPreparer.prepareHistoricalData organizedData)
  = map o_numbers organizedData
  /\ map date (DataPreparer.prepareHistoricalData organizedData)
     = map o_date organizedData
  /\ Forall
       (fun d =>
          NoDup (uniqueNumbers d)
          /\ (forall x, In x (uniqueNumbers d) <-> In x (numbers d))
          /\ dayOfWeek d = getDay (date d))
       (DataPreparer.prepareHistoricalData organizedData)
  /\ (Forall (fun o => Forall (fun n => In n universe) (o_numbers o))
        organizedData ->
      prepared (DataPreparer.prepareHistoricalData organizedData)).
Proof.
  assert (E : DataPreparer.prepareHistoricalData organizedData
              = map DataPreparer.prepareDay organizedData)
    by now destruct organizedData.
  rewrite E. split; [now rewrite map_map|]. split; [now rewrite map_map|].
  split.
  - apply Forall_forall. intros d I. apply in_map_iff in I.
    destruct I as (o & <- & _). cbn.
    destruct (set_of_list_spec (o_numbers o)) as [ND S]. auto.
  - intro U. unfold prepared. apply Forall_forall. intros d I.
    apply in_map_iff in I. destruct I as (o & <- & Io).
    rewrite Forall_forall in U. split; [reflexivity | now apply U].
Qed.

Lemma reversedPairs_closed (uniqueNumbers : list string) (x : string) :
  In x (DataPreparer.reversedPairsLanded uniqueNumbers) ->
  In (WorkerUtils.reverseNumber x)
     (DataPreparer.reversedPairsLanded uniqueNumbers).
Proof.
  unfold DataPreparer.reversedPairsLanded.
  intro I; apply filter_In in I; destruct I as [Ix C].
  apply andb_prop in C. destruct C as [C1 C2].
  apply includes_In in C2. apply filter_In. split; [exact C2|].
  rewrite reverseNumber_involutive. apply andb_true_intro. split.
  - apply negb_true_iff. apply negb_true_iff in C1.
    now rewrite String.eqb_sym.
  - now apply includes_In.
Qed.

Lemma bongNumbers_closed (uniqueNumbers : list string) (x : string) :
  In x (DataPreparer.bongNumbersLanded uniqueNumbers) ->
  exists b,
    WorkerUtils.getLotoBong x = Some b
    /\ In b (DataPreparer.bongNumbersLanded uniqueNumbers).
Proof.
  unfold DataPreparer.bongNumbersLanded.
  intro I; apply filter_In in I; destruct I as [Ix C].
  destruct (WorkerUtils.getLotoBong x) as [b|] eqn:E; [|discriminate].
  exists b. split; [reflexivity|].
  apply andb_prop in C. destruct C as [C C3].
  apply andb_prop in C. destruct C as [C1 C2].
  apply includes_In in C3. apply filter_In. split; [exact C3|].
  destruct (getLotoBong_Some _ _ E) as (Tx & Tb & Nb & Back).
  rewrite Back. apply andb_true_intro. split.
  - apply andb_true_intro. split; apply negb_true_iff, String.eqb_neq.
    + destruct Tx as (a & c & -> & _). discriminate.
    + congruence.
  - now apply includes_In.
Qed.

(** X7.  The pair lists of a day are closed under their pairing: a
    number belongs to [reversedPairsLanded] exactly when its reverse
    does, and to [bongNumbersLanded] exactly when it has a shadow that
    does. *)
Theorem pair_lists_closed (uniqueNumbers : list string) (x : string) :
  (In x (DataPreparer.reversedPairsLanded uniqueNumbers)
   <-> In (WorkerUtils.reverseNumber x)
          (DataPreparer.reversedPairsLanded uniqueNumbers))
  /\ (In x (DataPreparer.bongNumbersLanded uniqueNumbers)
      <-> exists b,
            WorkerUtils.getLotoBong x = Some b
            /\ In b (DataPreparer.bongNumbersLanded uniqueNumbers)).
Proof.
  split; split.
  - apply reversedPairs_closed.
  - intro I. apply reversedPairs_closed in I.
    now rewrite reverseNumber_involutive in I.
  - apply bongNumbers_closed.
  - intros (b & E & I). apply bongNumbers_closed in I.
    destruct I as (b' & E' & I'). apply getLotoBong_Some in E.
    destruct E as (_ & _ & _ & Back). congruence.
Qed.

(* ================================================================== *)
(** * Counting loops *)

Lemma fold_left_flat_map {A B S} (f : S -> B -> S) (g : A -> list B)
  (l : list A) (s : S) :
  fold_left (fun s x => fold_left f (g x) s) l s
  = fold_left f (flat_map g l) s.
Proof.
  revert s. induction l as [|x l IH]; intro s; simpl; [reflexivity|].
  now rewrite fold_left_app, IH.
Qed.

Lemma get_bump (x y : string) (m : list (string * option Z)) :
  JsMap.get x (bump y m)
  = if String.eqb y x then Some (plus_one (JsMap.get x m))
    else JsMap.get x m.
Proof.
  unfold bump. destruct (String.eqb y x) eqn:E.
  - apply String.eqb_eq in E. subst. apply get_set_same.
  - apply String.eqb_neq in E. apply get_set_other. congruence.
Qed.

Lemma hits_nonneg {A} (key : A -> option string) (x : string) (l : list A) :
  (0 <= hits key x l)%Z.
Proof. apply len_nonneg. Qed.

Lemma hits_cons {A} (key : A -> option string) (x : string) (e : A)
  (l : list A) :
  hits key x (e :: l)
  = ((match key e with
      | Some k => if String.eqb k x then 1 else 0
      | None => 0
      end) + hits key x l)%Z.
Proof.
  unfold hits. cbn [filter].
  destruct (key e) as [k|]; [destruct (String.eqb k x)|];
    rewrite ?len_cons; lia.
Qed.

Lemma hits_app {A} (key : A -> option string) (x : string) (l1 l2 : list A) :
  hits key x (l1 ++ l2) = (hits key x l1 + hits key x l2)%Z.
Proof. unfold hits. now rewrite filter_app, len_app. Qed.

Section Tally.
Context {A : Type}.
Variable key : A -> option string.

Let step := fun (m : list (string * option Z)) (e : A) =>
  match key e with
  | Some k => bump k m
  | None => m
  end.

(** A counter that starts as a number ends as that number plus its
    hits. *)
Lemma tally_number (l : list A) (m : list (string * option Z)) (x : string)
  (c : Z) :
  JsMap.get x m = Some (Some c) ->
  JsMap.get x (fold_left step l m) = Some (Some (c + hits key x l)%Z).
Proof.
  revert m c. induction l as [|e l IH]; intros m c G; cbn [fold_left].
  - unfold hits. cbn. rewrite G. do 2 f_equal. lia.
  - rewrite hits_cons. unfold step at 2.
    destruct (key e) as [k|].
    + destruct (String.eqb k x) eqn:E.
      * rewrite (IH _ (c + 1)%Z); [do 2 f_equal; lia|].
        rewrite get_bump, E, G. reflexivity.
      * rewrite (IH _ c); [do 2 f_equal; lia|].
        rewrite get_bump, E. exact G.
    + rewrite (IH _ c G). do 2 f_equal.
Qed.

(** A counter that is [NaN] stays [NaN]. *)
Lemma tally_nan (l : list A) (m : list (string * option Z)) (x : string) :
  JsMap.get x m = Some None ->
  JsMap.get x (fold_left step l m) = Some None.
Proof.
  revert m. induction l as [|e l IH]; intros m G; cbn [fold_left]; auto.
  apply IH. unfold step. destruct (key e) as [k|]; auto.
  rewrite get_bump. destruct (String.eqb k x); auto. now rewrite G.
Qed.

(** A missing counter becomes [NaN] at its first hit. *)
Lemma tally_missing (l : list A) (m : list (string * option Z)) (x : string) :
  JsMap.get x m = None ->
  JsMap.get x (fold_left step l m)
  = if (hits key x l =? 0)%Z then None else Some None.
Proof.
  revert m. induction l as [|e l IH]; intros m G; cbn [fold_left]; auto.
  rewrite hits_cons. pose proof (hits_nonneg key x l) as P.
  unfold step at 2. destruct (key e) as [k|].
  - destruct (String.eqb k x) eqn:E.
    + rewrite tally_nan by (rewrite get_bump, E, G; reflexivity).
      destruct (1 + hits key x l =? 0)%Z eqn:Z0; [lia | reflexivity].
    + rewrite IH by (rewrite get_bump, E; exact G). reflexivity.
  - rewrite IH by exact G. reflexivity.
Qed.
End Tally.

Lemma hits_count_occ (l : list string) (x : string) :
  hits (fun n => Some n) x l = Z.of_nat (count_occ string_dec l x).
Proof.
  induction l as [|y l IH]; [reflexivity|].
  rewrite hits_cons, IH. cbn [count_occ].
  destruct (string_dec y x) as [->|N].
  - rewrite String.eqb_refl. lia.
  - apply String.eqb_neq in N. rewrite N. lia.
Qed.

(* ================================================================== *)
(** * Frequencies and zones *)

Lemma initial_counter (x : string) :
  JsMap.get x (JsMap.of_entries (map (fun num => (num, Some 0%Z)) universe))
  = if includes universe x then Some (Some 0%Z) else None.
Proof.
  rewrite (of_entries_NoDup (fun _ => Some 0%Z)) by apply universe_NoDup.
  destruct (includes universe x) eqn:E.
  - apply includes_In in E. now apply (get_map_pair (fun _ => Some 0%Z)).
  - apply includes_false in E. apply get_None_iff.
    now rewrite (keys_map_pair (fun _ => Some 0%Z)).
Qed.

(** X8.  [getNumbersFrequency] reports, for every universe member, how
    many times it was drawn on the last [daysLookback] days of the
    history, repetitions within a day included.  A string outside the universe that was drawn there
    is added to the map with the value [NaN]; one that was not drawn is
    not a key. *)
Theorem getNumbersFrequency_counts (h : list DayInfo) (a : DataAnalyzer.t)
  (daysLookback : Z) (num : string) :
  DataAnalyzer.new (Some h) = Ok a ->
  JsMap.get num (DataAnalyzer.getNumbersFrequency a daysLookback)
  = let drawn :=
      Z.of_nat (count_occ string_dec (window_numbers a daysLookback) num) in
    if includes universe num then Some (Some drawn)
    else if (drawn =? 0)%Z then None else Some None.
Proof.
  intro New. destruct (new_analyzer h a New) as (_ & _ & Ha & _).
  unfold DataAnalyzer.getNumbersFrequency.
  rewrite Ha, getHistorySlice_window.
  rewrite (fold_left_flat_map (fun m n => bump n m) numbers).
  fold (window_numbers a daysLookback). cbv zeta.
  rewrite <- hits_count_occ.
  pose proof (initial_counter num) as I0.
  destruct (includes universe num).
  - rewrite (tally_number (fun n => Some n) _ _ num 0 I0). reflexivity.
  - exact (tally_missing (fun n => Some n) _ _ num I0).
Qed.

Lemma getNumbersFrequency_counts_witness :
  JsMap.get "01"%string
    (DataAnalyzer.getNumbersFrequency (sample_analyzer cycle_sample) 3)
  = let drawn :=
      Z.of_nat (count_occ string_dec
                  (window_numbers (sample_analyzer cycle_sample) 3)
                  "01"%string) in
    if includes universe "01"%string then Some (Some drawn)
    else if (drawn =? 0)%Z then None else Some None.
Proof.
  apply (getNumbersFrequency_counts cycle_sample
           (sample_analyzer cycle_sample) 3 "01"%string).
  reflexivity.
Defined.

Lemma zone_step (m : list (string * option Z)) (numStr : string) :
  (let num := ParseInt.parseInt10 numStr in
   if DataAnalyzer.within num 0 24 then bump "Zone1"%string m
   else if DataAnalyzer.within num 25 49 then bump "Zone2"%string m
   else if DataAnalyzer.within num 50 74 then bump "Zone3"%string m
   else if DataAnalyzer.within num 75 99 then bump "Zone4"%string m
   else m)
  = match DataAnalyzer.getZoneForNumber numStr with
    | Some k => bump k m
    | None => m
    end.
Proof.
  unfold DataAnalyzer.getZoneForNumber. cbv zeta.
  destruct (DataAnalyzer.within _ 0 24); [reflexivity|].
  destruct (DataAnalyzer.within _ 25 49); [reflexivity|].
  destruct (DataAnalyzer.within _ 50 74); [reflexivity|].
  destruct (DataAnalyzer.within _ 75 99); reflexivity.
Qed.

Lemma fold_left_ext {A S} (f g : S -> A -> S) (l : list A) (s : S) :
  (forall s x, f s x = g s x) -> fold_left f l s = fold_left g l s.
Proof.
  intro E. revert s. induction l as [|x l IH]; intro s; simpl; auto.
  now rewrite E, IH.
Qed.

(** X9.  [getZoneFrequencies] and [getZoneForNumber] agree: the count
    reported for a zone is the number of entries of the [uniqueNumbers]
    lists of the last [daysLookback] days of the history that
    [getZoneForNumber] places in that zone. *)
Theorem getZoneFrequencies_counts (a : DataAnalyzer.t) (daysLookback : Z)
  (zone : string) :
  In zone zone_names ->
  JsMap.get zone (DataAnalyzer.getZoneFrequencies a daysLookback)
  = Some (Some (hits DataAnalyzer.getZoneForNumber zone
                  (window_unique_numbers a daysLookback))).
Proof.
  intro Z. unfold DataAnalyzer.getZoneFrequencies.
  rewrite getHistorySlice_window, (fold_left_flat_map _ uniqueNumbers).
  fold (window_unique_numbers a daysLookback).
  rewrite (fold_left_ext _ _ _ _ zone_step).
  rewrite (tally_number DataAnalyzer.getZoneForNumber _ _ zone 0);
    [reflexivity|].
  repeat (destruct Z as [<-|Z]; [reflexivity|]). destruct Z.
Qed.

Lemma getZoneFrequencies_counts_witness :
  JsMap.get "Zone1"%string
    (DataAnalyzer.getZoneFrequencies (sample_analyzer cycle_sample) 3)
  = Some (Some (hits DataAnalyzer.getZoneForNumber "Zone1"%string
                  (window_unique_numbers (sample_analyzer cycle_sample) 3))).
Proof.
  apply (getZoneFrequencies_counts (sample_analyzer cycle_sample) 3
           "Zone1"%string).
  simpl. tauto.
Defined.

Lemma zone_check_universe : forallb zone_check universe = true.
Proof. vm_compute. reflexivity. Qed.

(** X10.  Every universe member has a zone, decided by the quarter of
    0..99 its numeric value falls in: 00-24 is Zone1, 25-49 Zone2, 50-74
    Zone3 and 75-99 Zone4. *)
Theorem getZoneForNumber_quarters (s : string) :
  In s universe ->
  exists zone,
    DataAnalyzer.getZoneForNumber s = Some zone
    /\ nth_error zone_names (Z.to_nat (numeric_key s / 25)) = Some zone.
Proof.
  intro U. pose proof zone_check_universe as C.
  rewrite forallb_forall in C. specialize (C s U). unfold zone_check in C.
  destruct (DataAnalyzer.getZoneForNumber s) as [z|]; [|discriminate].
  destruct (nth_error zone_names _) as [z'|]; [|discriminate].
  apply String.eqb_eq in C. subst z'. eauto.
Qed.

Lemma getZoneForNumber_quarters_witness :
  exists zone,
    DataAnalyzer.getZoneForNumber "57"%string = Some zone
    /\ nth_error zone_names (Z.to_nat (numeric_key "57"%string / 25))
       = Some zone.
Proof.
  apply (getZoneForNumber_quarters "57"%string). vm_compute. tauto.
Defined.

(* ================================================================== *)
(** * Co-occurrence counts *)

Lemma count_single (f : string -> bool) (k : string) (l : list string) :
  NoDup l ->
  len (filter (fun n => String.eqb n k && f n) l)
  = if includes l k && f k then 1%Z else 0%Z.
Proof.
  induction 1 as [|x l Nx ND IH]; [reflexivity|].
  cbn [filter includes existsb]. fold (includes l k).
  destruct (String.eqb x k) eqn:E.
  - apply String.eqb_eq in E. subst x. rewrite String.eqb_refl.
    apply includes_false in Nx. rewrite Nx in IH. cbn [andb orb] in *.
    destruct (f k); [rewrite len_cons, IH; reflexivity | exact IH].
  - rewrite String.eqb_sym, E. cbn [andb orb]. exact IH.
Qed.

Lemma filter_ext_in {A} (f g : A -> bool) (l : list A) :
  (forall x, In x l -> f x = g x) -> filter f l = filter g l.
Proof.
  induction l as [|x l IH]; intro E; simpl; [reflexivity|].
  rewrite E by now left. rewrite IH; [reflexivity|].
  intros y I. apply E. now right.
Qed.

Section Pairing.
Variable partner : string -> option string.
Hypothesis partner_sym :
  forall n p, partner n = Some p -> partner p = Some n /\ p <> n.

(** The numbers of one day. *)
Variable U : list string.
Variable k : string.

Let step := fun (m : list (string * option Z)) (num : string) =>
  match partner num with
  | Some p => if includes U p then bump p (bump num m) else m
  | None => m
  end.

Let own (n : string) : bool :=
  String.eqb n k
  && match partner n with
     | Some p => includes U p
     | None => false
     end.

Let partners (n : string) : bool :=
  match partner n with
  | Some p => includes U p && String.eqb p k
  | None => false
  end.

Lemma pair_fold (l : list string) (m : list (string * option Z)) (c : Z) :
  JsMap.get k m = Some (Some c) ->
  JsMap.get k (fold_left step l m)
  = Some (Some (c + len (filter own l) + len (filter partners l))%Z).
Proof.
  revert m c. induction l as [|n l IH]; intros m c G; cbn [fold_left filter].
  - rewrite G. do 2 f_equal. rewrite !len_nil. lia.
  - unfold step at 2, own at 1, partners at 1.
    destruct (partner n) as [p|] eqn:Ep.
    + destruct (includes U p) eqn:Ip; cbn [andb].
      * destruct (partner_sym _ _ Ep) as [_ Np].
        destruct (String.eqb n k) eqn:En; destruct (String.eqb p k) eqn:Epk;
          cbn [andb].
        -- apply String.eqb_eq in En, Epk. congruence.
        -- rewrite (IH _ (c + 1)%Z).
           ++ rewrite len_cons. do 2 f_equal. lia.
           ++ rewrite !get_bump, Epk, En, G. reflexivity.
        -- rewrite (IH _ (c + 1)%Z).
           ++ rewrite len_cons. do 2 f_equal. lia.
           ++ rewrite !get_bump, Epk, En, G. reflexivity.
        -- rewrite (IH _ c); [reflexivity|].
           rewrite !get_bump, Epk, En. exact G.
      * rewrite andb_false_r. now apply IH.
    + rewrite andb_false_r. now apply IH.
Qed.

Lemma partners_of (l : list string) :
  NoDup l ->
  len (filter partners l)
  = if includes U k
       && match partner k with
          | Some p => includes l p
          | None => false
          end
    then 1%Z else 0%Z.
Proof.
  intro ND. destruct (partner k) as [p0|] eqn:Ek.
  - rewrite (filter_ext_in partners
               (fun n => String.eqb n p0 && includes U k)).
    + rewrite (count_single (fun _ => includes U k) p0 l ND).
      now rewrite andb_comm.
    + intros n _. unfold partners.
      destruct (partner n) as [p|] eqn:Ep.
      * destruct (String.eqb p k) eqn:E.
        -- apply String.eqb_eq in E. subst p.
           destruct (partner_sym _ _ Ep) as [Back _].
           assert (n = p0) by congruence. subst n.
           rewrite String.eqb_refl, andb_true_r. reflexivity.
        -- rewrite andb_false_r.
           destruct (String.eqb n p0) eqn:E2; [|reflexivity].
           apply String.eqb_eq in E2. subst n.
           destruct (partner_sym _ _ Ek) as [Back _].
           apply String.eqb_neq in E. congruence.
      * destruct (String.eqb n p0) eqn:E2; [|reflexivity].
        apply String.eqb_eq in E2. subst n.
        destruct (partner_sym _ _ Ek) as [Back _]. congruence.
  - rewrite (filter_ext_in partners (fun _ => false)).
    + rewrite andb_false_r. clear. induction l; auto.
    + intros n _. unfold partners.
      destruct (partner n) as [p|] eqn:Ep; [|reflexivity].
      destruct (String.eqb p k) eqn:E; [|apply andb_false_r].
      apply String.eqb_eq in E. subst p.
      destruct (partner_sym _ _ Ep) as [Back _]. congruence.
Qed.

(** One day adds 2 to the counter of [k] when [k] and its partner both
    landed, and nothing otherwise. *)
Lemma pair_day (m : list (string * option Z)) (c : Z) :
  NoDup U ->
  JsMap.get k m = Some (Some c) ->
  JsMap.get k (fold_left step U m)
  = Some (Some (c + if includes U k
                       && match partner k with
                          | Some p => includes U p
                          | None => false
                          end
                    then 2 else 0)%Z).
Proof.
  intros ND G. rewrite (pair_fold U m c G), (partners_of U ND).
  unfold own. rewrite (count_single _ k U ND).
  do 2 f_equal. destruct (includes U k); cbn [andb]; [|lia].
  destruct (partner k) as [p|]; [|lia]. destruct (includes U p); lia.
Qed.
End Pairing.

Section PairingDays.
Variable partner : string -> option string.
Hypothesis partner_sym :
  forall n p, partner n = Some p -> partner p = Some n /\ p <> n.
Variable k p : string.
Hypothesis partner_k : partner k = Some p.

Lemma pair_days (l : list DayInfo) (m : list (string * option Z)) (c : Z) :
  Forall (fun d => NoDup (uniqueNumbers d)) l ->
  JsMap.get k m = Some (Some c) ->
  JsMap.get k
    (fold_left
       (fun m dayInfo =>
          fold_left
            (fun m num =>
               match partner num with
               | Some q =>
                   if includes (uniqueNumbers dayInfo) q
                   then bump q (bump num m) else m
               | None => m
               end)
            (uniqueNumbers dayInfo) m)
       l m)
  = Some (Some (c + 2 * len (filter (landed_together k p) l))%Z).
Proof.
  intro ND. revert m c. induction ND as [|d l Nd ND IH]; intros m c G.
  - cbn. rewrite G. do 2 f_equal. lia.
  - cbn [fold_left filter].
    pose proof (pair_day partner partner_sym (uniqueNumbers d) k m c Nd G)
      as Day.
    rewrite partner_k in Day. rewrite (IH _ _ Day).
    unfold landed_together at 2.
    destruct (includes (uniqueNumbers d) k && includes (uniqueNumbers d) p);
      rewrite ?len_cons; do 2 f_equal; lia.
Qed.
End PairingDays.

Lemma no_partner_days (partner : string -> option string) (k : string)
  (l : list DayInfo) (m : list (string * option Z)) :
  (forall n, n = k \/ partner n = Some k -> partner n = None) ->
  JsMap.get k
    (fold_left
       (fun m dayInfo =>
          fold_left
            (fun m num =>
               match partner num with
               | Some q =>
                   if includes (uniqueNumbers dayInfo) q
                   then bump q (bump num m) else m
               | None => m
               end)
            (uniqueNumbers dayInfo) m)
       l m)
  = JsMap.get k m.
Proof.
  intro Alone. revert m. induction l as [|d l IH]; intro m; [reflexivity|].
  cbn [fold_left]. rewrite IH. generalize (uniqueNumbers d) at 2.
  intro u. revert m. induction u as [|n u IHu]; intro m; [reflexivity|].
  cbn [fold_left]. rewrite IHu.
  destruct (partner n) as [q|] eqn:E; [|reflexivity].
  destruct (includes (uniqueNumbers d) q); [|reflexivity].
  rewrite !get_bump.
  destruct (String.eqb q k) eqn:E1.
  - apply String.eqb_eq in E1. subst q.
    rewrite (Alone n (or_intror E)) in E. discriminate.
  - destruct (String.eqb n k) eqn:E2; [|reflexivity].
    apply String.eqb_eq in E2. subst n.
    rewrite (Alone k (or_introl eq_refl)) in E. discriminate.
Qed.

Lemma reverse_partner_sym (n p : string) :
  reverse_partner n = Some p -> reverse_partner p = Some n /\ p <> n.
Proof.
  unfold reverse_partner.
  destruct (String.eqb (WorkerUtils.reverseNumber n) n) eqn:E; [discriminate|].
  cbn [negb]. intro F. injection F as <-.
  rewrite reverseNumber_involutive, String.eqb_sym, E. cbn [negb].
  split; [reflexivity|]. now apply String.eqb_neq.
Qed.

Lemma prepared_unique (l : list DayInfo) :
  prepared l -> Forall (fun d => NoDup (uniqueNumbers d)) l.
Proof.
  unfold prepared. rewrite !Forall_forall. intros P d I.
  now apply prepared_day_facts, P.
Qed.

(** X11.  [getReverseCoOccurrences] counts every day on which a number
    and its reverse both landed twice: once when the loop visits the
    number and once when it visits the reverse.  For a universe member
    the reported value is therefore twice the number of such days among
    the last [daysLookback] days of the history, and 0 for a kép (which
    is its own reverse). *)
Theorem getReverseCoOccurrences_doubles (h : list DayInfo)
  (a : DataAnalyzer.t) (daysLookback : Z) (num : string) :
  DataAnalyzer.new (Some h) = Ok a ->
  prepared h ->
  In num universe ->
  JsMap.get num (DataAnalyzer.getReverseCoOccurrences a daysLookback)
  = Some (Some (if String.eqb (WorkerUtils.reverseNumber num) num then 0%Z
                else (2 * days_together a daysLookback num
                            (WorkerUtils.reverseNumber num))%Z)).
Proof.
  intros New P U. destruct (new_analyzer h a New) as (_ & Hh & Ha & _).
  unfold days_together. rewrite <- getHistorySlice_window.
  unfold DataAnalyzer.getReverseCoOccurrences. rewrite Ha.
  pose proof (initial_counter num) as I0.
  apply includes_In in U. rewrite U in I0.
  rewrite (fold_left_ext _
             (fun m dayInfo =>
                fold_left
                  (fun m n =>
                     match reverse_partner n with
                     | Some q =>
                         if includes (uniqueNumbers dayInfo) q
                         then bump q (bump n m) else m
                     | None => m
                     end)
                  (uniqueNumbers dayInfo) m)).
  - destruct (String.eqb (WorkerUtils.reverseNumber num) num) eqn:E.
    + rewrite no_partner_days; [exact I0|].
      intros n [->|F]; unfold reverse_partner.
      * now rewrite E.
      * apply reverse_partner_sym in F. destruct F as [F _].
        unfold reverse_partner in F. rewrite E in F. discriminate.
    + rewrite (pair_days reverse_partner reverse_partner_sym num
                 (WorkerUtils.reverseNumber num)) with (c := 0%Z).
      * reflexivity.
      * unfold reverse_partner. now rewrite E.
      * apply prepared_unique, prepared_slice. now rewrite Hh.
      * exact I0.
  - intros m d. apply fold_left_ext. intros m' n. unfold reverse_partner.
    destruct (String.eqb (WorkerUtils.reverseNumber n) n); reflexivity.
Qed.

Lemma getReverseCoOccurrences_doubles_witness :
  JsMap.get "12"%string
    (DataAnalyzer.getReverseCoOccurrences (sample_analyzer pairs_sample) 2)
  = Some (Some (if String.eqb (WorkerUtils.reverseNumber "12") "12"
                then 0%Z
                else (2 * days_together (sample_analyzer pairs_sample) 2
                            "12" (WorkerUtils.reverseNumber "12"))%Z)).
Proof.
  apply (getReverseCoOccurrences_doubles pairs_sample
           (sample_analyzer pairs_sample) 2 "12"%string).
  - reflexivity.
  - apply prepared_check_ok. vm_compute. reflexivity.
  - vm_compute. tauto.
Defined.

Lemma getLotoBong_sym (n p : string) :
  WorkerUtils.getLotoBong n = Some p ->
  WorkerUtils.getLotoBong p = Some n /\ p <> n.
Proof. intro E. apply getLotoBong_Some in E. tauto. Qed.

(** X12.  [getBongNumberCoOccurrences] likewise counts twice: for a
    universe member the reported value is twice the number of days,
    among the last [daysLookback] of the history, on which the number
    and its shadow both landed. *)
Theorem getBongNumberCoOccurrences_doubles (h : list DayInfo)
  (a : DataAnalyzer.t) (daysLookback : Z) (num : string) :
  DataAnalyzer.new (Some h) = Ok a ->
  prepared h ->
  In num universe ->
  exists bongNum,
    WorkerUtils.getLotoBong num = Some bongNum
    /\ JsMap.get num (DataAnalyzer.getBongNumberCoOccurrences a daysLookback)
       = Some (Some (2 * days_together a daysLookback num bongNum)%Z).
Proof.
  intros New P U. destruct (new_analyzer h a New) as (_ & Hh & Ha & _).
  destruct (proj1 (getLotoBong_pairs num)) as (b & Eb & _);
    [now apply universe_two_digit|].
  exists b. split; [exact Eb|].
  unfold days_together. rewrite <- getHistorySlice_window.
  unfold DataAnalyzer.getBongNumberCoOccurrences. rewrite Ha.
  pose proof (initial_counter num) as I0.
  apply includes_In in U. rewrite U in I0.
  rewrite (fold_left_ext _
             (fun m dayInfo =>
                fold_left
                  (fun m n =>
                     match WorkerUtils.getLotoBong n with
                     | Some q =>
                         if includes (uniqueNumbers dayInfo) q
                         then bump q (bump n m) else m
                     | None => m
                     end)
                  (uniqueNumbers dayInfo) m)).
  - rewrite (pair_days WorkerUtils.getLotoBong getLotoBong_sym num b Eb)
      with (c := 0%Z).
    + reflexivity.
    + apply prepared_unique, prepared_slice. now rewrite Hh.
    + exact I0.
  - intros m d. apply fold_left_ext. intros m' n.
    destruct (WorkerUtils.getLotoBong n) as [q|] eqn:E; [|reflexivity].
    destruct (getLotoBong_Some _ _ E) as (_ & (x & y & -> & _) & N & _).
    apply String.eqb_neq in N. rewrite N. reflexivity.
Qed.

Lemma getBongNumberCoOccurrences_doubles_witness :
  exists bongNum,
    WorkerUtils.getLotoBong "12" = Some bongNum
    /\ JsMap.get "12"%string
         (DataAnalyzer.getBongNumberCoOccurrences
            (sample_analyzer pairs_sample) 2)
       = Some (Some (2 * days_together (sample_analyzer pairs_sample) 2
                           "12" bongNum)%Z).
Proof.
  apply (getBongNumberCoOccurrences_doubles pairs_sample
           (sample_analyzer pairs_sample) 2 "12"%string).
  - reflexivity.
  - apply prepared_check_ok. vm_compute. reflexivity.
  - vm_compute. tauto.
Defined.

(* ================================================================== *)
(** * Reversed numbers and drops *)

Section TallyZ.
Context {A : Type}.
Variable key : A -> option string.

Let step := fun (m : list (string * Z)) (e : A) =>
  match key e with
  | Some k => bump_or_zero k m
  | None => m
  end.

Lemma tally_or_zero (l : list A) (m : list (string * Z)) (x : string) :
  JsMap.get x (fold_left step l m)
  = match JsMap.get x m with
    | Some c => Some (c + hits key x l)%Z
    | None => if (hits key x l =? 0)%Z then None else Some (hits key x l)
    end.
Proof.
  revert m. induction l as [|e l IH]; intro m; cbn [fold_left].
  - unfold hits. cbn. destruct (JsMap.get x m); [f_equal; lia | reflexivity].
  - rewrite IH, hits_cons. pose proof (hits_nonneg key x l) as P.
    unfold step. destruct (key e) as [k|].
    + unfold bump_or_zero, get_or_zero. destruct (String.eqb k x) eqn:E.
      * apply String.eqb_eq in E. subst k. rewrite get_set_same.
        destruct (JsMap.get x m) as [c|]; [f_equal; lia|].
        destruct (1 + hits key x l =? 0)%Z eqn:Z0; [lia | f_equal; lia].
      * apply String.eqb_neq in E. rewrite get_set_other by congruence.
        destruct (JsMap.get x m); reflexivity.
    + destruct (JsMap.get x m); reflexivity.
Qed.
End TallyZ.

Lemma reverse_hits_day (k : string) (u : list string) :
  NoDup u ->
  hits reverse_partner k u
  = if includes u (WorkerUtils.reverseNumber k)
       && negb (String.eqb (WorkerUtils.reverseNumber k) k)
    then 1%Z else 0%Z.
Proof.
  intro ND. unfold hits.
  rewrite (filter_ext_in _
             (fun n => String.eqb n (WorkerUtils.reverseNumber k)
                       && negb (String.eqb (WorkerUtils.reverseNumber k) k))).
  - exact (count_single _ _ u ND).
  - intros n _. unfold reverse_partner.
    destruct (String.eqb n (WorkerUtils.reverseNumber k)) eqn:E.
    + apply String.eqb_eq in E. subst n. rewrite reverseNumber_involutive.
      rewrite (String.eqb_sym k). 
      destruct (String.eqb (WorkerUtils.reverseNumber k) k) eqn:E2;
        cbn [negb andb]; [reflexivity | apply String.eqb_refl].
    + cbn [andb].
      destruct (String.eqb (WorkerUtils.reverseNumber n) n); cbn [negb];
        [reflexivity|].
      apply String.eqb_neq. intro F. apply String.eqb_neq in E. apply E.
      now rewrite <- F, reverseNumber_involutive.
Qed.

Lemma reverse_hits_days (k : string) (l : list DayInfo) :
  Forall (fun d => NoDup (uniqueNumbers d)) l ->
  hits reverse_partner k (flat_map uniqueNumbers l)
  = if String.eqb (WorkerUtils.reverseNumber k) k then 0%Z
    else len (filter
                (fun d => includes (uniqueNumbers d)
                            (WorkerUtils.reverseNumber k)) l).
Proof.
  induction 1 as [|d l Nd ND IH]; cbn [flat_map filter].
  - now destruct (String.eqb _ k).
  - rewrite hits_app, IH, (reverse_hits_day k _ Nd).
    destruct (String.eqb (WorkerUtils.reverseNumber k) k);
      destruct (includes (uniqueNumbers d) _); cbn [negb andb];
      rewrite ?len_cons; lia.
Qed.

(** X13.  In its default mode [getLoLonCandidates] stores under a number
    the count of days, among the last [daysLookback] of the history, on
    which its reverse landed.  A kép is never a key, and neither is a
    number whose reverse did not land on those days. *)
Theorem getLoLonCandidates_counts (h : list DayInfo) (a : DataAnalyzer.t)
  (daysLookback : Z) (num : string) :
  DataAnalyzer.new (Some h) = Ok a ->
  prepared h ->
  JsMap.get num (DataAnalyzer.getLoLonCandidates a daysLookback false)
  = let days :=
      days_landed a daysLookback (WorkerUtils.reverseNumber num) in
    if String.eqb (WorkerUtils.reverseNumber num) num || (days =? 0)%Z
    then None else Some days.
Proof.
  intros New P. destruct (new_analyzer h a New) as (_ & Hh & _ & _).
  unfold days_landed. rewrite <- getHistorySlice_window.
  unfold DataAnalyzer.getLoLonCandidates.
  rewrite (fold_left_ext _
             (fun m dayInfo =>
                fold_left
                  (fun m n =>
                     match reverse_partner n with
                     | Some q => bump_or_zero q m
                     | None => m
                     end)
                  (uniqueNumbers dayInfo) m)).
  - rewrite (fold_left_flat_map _ uniqueNumbers), tally_or_zero.
    cbn [JsMap.get]. rewrite reverse_hits_days
      by (apply prepared_unique, prepared_slice; now rewrite Hh).
    cbv zeta.
    destruct (String.eqb (WorkerUtils.reverseNumber num) num); reflexivity.
  - intros m d. apply fold_left_ext. intros m' n. unfold reverse_partner.
    destruct (String.eqb (WorkerUtils.reverseNumber n) n); reflexivity.
Qed.

Lemma getLoLonCandidates_counts_witness :
  JsMap.get "12"%string
    (DataAnalyzer.getLoLonCandidates (sample_analyzer pairs_sample) 2 false)
  = let days :=
      days_landed (sample_analyzer pairs_sample) 2
        (WorkerUtils.reverseNumber "12") in
    if String.eqb (WorkerUtils.reverseNumber "12") "12" || (days =? 0)%Z
    then None else Some days.
Proof.
  apply (getLoLonCandidates_counts pairs_sample
           (sample_analyzer pairs_sample) 2 "12"%string).
  - reflexivity.
  - apply prepared_check_ok. vm_compute. reflexivity.
Defined.

(** X14.  Whatever the history and the mode, every key that
    [getLoLonCandidates] stores differs from its own reverse (no kép is
    ever scored) and carries a count of at least 1. *)
Theorem getLoLonCandidates_never_kep (a : DataAnalyzer.t)
  (daysLookback : Z) (bidirectional : bool) (num : string) (count : Z) :
  JsMap.get num (DataAnalyzer.getLoLonCandidates a daysLookback bidirectional)
  = Some count ->
  WorkerUtils.reverseNumber num <> num /\ (1 <= count)%Z.
Proof.
  unfold DataAnalyzer.getLoLonCandidates.
  generalize (DataAnalyzer._getHistorySlice a daysLookback). intro slice.
  set (Inv := fun m : list (string * Z) =>
         forall k c, JsMap.get k m = Some c ->
           WorkerUtils.reverseNumber k <> k /\ (1 <= c)%Z).
  assert (Bump : forall m k, Inv m -> WorkerUtils.reverseNumber k <> k ->
                   Inv (bump_or_zero k m)).
  { intros m k I N x c. unfold bump_or_zero, get_or_zero.
    destruct (string_dec x k) as [->|Nx].
    - rewrite get_set_same. intro F. injection F as <-. split; auto.
      destruct (JsMap.get k m) as [c0|] eqn:E; [|lia].
      destruct (I _ _ E). lia.
    - rewrite get_set_other by assumption. apply I. }
  assert (G : forall l m, Inv m ->
    Inv (fold_left
           (fun loLonCounts dayInfo =>
              fold_left
                (fun loLonCounts num =>
                   let reversedNum := WorkerUtils.reverseNumber num in
                   if negb (String.eqb reversedNum num) then
                     let loLonCounts := bump_or_zero reversedNum loLonCounts in
                     if bidirectional
                        && includes (uniqueNumbers dayInfo) reversedNum
                     then bump_or_zero num loLonCounts
                     else loLonCounts
                   else loLonCounts)
                (uniqueNumbers dayInfo) loLonCounts)
           l m)).
  { induction l as [|d l IH]; intros m I; cbn [fold_left]; [exact I|].
    apply IH. generalize (uniqueNumbers d) at 2. intro u.
    revert m I. induction u as [|n u IHu]; intros m I; cbn [fold_left];
      [exact I|].
    apply IHu. cbv zeta.
    destruct (String.eqb (WorkerUtils.reverseNumber n) n) eqn:E;
      cbn [negb]; [exact I|].
    apply String.eqb_neq in E.
    assert (I1 : Inv (bump_or_zero (WorkerUtils.reverseNumber n) m)).
    { apply Bump; auto. rewrite reverseNumber_involutive. congruence. }
    destruct (bidirectional && _); [apply Bump|]; assumption. }
  apply (G slice []). intros k c F. discriminate.
Qed.

Lemma getLoLonCandidates_never_kep_witness :
  WorkerUtils.reverseNumber "21" <> "21"%string /\ (1 <= 3)%Z.
Proof.
  apply (getLoLonCandidates_never_kep (sample_analyzer pairs_sample) 7 true
           "21"%string 3).
  vm_compute. reflexivity.
Defined.

(* ------------------------------------------------------------------ *)

Lemma repeats_short (num : string) (l : list DayInfo) :
  (len l <= 1)%Z -> repeats num l = 0%Z.
Proof.
  destruct l as [|x [|y l]]; try reflexivity.
  rewrite !len_cons. pose proof (len_nonneg l). lia.
Qed.

Lemma repeats_step (num : string) (prev cur : DayInfo) (rest : list DayInfo) :
  repeats num (prev :: cur :: rest)
  = ((if includes (uniqueNumbers prev) num && includes (uniqueNumbers cur) num
      then 1 else 0) + repeats num (cur :: rest))%Z.
Proof. reflexivity. Qed.

Lemma countDrops_from (slice : list DayInfo) (num : string) (i c : Z) :
  (1 <= i)%Z ->
  for_ofM
    (fun i st =>
       match js_nth slice i, js_nth slice (i - 1) with
       | Some currentDay, Some prevDay =>
           if includes (uniqueNumbers prevDay) num then
             if includes (uniqueNumbers currentDay) num
             then Ok (Next ((fst st + 1)%Z, snd st))
             else if false then Ok (Break (fst st, false))
             else Ok (Next st)
           else Ok (Next st)
       | _, _ => Throw (TypeError "historySlice[i] is undefined")
       end)
    (Zrange i (len slice - 1)) (c, true)
  = Ok ((c + repeats num (skipn (Z.to_nat (i - 1)) slice))%Z, true).
Proof.
  revert c. pattern i. apply (Zrange_ind (len slice - 1)); clear i.
  - intros i L c P. rewrite Zrange_nil by lia. cbn [for_ofM].
    rewrite repeats_short; [do 2 f_equal; lia|].
    rewrite len_skipn. lia.
  - intros i L IH c P. rewrite Zrange_cons by lia. cbn [for_ofM].
    destruct (js_nth_defined slice i) as [cur Ec]; [lia|].
    destruct (js_nth_defined slice (i - 1)) as [prev Ep]; [lia|].
    rewrite Ec, Ep.
    rewrite (skipn_js_nth _ _ _ Ep).
    replace (i - 1 + 1)%Z with i by lia.
    rewrite (skipn_js_nth _ _ _ Ec), repeats_step.
    rewrite <- (skipn_js_nth _ _ _ Ec).
    replace (Z.to_nat i) with (Z.to_nat (i + 1 - 1)) by (f_equal; lia).
    destruct (includes (uniqueNumbers prev) num);
      [destruct (includes (uniqueNumbers cur) num)|]; cbn [bind andb fst snd];
      rewrite IH by lia; do 2 f_equal; lia.
Qed.

Lemma countDrops_spec (slice : list DayInfo) (num : string) :
  DataAnalyzer.countDrops slice num false = Ok (repeats num slice, true).
Proof.
  unfold DataAnalyzer.countDrops.
  rewrite (countDrops_from slice num 1 0) by lia. reflexivity.
Qed.

(** The loop over the numbers stores each positive count. *)
Lemma store_positive (count : string -> Z) (l : list string)
  (m0 : list (string * Z)) :
  NoDup l ->
  exists m,
    forEachM
      (fun loRoiCounts num =>
         Ok (if (count num >? 0)%Z then JsMap.set num (count num) loRoiCounts
             else loRoiCounts))
      l m0 = Ok m
    /\ (forall x, In x l ->
          JsMap.get x m
          = if (count x >? 0)%Z then Some (count x) else JsMap.get x m0)
    /\ (forall x, ~ In x l -> JsMap.get x m = JsMap.get x m0).
Proof.
  revert m0. induction l as [|y l IH]; intros m0 ND; cbn [forEachM bind].
  - exists m0. repeat split; auto. intros x [].
  - inversion ND as [|? ? Ny ND']; subst.
    destruct (IH (if (count y >? 0)%Z then JsMap.set y (count y) m0 else m0)
                ND') as (m & Em & In1 & Out1).
    exists m. split; [exact Em|]. split.
    + intros x [<-|I].
      * rewrite (Out1 _ Ny). destruct (count y >? 0)%Z; auto.
        apply get_set_same.
      * rewrite (In1 _ I). destruct (count x >? 0)%Z; auto.
        destruct (count y >? 0)%Z; auto. apply get_set_other.
        intro; subst; contradiction.
    + intros x N. rewrite Out1 by (intro I; apply N; now right).
      destruct (count y >? 0)%Z; auto. apply get_set_other.
      intro; subst; apply N; now left.
Qed.

(** X15.  In its default mode [getLoRoiCandidates] returns, and stores
    under each universe member that repeated from one day to the next
    the number of such repeats among the last [daysLookback + 1]
    records; a number without a repeat, or outside the universe, is not
    a key. *)
Theorem getLoRoiCandidates_counts (h : list DayInfo) (a : DataAnalyzer.t)
  (daysLookback : Z) :
  DataAnalyzer.new (Some h) = Ok a ->
  exists m,
    DataAnalyzer.getLoRoiCandidates a daysLookback false = Ok m
    /\ forall num,
         JsMap.get num m
         = let r := repeats num (lookback_window h (daysLookback + 1)) in
           if includes universe num && (r >? 0)%Z then Some r else None.
Proof.
  intro New. destruct (new_analyzer h a New) as (_ & Hh & Ha & _).
  rewrite <- Hh, <- getHistorySlice_window.
  unfold DataAnalyzer.getLoRoiCandidates. rewrite Ha.
  set (slice := DataAnalyzer._getHistorySlice a (daysLookback + 1)).
  destruct (len slice <? 2)%Z eqn:E.
  - exists []. split; [reflexivity|]. intro num. cbv zeta.
    rewrite repeats_short by lia. cbn. now rewrite andb_false_r.
  - rewrite forEachM_ext
      with (g := fun m num =>
                   Ok (if (repeats num slice >? 0)%Z
                       then JsMap.set num (repeats num slice) m else m)).
    + destruct (store_positive (fun x => repeats x slice) universe []
                  universe_NoDup) as (m & Em & In1 & Out1).
      exists m. split; [exact Em|]. intro num. cbv zeta.
      destruct (includes universe num) eqn:U.
      * apply includes_In in U. rewrite (In1 _ U).
        now destruct (repeats num slice >? 0)%Z.
      * apply includes_false in U. now rewrite (Out1 _ U).
    + intros m x _. rewrite countDrops_spec. cbn [bind fst snd andb negb].
      rewrite andb_true_r. reflexivity.
Qed.

Lemma getLoRoiCandidates_counts_witness :
  exists m,
    DataAnalyzer.getLoRoiCandidates (sample_analyzer cycle_sample) 2 false
    = Ok m
    /\ forall num,
         JsMap.get num m
         = let r := repeats num (lookback_window cycle_sample (2 + 1)) in
           if includes universe num && (r >? 0)%Z then Some r else None.
Proof.
  apply (getLoRoiCandidates_counts cycle_sample
           (sample_analyzer cycle_sample) 2).
  reflexivity.
Defined.

(* ================================================================== *)
(** * Gan lists *)

Lemma fold_left_map {A B S} (f : S -> B -> S) (g : A -> B) (l : list A)
  (s : S) :
  fold_left f (map g l) s = fold_left (fun s x => f s (g x)) l s.
Proof. revert s. induction l as [|x l IH]; intro s; simpl; auto. Qed.

Lemma fold_set_each {V} (f : string -> V) (l : list string) :
  NoDup l ->
  fold_left (fun m k => JsMap.set k (f k) m) l []
  = map (fun k => (k, f k)) l.
Proof.
  intro ND. rewrite <- (of_entries_NoDup f l ND).
  unfold JsMap.of_entries. now rewrite fold_left_map.
Qed.

Lemma kep_numbers_universe : filter WorkerUtils.isKep universe = kep_numbers.
Proof. vm_compute. reflexivity. Qed.

Lemma kep_numbers_NoDup : NoDup kep_numbers.
Proof.
  rewrite <- kep_numbers_universe. apply NoDup_filter, universe_NoDup.
Qed.

(** X16.  [getGanKepNumbers] returns a map whose keys are the ten kép
    numbers 00, 11, ..., 99 in this order, each holding the entry that
    [getGanStatus] reports for it (never [undefined]). *)
Theorem getGanKepNumbers_entries (h : list DayInfo) (a : DataAnalyzer.t) :
  DataAnalyzer.new (Some h) = Ok a ->
  exists m g,
    DataAnalyzer.getGanKepNumbers a = Ok m
    /\ DataAnalyzer.getGanStatus a = Ok g
    /\ JsMap.keys m = kep_numbers
    /\ forall kep, In kep kep_numbers ->
         exists e, JsMap.get kep g = Some e
                   /\ JsMap.get kep m = Some (Some e).
Proof.
  intro New. destruct (new_analyzer h a New) as (_ & _ & Ha & _).
  destruct (getGanStatus_returns a) as (g & Eg & Each).
  unfold DataAnalyzer.getGanKepNumbers. rewrite Eg, Ha, kep_numbers_universe.
  cbn [bind]. rewrite (fold_set_each _ _ kep_numbers_NoDup).
  eexists. exists g. split; [reflexivity|]. split; [reflexivity|]. split.
  - apply (keys_map_pair (fun k => JsMap.get k g)).
  - intros kep K. destruct (Each kep) as (e & _ & Ge).
    + rewrite Ha. rewrite <- kep_numbers_universe in K.
      apply filter_In in K. tauto.
    + exists e. split; [exact Ge|].
      rewrite (get_map_pair (fun k => JsMap.get k g)) by assumption.
      now rewrite Ge.
Qed.

Lemma getGanKepNumbers_entries_witness :
  exists m g,
    DataAnalyzer.getGanKepNumbers (sample_analyzer gan_sample) = Ok m
    /\ DataAnalyzer.getGanStatus (sample_analyzer gan_sample) = Ok g
    /\ JsMap.keys m = kep_numbers
    /\ forall kep, In kep kep_numbers ->
         exists e, JsMap.get kep g = Some e
                   /\ JsMap.get kep m = Some (Some e).
Proof.
  apply (getGanKepNumbers_entries gan_sample (sample_analyzer gan_sample)).
  reflexivity.
Defined.

(** The keys that a storing loop leaves in the map. *)
Lemma forEachM_set_keys {V} (g : string -> Result V) (l : list string)
  (m0 m : list (string * V)) :
  forEachM (fun m x => v <- g x ;; Ok (JsMap.set x v m)) l m0 = Ok m ->
  NoDup (JsMap.keys m0) ->
  NoDup (JsMap.keys m)
  /\ forall k, In k (JsMap.keys m) <-> In k (JsMap.keys m0) \/ In k l.
Proof.
  revert m0. induction l as [|y l IH]; intros m0 E ND; cbn [forEachM] in E.
  - injection E as <-. split; auto. intro k. simpl. tauto.
  - destruct (g y) as [v|e]; [|discriminate]. cbn [bind] in E.
    destruct (IH _ E (NoDup_keys_set y v m0 ND)) as [N I].
    split; auto. intro k. rewrite I, in_keys_set. simpl.
    split; intuition.
Qed.

Lemma getGanStatus_entries (a : DataAnalyzer.t) (g : list (string * GanEntry.t)) :
  DataAnalyzer.getGanStatus a = Ok g ->
  NoDup (JsMap.keys g)
  /\ forall num e,
       In (num, e) g
       <-> In num (DataAnalyzer.allLottoNumbers a) /\ ganEntryOf a num = Ok e.
Proof.
  intro Eg. destruct (getGanStatus_returns a) as (g' & Eg' & Each).
  assert (g' = g) by congruence. subst g'. clear Eg'.
  unfold DataAnalyzer.getGanStatus in Eg.
  rewrite forEachM_ext
    with (g := fun m x => v <- ganEntryOf a x ;; Ok (JsMap.set x v m)) in Eg.
  - destruct (forEachM_set_keys _ _ _ _ Eg (NoDup_nil _)) as [ND K].
    split; [exact ND|]. intros num e. rewrite (In_entry_get num e g ND).
    split.
    + intro G. assert (I : In num (DataAnalyzer.allLottoNumbers a)).
      { apply get_Some_in in G. apply K in G. simpl in G. tauto. }
      split; [exact I|]. destruct (Each num I) as (e' & Ee & Ge). congruence.
    + intros [I Ee]. destruct (Each num I) as (e' & Ee' & Ge). congruence.
  - intros s x _. unfold ganEntryOf.
    destruct (JsMap.get x (DataAnalyzer.lastAppearanceMap a)); [|reflexivity].
    destruct (js_nth (DataAnalyzer.historyData a) z); reflexivity.
Qed.

Lemma StronglySorted_firstn {A} (R : A -> A -> Prop) (l : list A) (n : nat) :
  StronglySorted R l -> StronglySorted R (firstn n l).
Proof.
  intro S. revert n. induction S as [|x l S IH F]; intros [|n]; simpl;
    try constructor.
  - apply IH.
  - rewrite Forall_forall in *. intros y I. apply F.
    rewrite <- (firstn_skipn n l). apply in_or_app. now left.
Qed.

Lemma StronglySorted_split {A} (R : A -> A -> Prop) (l1 l2 : list A) :
  StronglySorted R (l1 ++ l2) ->
  forall x y, In x l1 -> In y l2 -> R x y.
Proof.
  induction l1 as [|z l1 IH]; simpl; intros S x y Ix Iy; [tauto|].
  inversion S as [|? ? S' F]; subst. destruct Ix as [<-|Ix].
  - rewrite Forall_forall in F. apply F. apply in_or_app. now right.
  - now apply IH.
Qed.

Lemma StronglySorted_map {A B} (R : A -> A -> Prop) (R' : B -> B -> Prop)
  (f : A -> B) (l : list A) :
  (forall x y, In x l -> In y l -> R x y -> R' (f x) (f y)) ->
  StronglySorted R l -> StronglySorted R' (map f l).
Proof.
  intros T S. induction S as [|x l S IH F]; simpl; constructor.
  - apply IH. intros. apply T; auto; now right.
  - rewrite Forall_forall in *. intros y I. apply in_map_iff in I.
    destruct I as (z & <- & Iz). apply T; auto; [now left | now right].
Qed.

Lemma slice_to_prefix {A} (l : list A) (e : option Z) :
  exists n, slice_to l e = firstn n l.
Proof.
  destruct e as [e|]; cbn.
  - eauto.
  - exists (List.length l). now rewrite firstn_all.
Qed.

Lemma In_firstn_In {A} (l : list A) (n : nat) (x : A) :
  In x (firstn n l) -> In x l.
Proof.
  intro I. rewrite <- (firstn_skipn n l). apply in_or_app. now left.
Qed.

Lemma NoDup_firstn {A} (l : list A) (n : nat) : NoDup l -> NoDup (firstn n l).
Proof.
  intro ND. rewrite <- (firstn_skipn n l) in ND.
  now apply NoDup_app_remove_r in ND.
Qed.

(** X17.  [getFilteredGanNumbers] returns items in descending order of
    [daysGone]; every item carries the [getGanStatus] entry of a
    universe member whose [daysGone] lies in the requested range, no
    number occurs twice, at most [topN] items are returned, and without
    a [topN] bound every universe member in the range is listed. *)
Theorem getFilteredGanNumbers_spec (h : list DayInfo) (a : DataAnalyzer.t)
  (minDaysGan : Z) (maxDaysGan topN : option Z) :
  DataAnalyzer.new (Some h) = Ok a ->
  exists items,
    DataAnalyzer.getFilteredGanNumbers a minDaysGan maxDaysGan topN = Ok items
    /\ StronglySorted
         (fun x y => (GanItem.daysGone x >= GanItem.daysGone y)%Z) items
    /\ NoDup (map GanItem.number items)
    /\ (forall item, In item items ->
          In (GanItem.number item) universe
          /\ gan_in_range minDaysGan maxDaysGan (GanItem.daysGone item)
          /\ exists e,
               ganEntryOf a (GanItem.number item) = Ok e
               /\ GanItem.daysGone item = GanEntry.daysGone e
               /\ GanItem.lastSeenIndex item = GanEntry.lastSeenIndex e)
    /\ (forall n, topN = Some n -> (0 <= n)%Z -> (len items <= n)%Z)
    /\ (topN = None ->
        forall num e,
          In num universe -> ganEntryOf a num = Ok e ->
          gan_in_range minDaysGan maxDaysGan (GanEntry.daysGone e) ->
          exists item, In item items /\ GanItem.number item = num).
Proof.
  intro New. destruct (new_analyzer h a New) as (_ & _ & Ha & _).
  destruct (getGanStatus_returns a) as (g & Eg & _).
  destruct (getGanStatus_entries a g Eg) as [NDg Entries].
  rewrite Ha in Entries.
  unfold DataAnalyzer.getFilteredGanNumbers. rewrite Eg. cbn [bind].
  set (toItem := fun entry : string * GanEntry.t =>
         {| GanItem.number := fst entry;
            GanItem.daysGone := GanEntry.daysGone (snd entry);
            GanItem.lastSeenDate := GanEntry.lastSeenDate (snd entry);
            GanItem.lastSeenIndex := GanEntry.lastSeenIndex (snd entry) |}).
  set (keep := fun item : GanItem.t =>
         (GanItem.daysGone item >=? minDaysGan)%Z
         && match maxDaysGan with
            | Some maxDays => (GanItem.daysGone item <=? maxDays)%Z
            | None => true
            end).
  set (cmp := fun a b : GanItem.t =>
         (0 <? GanItem.daysGone b - GanItem.daysGone a)%Z).
  set (kept := filter keep (map toItem g)).
  set (sorted := js_sort cmp kept).
  assert (Keep : forall item, keep item = true
                  <-> gan_in_range minDaysGan maxDaysGan (GanItem.daysGone item)).
  { intro item. unfold keep, gan_in_range. destruct maxDaysGan as [mx|].
    - rewrite andb_true_iff. split.
      + intros [A B]. split; [lia|]. intros ? F. injection F as <-. lia.
      + intros [A B]. specialize (B mx eq_refl). split; lia.
    - rewrite andb_true_r. split.
      + intro A. split; [lia | discriminate].
      + intros [A _]. lia. }
  assert (InSorted : forall item, In item sorted
            <-> exists num e, In (num, e) g /\ item = toItem (num, e)
                              /\ keep item = true).
  { intro item. unfold sorted. rewrite js_sort_In. unfold kept.
    rewrite filter_In, in_map_iff. split.
    - intros [([num e] & <- & I) K]. exists num, e. auto.
    - intros (num & e & I & -> & K). split; [|exact K].
      exists (num, e). auto. }
  assert (NDs : NoDup (map GanItem.number sorted)).
  { apply (Permutation_NoDup (l := map GanItem.number kept)).
    - apply Permutation_map. symmetry. apply js_sort_perm.
    - unfold kept. unfold JsMap.keys in NDg. clear -NDg.
      induction g as [|[k e] g IH]; simpl in *; [constructor|].
      inversion NDg as [|? ? Nk ND']; subst.
      destruct (keep (toItem (k, e))); simpl; auto.
      constructor; auto. intro I. apply Nk.
      apply in_map_iff in I. destruct I as (it & E & I).
      apply filter_In in I. destruct I as [I _].
      apply in_map_iff in I. destruct I as ([k' e'] & <- & I).
      simpl in E. subst k'. change k with (fst (k, e')). now apply in_map. }
  assert (Ss : StronglySorted
                 (fun x y => (GanItem.daysGone x >= GanItem.daysGone y)%Z)
                 sorted).
  { assert (S0 : StronglySorted
                   (fun x y => (- GanItem.daysGone x <= - GanItem.daysGone y)%Z)
                   sorted).
    { apply js_sort_sorted with (P := fun _ => True).
      - intros x y _ _. unfold cmp.
        destruct (0 <? GanItem.daysGone y - GanItem.daysGone x)%Z eqn:E1;
          destruct (- GanItem.daysGone y <? - GanItem.daysGone x)%Z eqn:E2;
          lia.
      - apply Forall_forall. auto. }
    revert S0. generalize sorted. intros l S0.
    induction S0 as [|x l S0 IH F]; constructor; auto.
    rewrite Forall_forall in *. intros y I. specialize (F y I). lia. }
  destruct (slice_to_prefix sorted topN) as [n En].
  exists (slice_to sorted topN). split; [reflexivity|].
  split; [rewrite En; now apply StronglySorted_firstn|].
  split; [rewrite En, <- firstn_map; now apply NoDup_firstn|].
  split; [|split].
  - intros item I. rewrite En in I. apply In_firstn_In in I.
    apply InSorted in I. destruct I as (num & e & I & -> & K).
    apply Entries in I. destruct I as [U Ee]. cbn [toItem GanItem.number].
    split; [exact U|]. split; [now apply Keep|].
    exists e. auto.
  - intros k -> P. cbn [slice_to].
    destruct (k <? 0)%Z eqn:E; [lia|].
    unfold len. rewrite length_firstn. lia.
  - intros -> num e U Ee R. cbn [slice_to].
    exists (toItem (num, e)). split; [|reflexivity].
    apply InSorted. exists num, e. split; [now apply Entries|].
    split; [reflexivity|]. now apply Keep.
Qed.

Lemma getFilteredGanNumbers_spec_witness :
  exists items,
    DataAnalyzer.getFilteredGanNumbers (sample_analyzer gan_sample) 1
      (Some 2%Z) None = Ok items
    /\ StronglySorted
         (fun x y => (GanItem.daysGone x >= GanItem.daysGone y)%Z) items
    /\ NoDup (map GanItem.number items)
    /\ (forall item, In item items ->
          In (GanItem.number item) universe
          /\ gan_in_range 1 (Some 2%Z) (GanItem.daysGone item)
          /\ exists e,
               ganEntryOf (sample_analyzer gan_sample) (GanItem.number item)
               = Ok e
               /\ GanItem.daysGone item = GanEntry.daysGone e
               /\ GanItem.lastSeenIndex item = GanEntry.lastSeenIndex e)
    /\ (forall n, @None Z = Some n -> (0 <= n)%Z -> (len items <= n)%Z)
    /\ (@None Z = None ->
        forall num e,
          In num universe ->
          ganEntryOf (sample_analyzer gan_sample) num = Ok e ->
          gan_in_range 1 (Some 2%Z) (GanEntry.daysGone e) ->
          exists item, In item items /\ GanItem.number item = num).
Proof.
  apply (getFilteredGanNumbers_spec gan_sample (sample_analyzer gan_sample)
           1 (Some 2%Z) None).
  reflexivity.
Defined.

(* ================================================================== *)
(** * Hot and cold numbers *)

Lemma bump_keys (k : string) (m : list (string * option Z)) :
  In k (JsMap.keys m) -> JsMap.keys (bump k m) = JsMap.keys m.
Proof. intro I. unfold bump. now apply keys_set_in. Qed.

Lemma map_of_gets {V} (f : string -> V) (m : list (string * V)) :
  NoDup (JsMap.keys m) ->
  (forall k, In k (JsMap.keys m) -> JsMap.get k m = Some (f k)) ->
  m = map (fun k => (k, f k)) (JsMap.keys m).
Proof.
  induction m as [|[k v] m IH]; intros ND G; [reflexivity|].
  inversion ND as [|? ? Nk ND']; subst. cbn [JsMap.keys map fst].
  f_equal.
  - specialize (G k (or_introl eq_refl)). cbn [JsMap.get] in G.
    rewrite keqb_refl in G. injection G as ->. reflexivity.
  - apply IH; [exact ND'|]. intros x I.
    specialize (G x (or_intror I)). cbn [JsMap.get] in G.
    rewrite keqb_neq in G; [exact G|]. intro; subst; contradiction.
Qed.

Lemma window_numbers_universe (a : DataAnalyzer.t) (daysLookback : Z) :
  prepared (DataAnalyzer.historyData a) ->
  forall n, In n (window_numbers a daysLookback) -> In n universe.
Proof.
  intros P n I. unfold window_numbers in I.
  rewrite <- getHistorySlice_window in I. apply in_flat_map in I.
  destruct I as (d & Id & In_d).
  pose proof (prepared_slice a daysLookback P) as Ps.
  unfold prepared in Ps. rewrite Forall_forall in Ps.
  destruct (Ps d Id) as [_ F]. rewrite Forall_forall in F. auto.
Qed.

(** On a prepared history the frequency map lists the universe in
    order, each member with its number of draws. *)
Lemma getNumbersFrequency_entries (h : list DayInfo) (a : DataAnalyzer.t)
  (daysLookback : Z) :
  DataAnalyzer.new (Some h) = Ok a ->
  prepared h ->
  DataAnalyzer.getNumbersFrequency a daysLookback
  = map (fun n => (n, Some (drawn a daysLookback n))) universe.
Proof.
  intros New P. destruct (new_analyzer h a New) as (_ & Hh & Ha & _).
  rewrite <- Hh in P.
  unfold DataAnalyzer.getNumbersFrequency.
  rewrite Ha, getHistorySlice_window.
  rewrite (fold_left_flat_map (fun m n => bump n m) numbers).
  fold (window_numbers a daysLookback).
  rewrite (of_entries_NoDup (fun _ => Some 0%Z)) by apply universe_NoDup.
  pose proof (window_numbers_universe a daysLookback P) as W.
  set (m0 := map (fun k => (k, Some 0%Z)) universe).
  assert (K : JsMap.keys
                (fold_left (fun m n => bump n m)
                   (window_numbers a daysLookback) m0) = universe).
  { assert (K0 : JsMap.keys m0 = universe)
      by apply (keys_map_pair (fun _ => Some 0%Z)).
    revert W K0. generalize m0. generalize (window_numbers a daysLookback).
    induction l as [|n l IH]; intros m W K0; cbn [fold_left]; [exact K0|].
    apply IH.
    - intros x I. apply W. now right.
    - rewrite bump_keys; [exact K0|]. rewrite K0. apply W. now left. }
  rewrite (map_of_gets (fun n => Some (drawn a daysLookback n))
             (fold_left (fun m n => bump n m)
                (window_numbers a daysLookback) m0)).
  - now rewrite K.
  - rewrite K. apply universe_NoDup.
  - rewrite K. intros k U.
    rewrite (tally_number (fun n => Some n) _ m0 k 0).
    + unfold drawn. now rewrite hits_count_occ.
    + now apply (get_map_pair (fun _ => Some 0%Z)).
Qed.

Lemma firstn_map_fst {A B} (f : A -> B) (l : list A) (n : nat) :
  firstn n (map f l) = map f (firstn n l).
Proof. apply firstn_map. Qed.

Section Ranked.
Variable a : DataAnalyzer.t.
Variable daysLookback : Z.

Let entry := fun n : string => (n, Some (drawn a daysLookback n)).
Let entries := map entry universe.

Lemma ranked_entries (gt : string * option Z -> string * option Z -> bool)
  (e : string * option Z) :
  In e (js_sort gt entries) <-> exists n, In n universe /\ e = entry n.
Proof.
  rewrite js_sort_In. unfold entries. rewrite in_map_iff.
  split; intros (n & A & B); exists n; auto.
Qed.

Lemma ranked_names (gt : string * option Z -> string * option Z -> bool) :
  Permutation (map fst (js_sort gt entries)) universe.
Proof.
  rewrite (Permutation_map fst (js_sort_perm gt entries)).
  unfold entries. rewrite map_map.
  rewrite (map_ext _ (fun x => x)) by reflexivity. now rewrite map_id.
Qed.

Lemma ranked_desc :
  StronglySorted
    (fun x y => (drawn a daysLookback (fst x) >= drawn a daysLookback (fst y))%Z)
    (js_sort DataAnalyzer.byCountDesc entries).
Proof.
  set (P := fun e : string * option Z => exists n, e = entry n).
  set (key := fun e : string * option Z => (- drawn a daysLookback (fst e))%Z).
  assert (S0 : StronglySorted (fun x y => (key x <= key y)%Z)
                 (js_sort DataAnalyzer.byCountDesc entries)).
  { apply js_sort_sorted with (P := P).
    - intros x y [n ->] [n' ->]. unfold DataAnalyzer.byCountDesc, key.
      cbn [entry fst snd].
      destruct (0 <? drawn a daysLookback n' - drawn a daysLookback n)%Z eqn:E1;
        destruct (- drawn a daysLookback n' <? - drawn a daysLookback n)%Z
          eqn:E2; lia.
    - apply Forall_forall. intros e I. unfold entries in I.
      apply in_map_iff in I. destruct I as (n & <- & _). now exists n. }
  revert S0. generalize (js_sort DataAnalyzer.byCountDesc entries).
  intros l S0. induction S0 as [|x l S0 IH F]; constructor; auto.
  rewrite Forall_forall in *. intros y I. specialize (F y I).
  unfold key in F. lia.
Qed.

Lemma ranked_asc :
  StronglySorted
    (fun x y => (drawn a daysLookback (fst x) <= drawn a daysLookback (fst y))%Z)
    (js_sort DataAnalyzer.byCountAsc entries).
Proof.
  set (P := fun e : string * option Z => exists n, e = entry n).
  apply js_sort_sorted with (P := P)
    (key := fun e => drawn a daysLookback (fst e)).
  - intros x y [n ->] [n' ->]. unfold DataAnalyzer.byCountAsc.
    cbn [entry fst snd].
    destruct (0 <? drawn a daysLookback n - drawn a daysLookback n')%Z eqn:E1;
      destruct (drawn a daysLookback n' <? drawn a daysLookback n)%Z eqn:E2;
      lia.
  - apply Forall_forall. intros e I. unfold entries in I.
    apply in_map_iff in I. destruct I as (n & <- & _). now exists n.
Qed.
End Ranked.

(** X18.  On a prepared history [getHotNumbers] returns [topN] distinct
    universe members (all 100 when [topN] exceeds that), in descending
    order of their number of draws on the last [daysLookback] days of
    the history, and no universe member left out was drawn more often
    on those days than one returned. *)
Theorem getHotNumbers_top (h : list DayInfo) (a : DataAnalyzer.t)
  (topN daysLookback : Z) :
  DataAnalyzer.new (Some h) = Ok a ->
  prepared h ->
  (0 <= topN)%Z ->
  let hot := DataAnalyzer.getHotNumbers a topN daysLookback in
  len hot = Z.min topN 100
  /\ NoDup hot
  /\ incl hot universe
  /\ StronglySorted
       (fun x y => (drawn a daysLookback x >= drawn a daysLookback y)%Z) hot
  /\ forall x y,
       In x hot -> In y universe -> ~ In y hot ->
       (drawn a daysLookback y <= drawn a daysLookback x)%Z.
Proof.
  intros New P T. cbv zeta. unfold DataAnalyzer.getHotNumbers.
  rewrite (getNumbersFrequency_entries h a daysLookback New P).
  cbn [slice_to]. destruct (topN <? 0)%Z eqn:E; [lia|]. clear E.
  set (sorted := js_sort DataAnalyzer.byCountDesc _).
  pose proof (ranked_names a daysLookback DataAnalyzer.byCountDesc) as Pm.
  fold sorted in Pm.
  pose proof (ranked_desc a daysLookback) as S. fold sorted in S.
  assert (ND : NoDup (map fst sorted)).
  { apply (Permutation_NoDup (l := universe));
      [apply Permutation_sym; exact Pm | apply universe_NoDup]. }
  clearbody sorted.
  split.
  - rewrite len_map. unfold len. rewrite length_firstn.
    rewrite <- (length_map fst sorted), (Permutation_length Pm),
      universe_length. lia.
  - split; [rewrite <- firstn_map; apply NoDup_firstn; exact ND|].
    split.
    + intros x I. rewrite <- firstn_map in I. apply In_firstn_In in I.
      exact (Permutation_in _ Pm I).
    + split.
      * apply StronglySorted_map
          with (R := fun x y => (drawn a daysLookback (fst x)
                                 >= drawn a daysLookback (fst y))%Z);
          [intros x y _ _ R; exact R | apply StronglySorted_firstn; exact S].
      * intros x y Ix Uy Ny. apply in_map_iff in Ix.
        destruct Ix as (ex & <- & Ix).
        assert (Iy : In y (map fst sorted))
          by (apply (Permutation_in _ (Permutation_sym Pm)); exact Uy).
        apply in_map_iff in Iy. destruct Iy as (ey & <- & Iy).
        rewrite <- (firstn_skipn (Z.to_nat topN) sorted) in Iy, S.
        apply in_app_or in Iy. destruct Iy as [Iy|Iy].
        -- exfalso. apply Ny. apply in_map. exact Iy.
        -- pose proof (StronglySorted_split _ _ _ S ex ey Ix Iy) as Q.
           cbv beta in Q. lia.
Qed.

Lemma getHotNumbers_top_witness :
  let hot := DataAnalyzer.getHotNumbers (sample_analyzer cycle_sample) 3 3 in
  len hot = Z.min 3 100
  /\ NoDup hot
  /\ incl hot universe
  /\ StronglySorted
       (fun x y => (drawn (sample_analyzer cycle_sample) 3 x
                    >= drawn (sample_analyzer cycle_sample) 3 y)%Z) hot
  /\ forall x y,
       In x hot -> In y universe -> ~ In y hot ->
       (drawn (sample_analyzer cycle_sample) 3 y
        <= drawn (sample_analyzer cycle_sample) 3 x)%Z.
Proof.
  apply (getHotNumbers_top cycle_sample (sample_analyzer cycle_sample) 3 3).
  - reflexivity.
  - apply prepared_check_ok. vm_compute. reflexivity.
  - lia.
Defined.

(** A stable sort keeps the relative order of elements that the
    comparator never puts behind one another. *)
Lemma filter_sort_insert {A} (gt : A -> A -> bool) (p : A -> bool) (x : A)
  (l : list A) :
  (forall y, In y l -> p x = true -> p y = true -> gt x y = false) ->
  filter p (sort_insert gt x l) = filter p (x :: l).
Proof.
  induction l as [|y l IH]; intro Q; [reflexivity|].
  cbn [sort_insert]. destruct (gt x y) eqn:E; [|reflexivity].
  cbn [filter] in *. rewrite IH by (intros; apply Q; auto; now right).
  destruct (p x) eqn:Px; [|reflexivity].
  destruct (p y) eqn:Py; [|reflexivity].
  rewrite Q in E by (auto; now left). discriminate.
Qed.

Lemma filter_js_sort {A} (gt : A -> A -> bool) (p : A -> bool) (l : list A) :
  (forall x y, In x l -> In y l -> p x = true -> p y = true ->
               gt x y = false) ->
  filter p (js_sort gt l) = filter p l.
Proof.
  induction l as [|x l IH]; intro Q; [reflexivity|].
  cbn [js_sort]. rewrite filter_sort_insert.
  - cbn [filter]. rewrite IH; [reflexivity|].
    intros; apply Q; auto; now right.
  - intros y I. apply js_sort_In in I. apply Q; [now left | now right].
Qed.

Lemma filter_map_swap {A B} (f : A -> B) (p : B -> bool) (l : list A) :
  filter p (map f l) = map f (filter (fun x => p (f x)) l).
Proof.
  induction l as [|x l IH]; simpl; [reflexivity|].
  destruct (p (f x)); simpl; now rewrite IH.
Qed.

(** X19.  On a prepared history [getColdNumbers] returns the first
    [topN] universe members, in universe order, among those drawn least
    often on the last [daysLookback] days of the history. *)
Theorem getColdNumbers_least (h : list DayInfo) (a : DataAnalyzer.t)
  (topN daysLookback : Z) :
  DataAnalyzer.new (Some h) = Ok a ->
  prepared h ->
  (0 <= topN)%Z ->
  exists least,
    (forall n, In n universe -> (least <= drawn a daysLookback n)%Z)
    /\ (exists n, In n universe /\ drawn a daysLookback n = least)
    /\ DataAnalyzer.getColdNumbers a topN daysLookback
       = firstn (Z.to_nat topN)
           (filter (fun n => (drawn a daysLookback n =? least)%Z) universe).
Proof.
  intros New P T. unfold DataAnalyzer.getColdNumbers.
  rewrite (getNumbersFrequency_entries h a daysLookback New P).
  set (entry := fun n : string => (n, Some (drawn a daysLookback n))).
  set (entries := map entry universe).
  set (sorted := js_sort DataAnalyzer.byCountAsc entries).
  pose proof (ranked_asc a daysLookback) as S. fold entry entries sorted in S.
  assert (Mem : forall e, In e sorted <-> exists n, In n universe /\ e = entry n)
    by apply ranked_entries.
  destruct sorted as [|e0 rest] eqn:Es.
  - exfalso.
    assert (L : List.length sorted = 100%nat).
    { unfold sorted. rewrite js_sort_length. unfold entries.
      now rewrite length_map. }
    rewrite Es in L. discriminate.
  - destruct (proj1 (Mem e0) (or_introl eq_refl)) as (n0 & U0 & E0).
    subst e0. exists (drawn a daysLookback n0). split; [|split].
    + intros n U. destruct (proj2 (Mem (entry n))) as [F|I]; [eauto| |].
      * injection F as <-. lia.
      * inversion S as [|? ? _ F]; subst. rewrite Forall_forall in F.
        exact (F _ I).
    + eauto.
    + cbn [slice_to snd entry]. destruct (topN <? 0)%Z eqn:E; [lia|].
      rewrite <- Es. unfold sorted.
      rewrite filter_js_sort.
      * unfold entries. rewrite filter_map_swap, <- firstn_map, map_map.
        cbn [fst snd entry DataAnalyzer.sameCount]. now rewrite map_id.
      * intros x y Ix Iy Px Py. unfold entries in Ix, Iy.
        apply in_map_iff in Ix, Iy.
        destruct Ix as (nx & <- & _). destruct Iy as (ny & <- & _).
        cbn [snd entry DataAnalyzer.sameCount] in Px, Py.
        unfold DataAnalyzer.byCountAsc. cbn [snd entry]. lia.
Qed.

Lemma getColdNumbers_least_witness :
  exists least,
    (forall n, In n universe ->
               (least <= drawn (sample_analyzer cycle_sample) 3 n)%Z)
    /\ (exists n, In n universe
                  /\ drawn (sample_analyzer cycle_sample) 3 n = least)
    /\ DataAnalyzer.getColdNumbers (sample_analyzer cycle_sample) 4 3
       = firstn (Z.to_nat 4)
           (filter
              (fun n => (drawn (sample_analyzer cycle_sample) 3 n =? least)%Z)
              universe).
Proof.
  apply (getColdNumbers_least cycle_sample (sample_analyzer cycle_sample) 4 3).
  - reflexivity.
  - apply prepared_check_ok. vm_compute. reflexivity.
  - lia.
Defined.

(* ================================================================== *)
(** * Sandwiched numbers *)

Lemma fold_add_spec (l s : list string) :
  NoDup s ->
  NoDup (fold_left (fun s x => JsSet.add x s) l s)
  /\ forall x, In x (fold_left (fun s x => JsSet.add x s) l s)
               <-> In x s \/ In x l.
Proof.
  revert s. induction l as [|y l IH]; intros s ND; simpl.
  - split; auto. intro; tauto.
  - destruct (IH (JsSet.add y s) (set_add_NoDup y s ND)) as [N1 I1].
    split; auto. intro x. rewrite I1, set_add_In. intuition.
Qed.

Lemma set_of_list_In (l : list string) (x : string) :
  In x (JsSet.of_list l) <-> In x l.
Proof. apply set_of_list_spec. Qed.

(** The candidates added for one position of the window. *)
Lemma sandwich_day (dayA dayB dayX s : list string) :
  NoDup s ->
  let s' :=
    fold_left
      (fun cands numA =>
         if JsSet.has numA dayB
         then fold_left (fun cands numX => JsSet.add numX cands) dayX cands
         else cands)
      dayA s in
  NoDup s'
  /\ forall x, In x s'
       <-> In x s \/ ((exists numA, In numA dayA /\ In numA dayB) /\ In x dayX).
Proof.
  revert s. induction dayA as [|n dayA IH]; intros s ND; cbn [fold_left].
  - split; auto. intro x. split; [tauto|]. intros [I|[(y & [] & _) _]]. exact I.
  - cbv zeta in IH. destruct (JsSet.has n dayB) eqn:E.
    + destruct (fold_add_spec dayX s ND) as [N1 I1].
      destruct (IH _ N1) as [N2 I2]. split; [exact N2|].
      intro x. rewrite I2, I1. apply set_has_In in E. split.
      * intros [[I|I]|[(y & Iy & Iy') I]]; auto.
        -- right. split; [exists n; split; [now left | exact E] | exact I].
        -- right. split; [exists y; split; [now right | exact Iy'] | exact I].
      * intros [I|[_ I]]; auto.
    + destruct (IH _ ND) as [N2 I2]. split; [exact N2|].
      intro x. rewrite I2. unfold JsSet.has in E. apply includes_false in E.
      split.
      * intros [I|[(y & Iy & Iy') I]]; auto.
        right. split; [exists y; split; [now right | exact Iy'] | exact I].
      * intros [I|[(y & [<-|Iy] & Iy') I]]; auto; [contradiction|].
        right. split; [exists y; auto | exact I].
Qed.

Lemma sandwich_loop (slice : list DayInfo) (idxs : list Z) (s : list string) :
  NoDup s ->
  (forall i, In i idxs -> (0 <= i)%Z /\ (i + 2 < len slice)%Z) ->
  exists s',
    forEachM
      (fun sandwichedCandidates i =>
         match js_nth slice i, js_nth slice (i + 1), js_nth slice (i + 2) with
         | Some a, Some x, Some b =>
             let dayA := JsSet.of_list (uniqueNumbers a) in
             let dayX := JsSet.of_list (uniqueNumbers x) in
             let dayB := JsSet.of_list (uniqueNumbers b) in
             Ok (fold_left
                   (fun sandwichedCandidates numA =>
                      if JsSet.has numA dayB then
                        fold_left
                          (fun sandwichedCandidates numX =>
                             JsSet.add numX sandwichedCandidates)
                          dayX sandwichedCandidates
                      else sandwichedCandidates)
                   dayA sandwichedCandidates)
         | _, _, _ => Throw (TypeError "historySlice[i] is undefined")
         end)
      idxs s = Ok s'
    /\ NoDup s'
    /\ forall numX,
         In numX s'
         <-> In numX s
             \/ exists i dayA dayX dayB numA,
                  In i idxs
                  /\ js_nth slice i = Some dayA
                  /\ js_nth slice (i + 1) = Some dayX
                  /\ js_nth slice (i + 2) = Some dayB
                  /\ In numA (uniqueNumbers dayA)
                  /\ In numA (uniqueNumbers dayB)
                  /\ In numX (uniqueNumbers dayX).
Proof.
  revert s. induction idxs as [|i idxs IH]; intros s ND R; cbn [forEachM].
  - exists s. split; [reflexivity|]. split; [exact ND|]. intro x.
    split; [tauto|]. intros [I|(i & _ & _ & _ & _ & [] & _)]. exact I.
  - destruct (R i (or_introl eq_refl)) as [P0 P2].
    destruct (js_nth_defined slice i) as [a Ea]; [lia|].
    destruct (js_nth_defined slice (i + 1)) as [x Ex]; [lia|].
    destruct (js_nth_defined slice (i + 2)) as [b Eb]; [lia|].
    rewrite Ea, Ex, Eb. cbn [bind]. cbv zeta.
    destruct (sandwich_day (JsSet.of_list (uniqueNumbers a))
                (JsSet.of_list (uniqueNumbers b))
                (JsSet.of_list (uniqueNumbers x)) s ND) as [N1 I1].
    cbv zeta in N1, I1.
    destruct (IH _ N1) as (s' & Es & Ns & Is).
    { intros j Ij. apply R. now right. }
    exists s'. split; [exact Es|]. split; [exact Ns|].
    intro numX. rewrite Is, I1. split.
    + intros [[I|[(numA & IA & IB) IX]]|(j & dA & dX & dB & nA & Ij & Q)].
      * now left.
      * right. exists i, a, x, b, numA.
        apply (proj1 (set_of_list_In _ _)) in IA.
        apply (proj1 (set_of_list_In _ _)) in IB.
        apply (proj1 (set_of_list_In _ _)) in IX.
        split; [now left|]. repeat (split; [assumption|]). assumption.
      * right. exists j, dA, dX, dB, nA. split; [now right | exact Q].
    + intros [I|(j & dA & dX & dB & nA & [<-|Ij] & Ja & Jx & Jb & IA & IB & IX)].
      * left. now left.
      * left. right. rewrite Ea in Ja. rewrite Ex in Jx. rewrite Eb in Jb.
        injection Ja as <-. injection Jx as <-. injection Jb as <-.
        split; [exists nA; split|]; now apply set_of_list_In.
      * right. exists j, dA, dX, dB, nA. auto 10.
Qed.

(** X20.  [getSandwichedNumbers] returns, for any history, and the set it
    returns holds exactly the numbers that landed on one of the last
    [daysLookback] days of the history whose previous and next day, both
    among those days too, have a number in common. *)
Theorem getSandwichedNumbers_spec (a : DataAnalyzer.t) (daysLookback : Z) :
  exists s,
    DataAnalyzer.getSandwichedNumbers a daysLookback = Ok s
    /\ NoDup s
    /\ forall numX,
         In numX s
         <-> sandwiched
               (lookback_window (DataAnalyzer.historyData a) daysLookback)
               numX.
Proof.
  rewrite <- getHistorySlice_window.
  unfold DataAnalyzer.getSandwichedNumbers, sandwiched.
  set (slice := DataAnalyzer._getHistorySlice a daysLookback).
  destruct (len slice <? 3)%Z eqn:E.
  - exists []. split; [reflexivity|]. split; [constructor|].
    intro numX. split; [intros []|].
    intros (i & dA & dX & dB & nA & Ja & _ & Jb & _).
    apply js_nth_range in Ja, Jb. lia.
  - destruct (sandwich_loop slice (Zrange 0 (len slice - 3)) []
                (NoDup_nil _)) as (s & Es & Ns & Is).
    { intros i I. apply In_Zrange in I. lia. }
    exists s. split; [exact Es|]. split; [exact Ns|].
    intro numX. rewrite Is. split.
    + intros [[]|(i & dA & dX & dB & nA & _ & Q)]. exists i, dA, dX, dB, nA.
      exact Q.
    + intros (i & dA & dX & dB & nA & Ja & Jx & Jb & Q). right.
      exists i, dA, dX, dB, nA. split; [|auto].
      apply In_Zrange. apply js_nth_range in Ja, Jb. lia.
Qed.

(* ================================================================== *)
(** * Absence history *)

Lemma gaps_step (x y : Z) (rest : list Z) :
  DataAnalyzer.gaps (x :: y :: rest) = (y - x)%Z :: DataAnalyzer.gaps (y :: rest).
Proof. reflexivity. Qed.

Section Absences.
Variable num : string.

Let body := fun (st : Z * Z * list Z) (dayInfo : DayInfo) (i : Z) =>
  let '(lastAppearanceIndex, currentConsecutiveAbsence, ganLengths) := st in
  if includes (uniqueNumbers dayInfo) num then
    (i, 0%Z,
     if negb (lastAppearanceIndex =? -1)%Z
     then ganLengths ++ [currentConsecutiveAbsence]
     else ganLengths)
  else (lastAppearanceIndex, (currentConsecutiveAbsence + 1)%Z, ganLengths).

Lemma scan_position (l : list DayInfo) (i li cur : Z) (lens : list Z) :
  fst (forEachi body l i (li, cur, lens))
  = match last_landing num l with
    | Some k => ((i + k)%Z, (len l - 1 - k)%Z)
    | None => (li, (cur + len l)%Z)
    end.
Proof.
  revert i li cur lens. induction l as [|d l IH]; intros i li cur lens.
  - cbn. f_equal. lia.
  - cbn [forEachi last_landing]. unfold body at 2.
    destruct (includes (uniqueNumbers d) num).
    + rewrite IH. rewrite len_cons.
      destruct (last_landing num l) as [k|]; f_equal; lia.
    + rewrite IH. rewrite len_cons.
      destruct (last_landing num l) as [k|]; f_equal; lia.
Qed.

Lemma scan_lengths (l : list DayInfo) (i li cur : Z) (lens : list Z) :
  (0 <= i)%Z ->
  (li <> (-1)%Z -> cur = (i - 1 - li)%Z) ->
  snd (forEachi body l i (li, cur, lens))
  = lens ++ map (fun g => (g - 1)%Z)
              (DataAnalyzer.gaps
                 (if (li =? -1)%Z then landings num l i
                  else li :: landings num l i)).
Proof.
  revert i li cur lens. induction l as [|d l IH]; intros i li cur lens P C.
  - cbn [forEachi snd landings]. destruct (li =? -1)%Z; cbn;
      now rewrite app_nil_r.
  - cbn [forEachi landings]. unfold body at 2.
    destruct (includes (uniqueNumbers d) num).
    + rewrite IH by lia.
      destruct (i =? -1)%Z eqn:Ei; [lia|].
      destruct (li =? -1)%Z eqn:El; cbn [negb].
      * reflexivity.
      * rewrite gaps_step. cbn [map]. rewrite <- app_assoc. cbn [app].
        do 2 f_equal. lia.
    + rewrite IH by lia. reflexivity.
Qed.
End Absences.

Lemma scanAbsences_spec (a : DataAnalyzer.t) (num : string) :
  DataAnalyzer.scanAbsences a num []
  = (match last_landing num (DataAnalyzer.historyData a) with
     | Some k => (k, (len (DataAnalyzer.historyData a) - 1 - k)%Z)
     | None => ((-1)%Z, len (DataAnalyzer.historyData a))
     end,
     map (fun g => (g - 1)%Z)
       (DataAnalyzer.gaps (landings num (DataAnalyzer.historyData a) 0))).
Proof.
  unfold DataAnalyzer.scanAbsences.
  rewrite (surjective_pairing (forEachi _ _ _ _)).
  rewrite (scan_position num), (scan_lengths num) by lia.
  cbn [Z.eqb app]. destruct (last_landing num _); reflexivity.
Qed.

(* ================================================================== *)
(** * The statistics helpers in the worker *)

Lemma rebuild_throws {V W} (f : V -> Result W) (m : list (string * V))
  (acc : list (string * W)) :
  (exists e,
     forEachM (fun acc entry => w <- f (snd entry) ;; Ok (acc ++ [(fst entry, w)]))
       m acc = Throw e)
  <-> exists x v, In (x, v) m /\ exists e, f v = Throw e.
Proof.
  revert acc. induction m as [|[k v0] m IH]; intro acc; cbn [forEachM fst snd].
  - split; [intros [e F]; discriminate | intros (x & v & [] & _)].
  - destruct (f v0) as [w|e0] eqn:F0; cbn [bind].
    + rewrite IH. split.
      * intros (x & v & I & T). exists x, v. split; [now right | exact T].
      * intros (x & v & [I|I] & T).
        -- injection I as <- <-. destruct T as [e T]. congruence.
        -- exists x, v. auto.
    + split; [|eauto]. intros _. exists k, v0. split; [now left | eauto].
Qed.

Lemma finishCycle_worker (a : DataAnalyzer.t) (idxs : list Z) :
  (exists e,
     DataAnalyzer.finishCycle a Stats.worker_global (unfinished_cycle idxs)
     = Throw e)
  <-> (2 <= len idxs)%Z.
Proof.
  unfold DataAnalyzer.finishCycle.
  cbn [unfinished_cycle CycleInfo.appearances CycleInfo.cycles List.app].
  destruct (len idxs >=? 2)%Z eqn:E.
  - unfold Stats.averageArray. rewrite len_map, len_gaps.
    destruct (Z.max 0 (len idxs - 1) =? 0)%Z eqn:E0; [lia|].
    cbn. split; [lia | eauto].
  - cbn [bind]. split; [intros [e F]; discriminate | lia].
Qed.

(** X22.  In the worker, where [this.sumArray] is undefined,
    [getNumberCycleAnalysis] throws on a prepared history exactly when
    some universe member landed on two or more days; it returns only for
    histories in which no number ever landed twice. *)
Theorem getNumberCycleAnalysis_worker_scope (h : list DayInfo)
  (a : DataAnalyzer.t) (minCycleCount : Z) :
  DataAnalyzer.new (Some h) = Ok a ->
  prepared h ->
  (exists e,
     DataAnalyzer.getNumberCycleAnalysis a Stats.worker_global minCycleCount
     = Throw e)
  <-> exists num, In num universe /\ (2 <= len (landings num h 0))%Z.
Proof.
  intros New P. destruct (new_analyzer h a New) as (_ & Hh & Ha & _).
  unfold DataAnalyzer.getNumberCycleAnalysis. rewrite Ha.
  destruct (collectAppearances_spec a) as (m1 & E1 & K1 & G1);
    [now rewrite Hh|].
  rewrite E1. cbn [bind]. rewrite rebuild_throws.
  assert (ND : NoDup (JsMap.keys m1)) by (rewrite K1; apply universe_NoDup).
  rewrite Hh in G1. split.
  - intros (x & v & I & T). apply (In_entry_get x v m1 ND) in I.
    assert (U : In x universe) by (rewrite <- K1; eapply get_Some_in; eauto).
    rewrite (G1 x U) in I. injection I as <-.
    exists x. split; [exact U|]. now apply (finishCycle_worker a).
  - intros (num & U & L). exists num, (unfinished_cycle (landings num h 0)).
    split.
    + apply (In_entry_get _ _ m1 ND). now apply G1.
    + now apply finishCycle_worker.
Qed.

Lemma getNumberCycleAnalysis_worker_scope_witness :
  (exists e,
     DataAnalyzer.getNumberCycleAnalysis (sample_analyzer cycle_sample)
       Stats.worker_global 3 = Throw e)
  <-> exists num, In num universe
                  /\ (2 <= len (landings num cycle_sample 0))%Z.
Proof.
  apply (getNumberCycleAnalysis_worker_scope cycle_sample
           (sample_analyzer cycle_sample) 3).
  - reflexivity.
  - apply prepared_check_ok. vm_compute. reflexivity.
Defined.

Lemma float_zero_not_one : 0%float <> 1%float.
Proof.
  intro E. apply (f_equal (fun x => PrimFloat.eqb x 0)) in E.
  vm_compute in E. discriminate.
Qed.

(** C8, as amended.  On a prepared history in which no universe member
    landed on more than one day, [getNumberCycleAnalysis] returns in the
    worker, and the entry of every universe member lists its appearance
    indices over the whole history and has the consistency score 0, the
    value the entry starts with. *)
Theorem getNumberCycleAnalysis_consistency (h : list DayInfo)
  (a : DataAnalyzer.t) (minCycleCount : Z) :
  DataAnalyzer.new (Some h) = Ok a ->
  prepared h ->
  (forall num, In num universe -> (len (landings num h 0) < 2)%Z) ->
  exists m,
    DataAnalyzer.getNumberCycleAnalysis a Stats.worker_global minCycleCount
    = Ok m
    /\ forall num, In num universe ->
         exists info,
           JsMap.get num m = Some info
           /\ CycleInfo.appearances info = landings num h 0
           /\ CycleInfo.consistencyScore info = 0%float.
Proof.
  intros New P Few. destruct (new_analyzer h a New) as (_ & Hh & Ha & _).
  unfold DataAnalyzer.getNumberCycleAnalysis. rewrite Ha.
  destruct (collectAppearances_spec a) as (m1 & E1 & K1 & G1);
    [now rewrite Hh|].
  rewrite E1. cbn [bind]. rewrite Hh in G1.
  destruct (forEachM _ m1 []) as [m|e] eqn:R.
  - exists m. split; [reflexivity|]. intros num U.
    destruct (forEachM_rebuild
                (DataAnalyzer.finishCycle a Stats.worker_global) m1 [] m R)
      as [_ P2].
    destruct (P2 num _ eq_refl (G1 num U)) as (info & F & G).
    destruct (finishCycle_score a Stats.worker_global _ info F)
      as (A & Lt & _).
    exists info. split; [exact G|]. split; [exact A|]. apply Lt, Few, U.
  - exfalso.
    assert (T : exists e',
      forEachM
        (fun acc entry =>
           w <- DataAnalyzer.finishCycle a Stats.worker_global (snd entry) ;;
           Ok (acc ++ [(fst entry, w)]))
        m1 [] = Throw e') by (exists e; exact R).
    rewrite rebuild_throws in T. destruct T as (x & v & I & T).
    assert (ND : NoDup (JsMap.keys m1)) by (rewrite K1; apply universe_NoDup).
    apply (In_entry_get x v m1 ND) in I.
    assert (U : In x universe) by (rewrite <- K1; eapply get_Some_in; eauto).
    rewrite (G1 x U) in I. injection I as <-.
    apply (finishCycle_worker a) in T. specialize (Few x U). lia.
Qed.

Lemma getNumberCycleAnalysis_consistency_witness :
  exists m,
    DataAnalyzer.getNumberCycleAnalysis (sample_analyzer scattered_landings)
      Stats.worker_global 3 = Ok m
    /\ forall num, In num universe ->
         exists info,
           JsMap.get num m = Some info
           /\ CycleInfo.appearances info = landings num scattered_landings 0
           /\ CycleInfo.consistencyScore info = 0%float.
Proof.
  apply (getNumberCycleAnalysis_consistency scattered_landings
           (sample_analyzer scattered_landings) 3).
  - reflexivity.
  - apply prepared_check_ok. vm_compute. reflexivity.
  - intros num U.
    assert (C : forallb
                  (fun num => (len (landings num scattered_landings 0) <? 2)%Z)
                  universe = true) by (vm_compute; reflexivity).
    rewrite forallb_forall in C. apply Z.ltb_lt, C, U.
Defined.

(** C8, counterexample.  "07" landed once, so it has no gap at all; the
    reported consistency score is 0, not 1. *)
Lemma consistency_claim_fails_on_single_landing :
  ~ consistency_claim_as_stated single_landing "07".
Proof.
  intro C.
  assert (R : exists m info,
    DataAnalyzer.getNumberCycleAnalysis (sample_analyzer single_landing)
      Stats.worker_global 3 = Ok m
    /\ JsMap.get "07"%string m = Some info
    /\ CycleInfo.consistencyScore info = 0%float).
  { eexists. eexists. split; [vm_compute; reflexivity|].
    split; vm_compute; reflexivity. }
  destruct R as (m & info & Em & Gm & Sc).
  specialize (C (sample_analyzer single_landing) m info eq_refl Em Gm).
  rewrite Sc in C. apply float_zero_not_one. apply C. vm_compute. reflexivity.
Qed.

(* ================================================================== *)
(** * Further facts about backtester.js *)

(** X23.  For every history of 201 to 349 records and every engine,
    [runBacktest] throws a [ReferenceError]: the start index has to be
    adjusted, and the adjusting assignment reads the unbound identifier
    [MIN_HISTORY_FOR_ANALYSIS]. *)
Theorem runBacktest_throws_between_201_and_349 (engine : Backtester.Engine)
  (h : list DayInfo) :
  (201 <= len h < 350)%Z ->
  Backtester.runBacktest engine h
  = Throw (ReferenceError "MIN_HISTORY_FOR_ANALYSIS").
Proof. apply runBacktest_middle. Qed.

Lemma runBacktest_throws_between_201_and_349_witness :
  Backtester.runBacktest flaky_engine history_of_349_days
  = Throw (ReferenceError "MIN_HISTORY_FOR_ANALYSIS").
Proof.
  apply (runBacktest_throws_between_201_and_349 flaky_engine
           history_of_349_days).
  vm_compute. split; [discriminate | reflexivity].
Defined.

Lemma sum_net_profits (hits : list Z) :
  sum_Z (map (fun x => x * Backtester.REWARD_PER_LOTTO_POINT_HIT
                       - Backtester.COST_PER_DAY_PREDICTION)%Z hits)
  = (Backtester.REWARD_PER_LOTTO_POINT_HIT * sum_Z hits
     - Backtester.COST_PER_DAY_PREDICTION * len hits)%Z.
Proof.
  induction hits as [|x hits IH]; [reflexivity|].
  cbn [map]. rewrite !sum_Z_cons, IH, len_cons. lia.
Qed.

Lemma numbered_before (l : list DayInfo) (i t : Z) :
  map snd (filter (fun p => (fst p <? t)%Z) (numbered i l))
  = firstn (Z.to_nat (t - i)) l.
Proof.
  revert i. induction l as [|d l IH]; intro i; cbn [numbered filter map fst].
  - now rewrite firstn_nil.
  - destruct (i <? t)%Z eqn:E; cbn [map snd].
    + replace (Z.to_nat (t - i)) with (S (Z.to_nat (t - (i + 1)))) by lia.
      cbn [firstn]. now rewrite IH.
    + replace (Z.to_nat (t - i)) with 0%nat by lia. cbn [firstn].
      rewrite IH. replace (Z.to_nat (t - (i + 1))) with 0%nat by lia.
      reflexivity.
Qed.

(** The training data of day [i] are the records before [i]. *)
Lemma trainingDataAt_before (h : list DayInfo) (i : Z) :
  Backtester.trainingDataAt h i = records_before h i.
Proof.
  unfold Backtester.trainingDataAt, records_before.
  rewrite numbered_before. f_equal. lia.
Qed.

Lemma day_hits_without_lookahead (engine : Backtester.Engine)
  (h : list DayInfo) (i : Z) :
  day_hits engine h i = hits_without_lookahead engine h i.
Proof.
  unfold day_hits, hits_without_lookahead.
  now rewrite trainingDataAt_before.
Qed.

(** X24.  With 350 records or more, [runBacktest] replays exactly the
    trailing 150 day indices in ascending order; the count recorded for
    a day is the number of predicted numbers among that day's numbers,
    the engine having been given the records at the indices before that
    day's and no other (0 when the prediction throws).  The money totals are consistent with
    the daily counts: gains are 80000 per hit, the net profit is gains
    less investment and equals the sum of the daily net profits, and the
    two threshold counters count the days with at least 10 and at least
    5 hits. *)
Theorem runBacktest_replays_window (engine : Backtester.Engine)
  (h : list DayInfo) :
  (350 <= len h)%Z ->
  exists stats,
    Backtester.runBacktest engine h = Ok stats
    /\ Backtester.dailyCorrectCounts stats
       = map (hits_without_lookahead engine h)
           (Zrange (len h - 150) (len h - 1))
    /\ Backtester.totalGains stats
       = (80000 * sum_Z (Backtester.dailyCorrectCounts stats))%Z
    /\ Backtester.netProfit stats
       = (Backtester.totalGains stats - Backtester.totalInvestment stats)%Z
    /\ Backtester.netProfit stats = sum_Z (Backtester.dailyNetProfits stats)
    /\ Backtester.daysWithHighAccuracy stats
       = len (filter (fun x => (x >=? 10)%Z)
                (Backtester.dailyCorrectCounts stats))
    /\ Backtester.daysMeetingProfitThreshold stats
       = len (filter (fun x => (x >=? 5)%Z)
                (Backtester.dailyCorrectCounts stats))
    /\ Backtester.reason stats = None.
Proof.
  intro L. rewrite (runBacktest_long engine h L).
  eexists. split; [reflexivity|].
  rewrite <- (map_ext _ _ (day_hits_without_lookahead engine h)).
  unfold Backtester.finalStats, replayed.
  cbn [Backtester.dailyCorrectCounts Backtester.totalGains
       Backtester.netProfit Backtester.totalInvestment
       Backtester.dailyNetProfits Backtester.daysWithHighAccuracy
       Backtester.daysMeetingProfitThreshold Backtester.reason
       Backtester.c_totalDaysTested Backtester.c_totalCorrectNumbers
       Backtester.c_daysWithHighAccuracy
       Backtester.c_daysMeetingProfitThreshold
       Backtester.c_dailyCorrectCounts Backtester.c_totalInvestment
       Backtester.c_totalGains Backtester.c_dailyNetProfits
       Backtester.initialCounters app].
  set (hits := map (day_hits engine h) (Zrange (len h - 150) (len h - 1))).
  assert (Lh : len hits = len (Zrange (len h - 150) (len h - 1)))
    by apply len_map.
  rewrite sum_net_profits, Lh.
  unfold Backtester.REWARD_PER_LOTTO_POINT_HIT,
    WorkerUtils.HIGH_ACCURACY_THRESHOLD, WorkerUtils.PROFIT_THRESHOLD_DEFAULT.
  repeat split; lia.
Qed.

Lemma runBacktest_replays_window_witness :
  exists stats,
    Backtester.runBacktest flaky_engine long_history = Ok stats
    /\ Backtester.dailyCorrectCounts stats
       = map (hits_without_lookahead flaky_engine long_history)
           (Zrange (len long_history - 150) (len long_history - 1))
    /\ Backtester.totalGains stats
       = (80000 * sum_Z (Backtester.dailyCorrectCounts stats))%Z
    /\ Backtester.netProfit stats
       = (Backtester.totalGains stats - Backtester.totalInvestment stats)%Z
    /\ Backtester.netProfit stats = sum_Z (Backtester.dailyNetProfits stats)
    /\ Backtester.daysWithHighAccuracy stats
       = len (filter (fun x => (x >=? 10)%Z)
                (Backtester.dailyCorrectCounts stats))
    /\ Backtester.daysMeetingProfitThreshold stats
       = len (filter (fun x => (x >=? 5)%Z)
                (Backtester.dailyCorrectCounts stats))
    /\ Backtester.reason stats = None.
Proof.
  apply (runBacktest_replays_window flaky_engine long_history).
  vm_compute. discriminate.
Defined.

(* ================================================================== *)
(** * What the worker's [averageArray] does to its callers *)

Lemma forEachM_update_throws {V} (upd : string -> V -> Result V)
  (err : JsError) (v0 : V) (l : list string) (m0 : list (string * V)) :
  NoDup l ->
  (forall x, In x l -> JsMap.get x m0 = Some v0) ->
  (exists e,
     forEachM
       (fun m x =>
          match JsMap.get x m with
          | Some v => w <- upd x v ;; Ok (JsMap.set x w m)
          | None => Throw err
          end)
       l m0 = Throw e)
  <-> exists x, In x l /\ exists e, upd x v0 = Throw e.
Proof.
  revert m0. induction l as [|y l IH]; intros m0 ND G; cbn [forEachM].
  - split; [intros [e F]; discriminate | intros (x & [] & _)].
  - inversion ND as [|? ? Ny ND']; subst.
    rewrite (G y (or_introl eq_refl)).
    destruct (upd y v0) as [w|e0] eqn:U; cbn [bind].
    + rewrite IH; [|exact ND'|].
      * split.
        -- intros (x & I & T). exists x. split; [now right | exact T].
        -- intros (x & [<-|I] & T); [destruct T; congruence|]. eauto.
      * intros x I. rewrite get_set_other by (intro; subst; contradiction).
        apply G. now right.
    + split; [|eauto]. intros _. exists y. split; [now left | eauto].
Qed.

(** X27.  In the worker [getHistoricalGanAnalysis] throws exactly when
    some universe member landed on two or more days of the history (it
    then has a first gan length, whose average [averageArray] cannot
    compute); it returns only when no number ever landed twice. *)
Theorem getHistoricalGanAnalysis_worker_scope (h : list DayInfo)
  (a : DataAnalyzer.t) :
  DataAnalyzer.new (Some h) = Ok a ->
  (exists e,
     DataAnalyzer.getHistoricalGanAnalysis a Stats.worker_global = Throw e)
  <-> exists num, In num universe /\ (2 <= len (landings num h 0))%Z.
Proof.
  intro New. destruct (new_analyzer h a New) as (_ & Hh & Ha & _).
  unfold DataAnalyzer.getHistoricalGanAnalysis. rewrite Ha.
  rewrite (of_entries_NoDup (fun _ => GanHistory.initial))
    by apply universe_NoDup.
  set (upd := fun (x : string) (historyForNum : GanHistory.t) =>
    let '(lastAppearanceIndex, currentConsecutiveAbsence, ganLengths) :=
      DataAnalyzer.scanAbsences a x (GanHistory.ganLengths historyForNum) in
    let lastGanPeriod :=
      if negb (lastAppearanceIndex =? -1)%Z then currentConsecutiveAbsence
      else len (DataAnalyzer.historyData a) in
    if (len ganLengths >? 0)%Z then
      avgGan <- Stats.averageArray Stats.worker_global
                  (map Z_to_float ganLengths) ;;
      stdDevGan <- Stats.standardDeviation Stats.worker_global
                     (map Z_to_float ganLengths) ;;
      Ok {| GanHistory.ganLengths := ganLengths;
            GanHistory.avgGan := avgGan;
            GanHistory.stdDevGan := stdDevGan;
            GanHistory.lastGanPeriod := lastGanPeriod |}
    else
      Ok {| GanHistory.ganLengths := ganLengths;
            GanHistory.avgGan := GanHistory.avgGan historyForNum;
            GanHistory.stdDevGan := GanHistory.stdDevGan historyForNum;
            GanHistory.lastGanPeriod := lastGanPeriod |}).
  rewrite forEachM_ext
    with (g := fun m x =>
                 match JsMap.get x m with
                 | Some v => w <- upd x v ;; Ok (JsMap.set x w m)
                 | None => Throw (TypeError "historyForNum is undefined")
                 end).
  2:{ intros m x _. destruct (JsMap.get x m) as [v0|]; [|reflexivity].
      unfold upd.
      destruct (DataAnalyzer.scanAbsences a x (GanHistory.ganLengths v0))
        as [[li cur] lens].
      destruct (len lens >? 0)%Z; [|reflexivity].
      destruct (Stats.averageArray _ _); [|reflexivity]. cbn [bind].
      destruct (Stats.standardDeviation _ _); reflexivity. }
  rewrite (forEachM_update_throws upd _ GanHistory.initial universe _
             universe_NoDup)
    by (intros x I; now apply (get_map_pair (fun _ => GanHistory.initial))).
  assert (Upd : forall x,
    (exists e, upd x GanHistory.initial = Throw e)
    <-> (2 <= len (landings x h 0))%Z).
  { intro x. unfold upd. cbn [GanHistory.initial GanHistory.ganLengths].
    rewrite scanAbsences_spec, Hh.
    destruct (match last_landing x h with
              | Some k => (k, (len h - 1 - k)%Z)
              | None => ((-1)%Z, len h)
              end) as [li cur].
    rewrite len_map, len_gaps.
    destruct (Z.max 0 (len (landings x h 0) - 1) >? 0)%Z eqn:E.
    - unfold Stats.averageArray. rewrite !len_map, len_gaps.
      destruct (Z.max 0 (len (landings x h 0) - 1) =? 0)%Z eqn:E0; [lia|].
      cbn. split; [lia | eauto].
    - split; [intros [e F]; discriminate | lia]. }
  split.
  - intros (x & U & T). exists x. split; [exact U | now apply Upd].
  - intros (x & U & L). exists x. split; [exact U | now apply Upd].
Qed.

Lemma getHistoricalGanAnalysis_worker_scope_witness :
  (exists e,
     DataAnalyzer.getHistoricalGanAnalysis (sample_analyzer cycle_sample)
       Stats.worker_global = Throw e)
  <-> exists num, In num universe
                  /\ (2 <= len (landings num cycle_sample 0))%Z.
Proof.
  apply (getHistoricalGanAnalysis_worker_scope cycle_sample
           (sample_analyzer cycle_sample)).
  reflexivity.
Defined.

(** The cycle analysis throws in the worker as soon as a number has two
    appearances. *)
(* ================================================================== *)
(** * Comparisons of binary64 numbers *)

Lemma SFcompare_antisym (x y : spec_float) (c : comparison) :
  SFcompare x y = Some c -> SFcompare y x = Some (CompOpp c).
Proof.
  destruct x as [s1|s1| |s1 m1 e1], y as [s2|s2| |s2 m2 e2]; cbn;
    try discriminate;
    try (intro E; injection E as <-;
         repeat match goal with s : bool |- _ => destruct s end;
         reflexivity).
  intro E. injection E as <-. f_equal.
  destruct s1, s2; try reflexivity;
    rewrite (Z.compare_antisym e1 e2);
    destruct (e1 ?= e2)%Z eqn:Ee; cbn [CompOpp]; try reflexivity;
    rewrite (Pos.compare_cont_antisym m1 m2 Eq); cbn [CompOpp];
    now destruct (Pos.compare_cont Eq m1 m2).
Qed.

Lemma ltb_leb (a b : float) :
  PrimFloat.ltb a b = true -> PrimFloat.leb a b = true.
Proof.
  rewrite ltb_spec, leb_spec. unfold SFltb, SFleb.
  destruct (SFcompare (Prim2SF a) (Prim2SF b)) as [[]|]; congruence.
Qed.

Lemma not_NaN_spec (x : float) : isNaN x = false -> Prim2SF x <> S754_nan.
Proof.
  unfold isNaN. rewrite eqb_spec. unfold SFeqb. intros E N.
  rewrite N in E. discriminate.
Qed.

Lemma compared (a b : float) :
  isNaN a = false -> isNaN b = false ->
  exists c, SFcompare (Prim2SF a) (Prim2SF b) = Some c.
Proof.
  intros Na Nb. apply not_NaN_spec in Na, Nb.
  destruct (Prim2SF a), (Prim2SF b); cbn; try congruence; eauto.
Qed.

(** Two numbers neither of which is below the other compare as equal. *)
Lemma neither_below (a b : float) :
  isNaN a = false -> isNaN b = false ->
  PrimFloat.ltb a b = false -> PrimFloat.ltb b a = false ->
  PrimFloat.leb a b = true.
Proof.
  intros Na Nb. destruct (compared a b Na Nb) as [c E].
  rewrite !ltb_spec, leb_spec. unfold SFltb, SFleb.
  rewrite (SFcompare_antisym _ _ _ E), E. destruct c; cbn; congruence.
Qed.

Lemma or_zero_number (x : float) : isNaN (or_zero x) = false.
Proof.
  unfold or_zero. destruct (isNaN x) eqn:N; cbn [orb]; [reflexivity|].
  destruct (PrimFloat.eqb x 0); [reflexivity | exact N].
Qed.

(** A capped score lies between 0 and 100. *)
Lemma capScore_range (found : option float) :
  PrimFloat.leb 0 (StrategyScores.capScore found) = true
  /\ PrimFloat.leb (StrategyScores.capScore found) 100 = true.
Proof.
  unfold StrategyScores.capScore, StrategyScores.MAX_STRATEGY_SCORE.
  set (x := match found with
            | Some s => or_zero s
            | None => 0%float
            end).
  assert (Nx : isNaN x = false).
  { unfold x. destruct found; [apply or_zero_number | reflexivity]. }
  assert (Y : isNaN (js_min x 100) = false
              /\ PrimFloat.leb (js_min x 100) 100 = true).
  { unfold js_min. rewrite Nx. cbn [orb].
    change (isNaN 100) with false. cbv iota.
    destruct (PrimFloat.ltb x 100) eqn:L1; [split; [exact Nx | now apply ltb_leb]|].
    destruct (PrimFloat.ltb 100 x) eqn:L2; [split; reflexivity|].
    assert (Le : PrimFloat.leb x 100 = true)
      by (apply neither_below; auto).
    destruct (PrimFloat.classify x); auto; split; reflexivity. }
  destruct Y as [Ny Ly]. generalize dependent (js_min x 100). intros y Ny Ly.
  unfold max_zero. rewrite Ny.
  destruct (PrimFloat.ltb 0 y) eqn:L0.
  - split; [now apply ltb_leb | exact Ly].
  - split; reflexivity.
Qed.

(* ================================================================== *)
(** * The lô rơi / lô lộn strategy *)

Lemma addScore_keys (num : string) (x : float) (s : list (string * float)) :
  In num (JsMap.keys s) ->
  JsMap.keys (StrategyScores.addScore num x s) = JsMap.keys s.
Proof. intro I. unfold StrategyScores.addScore. now apply keys_set_in. Qed.

Lemma fold_keys_inv {A V} (step : list (string * V) -> A -> list (string * V))
  (l : list A) (s : list (string * V)) (K : list string) :
  JsMap.keys s = K ->
  (forall s e, In e l -> JsMap.keys s = K -> JsMap.keys (step s e) = K) ->
  JsMap.keys (fold_left step l s) = K.
Proof.
  revert s. induction l as [|e l IH]; intros s Ks St; cbn [fold_left]; auto.
  apply IH.
  - apply St; [now left | exact Ks].
  - intros s' e' I. apply St. now right.
Qed.

Lemma zeroScores_universe :
  StrategyScores.zeroScores universe = map (fun k => (k, 0%float)) universe.
Proof.
  unfold StrategyScores.zeroScores.
  apply (fold_set_each (fun _ => 0%float)), universe_NoDup.
Qed.

Lemma capScores_spec (l : list string) (s : list (string * float)) :
  NoDup l -> incl l (JsMap.keys s) ->
  JsMap.keys (StrategyScores.capScores l s) = JsMap.keys s
  /\ forall x, In x l ->
       JsMap.get x (StrategyScores.capScores l s)
       = Some (StrategyScores.capScore (JsMap.get x s)).
Proof.
  unfold StrategyScores.capScores. revert s.
  induction l as [|y l IH]; intros s ND Sub; cbn [fold_left].
  - split; [reflexivity | intros x []].
  - inversion ND as [|? ? Ny ND']; subst.
    set (s1 := JsMap.set y (StrategyScores.capScore (JsMap.get y s)) s).
    assert (K1 : JsMap.keys s1 = JsMap.keys s)
      by (apply keys_set_in, Sub; now left).
    destruct (IH s1 ND') as [K G].
    { intros x I. rewrite K1. apply Sub. now right. }
    split; [congruence|]. intros x [<-|I].
    + clear G. assert (G1 : JsMap.get y s1
                            = Some (StrategyScores.capScore (JsMap.get y s)))
        by apply get_set_same.
      revert G1. generalize s1. clear -Ny. induction l as [|z l IHl];
        intros s1 G1; cbn [fold_left]; [exact G1|].
      apply IHl; [intro I; apply Ny; now right|].
      rewrite get_set_other; [exact G1|]. intro; subst; apply Ny; now left.
    + rewrite (G x I). do 2 f_equal. apply get_set_other.
      intro; subst; contradiction.
Qed.

Lemma reverse_in_universe (s : string) :
  In s universe -> In (WorkerUtils.reverseNumber s) universe.
Proof.
  intro U. pose proof involution_check_universe as C.
  rewrite forallb_forall in C. specialize (C s U).
  unfold involution_check in C.
  apply andb_prop in C. destruct C as [C _].
  apply andb_prop in C. destruct C as [_ C]. now apply includes_In.
Qed.

Lemma slice_day_universe (a : DataAnalyzer.t) (daysLookback : Z)
  (d : DayInfo) (x : string) :
  prepared (DataAnalyzer.historyData a) ->
  In d (DataAnalyzer._getHistorySlice a daysLookback) ->
  In x (uniqueNumbers d) -> In x universe.
Proof.
  intros P Id Ix. pose proof (prepared_slice a daysLookback P) as Ps.
  unfold prepared in Ps. rewrite Forall_forall in Ps.
  now apply (prepared_day_facts d (Ps d Id)).
Qed.

Lemma lastDay_universe (a : DataAnalyzer.t) (x : string) :
  prepared (DataAnalyzer.historyData a) ->
  In x (DataAnalyzer.getLastDayNumbers a) -> In x universe.
Proof.
  intros P. unfold DataAnalyzer.getLastDayNumbers.
  destruct (js_nth _ _) as [d|] eqn:N; [|intros []].
  apply js_nth_In in N. unfold prepared in P. rewrite Forall_forall in P.
  now apply (prepared_day_facts d (P d N)).
Qed.

Lemma loRoi_returns (h : list DayInfo) (a : DataAnalyzer.t)
  (daysLookback : Z) :
  DataAnalyzer.new (Some h) = Ok a ->
  exists m,
    DataAnalyzer.getLoRoiCandidates a daysLookback false = Ok m
    /\ forall k, In k (JsMap.keys m) -> In k universe.
Proof.
  intro New. destruct (new_analyzer h a New) as (_ & _ & Ha & _).
  unfold DataAnalyzer.getLoRoiCandidates. rewrite Ha.
  set (slice := DataAnalyzer._getHistorySlice a (daysLookback + 1)).
  destruct (len slice <? 2)%Z.
  - exists []. split; [reflexivity | intros k []].
  - rewrite forEachM_ext
      with (g := fun m num =>
                   Ok (if (repeats num slice >? 0)%Z
                       then JsMap.set num (repeats num slice) m else m)).
    + destruct (store_positive (fun x => repeats x slice) universe []
                  universe_NoDup) as (m & Em & _ & Out1).
      exists m. split; [exact Em|]. intros k I.
      destruct (in_dec string_dec k universe) as [U|N]; [exact U|].
      apply in_keys_get in I. destruct I as [v G].
      rewrite (Out1 _ N) in G. discriminate.
    + intros m x _. rewrite countDrops_spec. cbn [bind fst snd andb negb].
      rewrite andb_true_r. reflexivity.
Qed.

Lemma hits_exists {A} (key : A -> option string) (x : string) (l : list A) :
  hits key x l <> 0%Z -> exists e, In e l /\ key e = Some x.
Proof.
  unfold hits. intro N.
  destruct (filter _ l) as [|e r] eqn:F; [now elim N|].
  assert (I : In e (filter
                      (fun e => match key e with
                                | Some k => String.eqb k x
                                | None => false
                                end) l)) by (rewrite F; now left).
  apply filter_In in I. destruct I as [I C]. exists e. split; [exact I|].
  destruct (key e) as [k|]; [|discriminate].
  apply String.eqb_eq in C. now subst.
Qed.

Lemma loLon_keys (a : DataAnalyzer.t) (daysLookback : Z) (k : string) :
  prepared (DataAnalyzer.historyData a) ->
  In k (JsMap.keys (DataAnalyzer.getLoLonCandidates a daysLookback false)) ->
  In k universe.
Proof.
  intros P I. apply in_keys_get in I. destruct I as [c G].
  unfold DataAnalyzer.getLoLonCandidates in G.
  rewrite (fold_left_ext _
             (fun m dayInfo =>
                fold_left
                  (fun m n =>
                     match reverse_partner n with
                     | Some q => bump_or_zero q m
                     | None => m
                     end)
                  (uniqueNumbers dayInfo) m)) in G.
  - rewrite (fold_left_flat_map _ uniqueNumbers), tally_or_zero in G.
    cbn [JsMap.get] in G.
    destruct (hits reverse_partner k _ =? 0)%Z eqn:E; [discriminate|].
    apply Z.eqb_neq, hits_exists in E. destruct E as (n & In_n & Kn).
    apply in_flat_map in In_n. destruct In_n as (d & Id & Ix).
    unfold reverse_partner in Kn.
    destruct (negb _); [|discriminate]. injection Kn as <-.
    apply reverse_in_universe. now apply (slice_day_universe a daysLookback d).
  - intros m d. apply fold_left_ext. intros m' n. unfold reverse_partner.
    destruct (String.eqb (WorkerUtils.reverseNumber n) n); reflexivity.
Qed.

Lemma sandwiched_returns (a : DataAnalyzer.t) (daysLookback : Z) :
  prepared (DataAnalyzer.historyData a) ->
  exists s,
    DataAnalyzer.getSandwichedNumbers a daysLookback = Ok s
    /\ forall x, In x s -> In x universe.
Proof.
  intro P. unfold DataAnalyzer.getSandwichedNumbers.
  set (slice := DataAnalyzer._getHistorySlice a daysLookback).
  destruct (len slice <? 3)%Z.
  - exists []. split; [reflexivity | intros x []].
  - destruct (sandwich_loop slice (Zrange 0 (len slice - 3)) []
                (NoDup_nil _)) as (s & Es & _ & Is).
    { intros i I. apply In_Zrange in I. lia. }
    exists s. split; [exact Es|]. intros x I. apply Is in I.
    destruct I as [[]|(i & dA & dX & dB & nA & _ & _ & Jx & _ & _ & _ & Ix)].
    apply js_nth_In in Jx.
    now apply (slice_day_universe a daysLookback dX).
Qed.

(** X29.  On a prepared history the lô rơi / lô lộn strategy never
    throws; the map it returns is keyed by the 100 universe members in
    order, and every score lies between 0 and 100. *)
Theorem StrategyLoRoiLon_scores (h : list DayInfo) (a : DataAnalyzer.t) :
  DataAnalyzer.new (Some h) = Ok a ->
  prepared h ->
  exists scores,
    StrategyLoRoiLon.predict a = Ok scores
    /\ JsMap.keys scores = universe
    /\ forall num, In num universe ->
         exists v,
           JsMap.get num scores = Some v
           /\ PrimFloat.leb 0 v = true
           /\ PrimFloat.leb v 100 = true.
Proof.
  intros New P. destruct (new_analyzer h a New) as (_ & Hh & Ha & _).
  rewrite <- Hh in P.
  unfold StrategyLoRoiLon.predict. rewrite Ha. cbv zeta.
  rewrite zeroScores_universe.
  assert (K0 : JsMap.keys (map (fun k => (k, 0%float)) universe) = universe)
    by apply (keys_map_pair (fun _ => 0%float)).
  (* lô rơi *)
  unfold StrategyLoRoiLon._applyLoRoiScores.
  destruct (loRoi_returns h a StrategyScores.LOOKBACK_SHORT New)
    as (roi & Eroi & Kroi).
  rewrite Eroi. cbn [bind].
  set (s1 := fold_left _ roi _).
  assert (K1 : JsMap.keys s1 = universe).
  { apply fold_keys_inv; [exact K0|]. intros s e I Ks.
    rewrite addScore_keys; [exact Ks|]. rewrite Ks. apply Kroi.
    unfold JsMap.keys. now apply in_map. }
  set (s2 := fold_left _ (DataAnalyzer.getLastDayNumbers a) s1).
  assert (K2 : JsMap.keys s2 = universe).
  { apply fold_keys_inv; [exact K1|]. intros s e I Ks.
    rewrite addScore_keys; [exact Ks|]. rewrite Ks.
    now apply (lastDay_universe a). }
  (* lô lộn *)
  unfold StrategyLoRoiLon._applyLoLonScores.
  set (s3 := fold_left _ (DataAnalyzer.getLoLonCandidates a _ false) s2).
  assert (K3 : JsMap.keys s3 = universe).
  { apply fold_keys_inv; [exact K2|]. intros s e I Ks.
    rewrite addScore_keys; [exact Ks|]. rewrite Ks.
    apply (loLon_keys a StrategyScores.LOOKBACK_SHORT); [exact P|].
    unfold JsMap.keys. now apply in_map. }
  set (s4 := fold_left _ (DataAnalyzer.getLastDayNumbers a) s3).
  assert (K4 : JsMap.keys s4 = universe).
  { apply fold_keys_inv; [exact K3|]. intros s e I Ks.
    destruct (negb _); [|exact Ks].
    rewrite addScore_keys; [exact Ks|]. rewrite Ks.
    apply reverse_in_universe. now apply (lastDay_universe a). }
  (* sandwiched *)
  unfold StrategyLoRoiLon._applySandwichedScores.
  destruct (sandwiched_returns a StrategyScores.LOOKBACK_SHORT P)
    as (sw & Esw & Ksw).
  rewrite Esw. cbn [bind].
  set (s5 := fold_left _ sw s4).
  assert (K5 : JsMap.keys s5 = universe).
  { apply fold_keys_inv; [exact K4|]. intros s e I Ks.
    rewrite addScore_keys; [exact Ks|]. rewrite Ks. now apply Ksw. }
  clearbody s5.
  destruct (capScores_spec universe s5 universe_NoDup) as [K G].
  { rewrite K5. apply incl_refl. }
  eexists. split; [reflexivity|]. split; [congruence|].
  intros num U. exists (StrategyScores.capScore (JsMap.get num s5)).
  split; [now apply G | apply capScore_range].
Qed.

Lemma StrategyLoRoiLon_scores_witness :
  exists scores,
    StrategyLoRoiLon.predict (sample_analyzer pairs_sample) = Ok scores
    /\ JsMap.keys scores = universe
    /\ forall num, In num universe ->
         exists v,
           JsMap.get num scores = Some v
           /\ PrimFloat.leb 0 v = true
           /\ PrimFloat.leb v 100 = true.
Proof.
  apply (StrategyLoRoiLon_scores pairs_sample (sample_analyzer pairs_sample)).
  - reflexivity.
  - apply prepared_check_ok. vm_compute. reflexivity.
Defined.
